(** * SECOP natural-language search: the translation pipeline

    A shallow embedding of the core of [backend/app/core]:
    - [query_parser.py]  : [QueryParams], [QueryParser] (model path and
      heuristic fallback),
    - [entity_resolver.py] : [ResolvedEntity], [EntityResolver],
    - [soql_builder.py] : [SoQLBuilder],
    - [secop_client.py] : [SecopClient] (cache, bounded retries),
    followed by the properties the specification states about them.

    Conventions of the embedding.
    - A Python [str] is a [string]; one [ascii] is one character, its
      code the code point.  The model therefore covers the texts whose
      characters lie in U+0000..U+00FF (ASCII and Latin-1, which holds
      the accented vowels and the n-tilde the patterns mention).
    - A Python [int] is a [Z], a Python [float] a binary64 [float].
      Printing and reading floats ([repr], [float(...)]) and
      [json.loads] are library functions; they are taken as parameters.
    - A Python [dict] is an association list in insertion order; its
      keys are strings, as every mapping of the program is annotated.
    - A raised exception is a value of [exn]; fallible code returns
      [result]. *)

From Stdlib Require Import ZArith Ascii String List Bool Lia PrimFloat.
From stdpp Require Import base option list strings gmap sorting pretty.
From Equations Require Import Equations.

Set Warnings "-register-all".

Open Scope string_scope.
Open Scope Z_scope.

(* ================================================================== *)
(** * Python strings *)
(* ================================================================== *)

Module PyStr.

Definition code (c : ascii) : N := N_of_ascii c.
Definition chr (n : N) : ascii := ascii_of_N n.

Definition between (lo hi : N) (c : ascii) : bool :=
  (N.leb lo (code c) && N.leb (code c) hi)%bool.

(** [str.isspace] on one character, and [\s] of [re]: the white space
    of Unicode below U+0100. *)
Definition is_space (c : ascii) : bool :=
  (between 9 13 c || between 28 32 c
   || N.eqb (code c) 133 || N.eqb (code c) 160)%bool.

(** [\d] of [re]: the decimal digits (category Nd) below U+0100. *)
Definition is_digit (c : ascii) : bool := between 48 57 c.

(** [str.isdigit] on one character: the decimal digits and the
    superscripts two, three and one. *)
Definition is_digit_like (c : ascii) : bool :=
  (is_digit c || N.eqb (code c) 178 || N.eqb (code c) 179
   || N.eqb (code c) 185)%bool.

(** [str.isalnum] on one character below U+0100. *)
Definition is_alnum (c : ascii) : bool :=
  (is_digit c || between 65 90 c || between 97 122 c
   || N.eqb (code c) 170 || N.eqb (code c) 178 || N.eqb (code c) 179
   || N.eqb (code c) 181 || N.eqb (code c) 185 || N.eqb (code c) 186
   || between 188 190 c
   || between 192 214 c || between 216 246 c || between 248 255 c)%bool.

(** [\w] of [re]: alphanumeric or the underscore. *)
Definition is_word (c : ascii) : bool :=
  (is_alnum c || N.eqb (code c) 95)%bool.

(** [str.lower] on one character below U+0100. *)
Definition lower_char (c : ascii) : ascii :=
  if (between 65 90 c || between 192 214 c || between 216 222 c)%bool
  then chr (code c + 32) else c.

Fixpoint lower (s : string) : string :=
  match s with
  | EmptyString => EmptyString
  | String c s' => String (lower_char c) (lower s')
  end.

Fixpoint drop_while (p : ascii -> bool) (s : string) : string :=
  match s with
  | EmptyString => EmptyString
  | String c s' => if p c then drop_while p s' else s
  end.

(** Removes the characters satisfying [p] from both ends. *)
Definition strip_with (p : ascii -> bool) (s : string) : string :=
  String.rev (drop_while p (String.rev (drop_while p s))).

(** [s.strip()] *)
Definition strip (s : string) : string := strip_with is_space s.

Fixpoint mem_char (c : ascii) (chars : string) : bool :=
  match chars with
  | EmptyString => false
  | String d chars' => (Ascii.eqb c d || mem_char c chars')%bool
  end.

(** [s.strip(chars)] *)
Definition strip_chars (chars : string) (s : string) : string :=
  strip_with (fun c => mem_char c chars) s.

(** [s.replace(old, new)] for a one-character [old]. *)
Fixpoint replace (old : ascii) (new : string) (s : string) : string :=
  match s with
  | EmptyString => EmptyString
  | String c s' =>
      if Ascii.eqb c old then new ++ replace old new s'
      else String c (replace old new s')
  end.

Fixpoint starts_with (p s : string) : bool :=
  match p, s with
  | EmptyString, _ => true
  | String a p', String b s' => (Ascii.eqb a b && starts_with p' s')%bool
  | String _ _, EmptyString => false
  end.

(** [sub in s] *)
Fixpoint contains (sub s : string) : bool :=
  (starts_with sub s ||
   match s with
   | EmptyString => false
   | String _ s' => contains sub s'
   end)%bool.

Fixpoint forallb (p : ascii -> bool) (s : string) : bool :=
  match s with
  | EmptyString => true
  | String c s' => (p c && forallb p s')%bool
  end.

(** [s.isdigit()] *)
Definition isdigit (s : string) : bool :=
  (negb (String.eqb s "") && forallb is_digit_like s)%bool.

Fixpoint digits_value (acc : Z) (s : string) : Z :=
  match s with
  | EmptyString => acc
  | String c s' => digits_value (10 * acc + (Z.of_N (code c) - 48)) s'
  end.

(** [int(s)] on a string without sign, blanks or underscores, as the
    program passes it: the value of a non-empty run of ASCII digits,
    [None] (a [ValueError]) otherwise. *)
Definition int_of (s : string) : option Z :=
  if (negb (String.eqb s "") && forallb is_digit s)%bool
  then Some (digits_value 0 s) else None.

(** [str(n)] for an [int]. *)
Definition of_int (n : Z) : string := pretty n.

(** [sep.join(parts)] *)
Fixpoint join (sep : string) (parts : list string) : string :=
  match parts with
  | [] => ""
  | [p] => p
  | p :: rest => p ++ sep ++ join sep rest
  end.

Fixpoint take (n : nat) (s : string) : string :=
  match n, s with
  | S n', String c s' => String c (take n' s')
  | _, _ => EmptyString
  end.

Definition squote : ascii := chr 39.
Definition dquote : ascii := chr 34.
Definition backslash : ascii := chr 92.

(** The characters of the patterns and keywords that are not ASCII. *)
Definition a_acute : ascii := chr 225.
Definition e_acute : ascii := chr 233.
Definition i_acute : ascii := chr 237.
Definition o_acute : ascii := chr 243.
Definition u_acute : ascii := chr 250.
Definition n_tilde : ascii := chr 241.

End PyStr.

(* ================================================================== *)
(** * Regular expressions, as [re] matches them *)
(* ================================================================== *)

(** The fragment of [re] the program uses, with the backtracking
    semantics of the library: alternatives are tried left to right,
    repetitions are greedy, [search] returns the leftmost match. *)
Module Re.
Import PyStr.

Inductive regex : Type :=
| Eps                              (* the empty pattern *)
| Lit (c : ascii)                  (* one literal character *)
| Cls (p : ascii -> bool)          (* a class: [\d], [\s], [[...]] *)
| Seq (r1 r2 : regex)
| Alt (r1 r2 : regex)              (* r1|r2 *)
| Opt (r : regex)                  (* r? *)
| Star (p : ascii -> bool)         (* c* for a class c *)
| Group (n : nat) (r : regex)      (* the n-th capturing group *)
| WordB                            (* \b *)
| EndA.                            (* $ *)

(** c+ *)
Definition Plus (p : ascii -> bool) : regex := Seq (Cls p) (Star p).

(** A literal word. *)
Fixpoint Word (s : string) : regex :=
  match s with
  | EmptyString => Eps
  | String c EmptyString => Lit c
  | String c s' => Seq (Lit c) (Word s')
  end.

(** The state of a match attempt: the position, the character before
    it, the text from it on, and the groups closed so far. *)
Record mstate : Type := MState {
  m_pos : nat;
  m_prev : option ascii;
  m_rest : string;
  m_groups : list (nat * string)
}.

Definition is_word_opt (c : option ascii) : bool :=
  match c with Some c => is_word c | None => false end.

Definition next_char (s : string) : option ascii :=
  match s with String c _ => Some c | EmptyString => None end.

(** With [re.IGNORECASE] a literal matches up to case and a class is
    tested on the lower-cased character. *)
Definition lit_matches (ic : bool) (c ch : ascii) : bool :=
  if ic then Ascii.eqb (lower_char ch) (lower_char c) else Ascii.eqb ch c.

Definition cls_matches (ic : bool) (p : ascii -> bool) (ch : ascii) : bool :=
  if ic then p (lower_char ch) else p ch.

Section Matcher.
Context {A : Type}.
Variable ic : bool.

Definition or_else (x : option A) (y : option A) : option A :=
  match x with Some _ => x | None => y end.

(** Greedy repetition of a class: the longest run first, then
    shorter ones. *)
Fixpoint star (p : ascii -> bool) (pos : nat) (prev : option ascii)
    (rest : string) (gs : list (nat * string))
    (k : mstate -> option A) : option A :=
  match rest with
  | String ch rest' =>
      if cls_matches ic p ch
      then or_else (star p (S pos) (Some ch) rest' gs k)
                   (k (MState pos prev rest gs))
      else k (MState pos prev rest gs)
  | EmptyString => k (MState pos prev rest gs)
  end.

Fixpoint run (r : regex) (st : mstate) (k : mstate -> option A)
    : option A :=
  match r with
  | Eps => k st
  | Lit c =>
      match m_rest st with
      | String ch rest' =>
          if lit_matches ic c ch
          then k (MState (S (m_pos st)) (Some ch) rest' (m_groups st))
          else None
      | EmptyString => None
      end
  | Cls p =>
      match m_rest st with
      | String ch rest' =>
          if cls_matches ic p ch
          then k (MState (S (m_pos st)) (Some ch) rest' (m_groups st))
          else None
      | EmptyString => None
      end
  | Seq r1 r2 => run r1 st (fun st' => run r2 st' k)
  | Alt r1 r2 => or_else (run r1 st k) (run r2 st k)
  | Opt r1 => or_else (run r1 st k) (k st)
  | Star p => star p (m_pos st) (m_prev st) (m_rest st) (m_groups st) k
  | Group n r1 =>
      run r1 st (fun st' =>
        k (MState (m_pos st') (m_prev st') (m_rest st')
             ((n, take (m_pos st' - m_pos st) (m_rest st))
                :: m_groups st')))
  | WordB =>
      if xorb (is_word_opt (m_prev st))
              (is_word_opt (next_char (m_rest st)))
      then k st else None
  | EndA =>
      match m_rest st with
      | EmptyString => k st
      | String ch EmptyString =>
          if Ascii.eqb ch (chr 10) then k st else None
      | _ => None
      end
  end.
End Matcher.

(** A match object: where it starts, the matched text ([group()]) and
    the groups. *)
Record rmatch : Type := RMatch {
  m_start : nat;
  m_text : string;
  m_caps : list (nat * string)
}.

Fixpoint assoc_nat (n : nat) (gs : list (nat * string)) : option string :=
  match gs with
  | [] => None
  | (m, s) :: gs' => if Nat.eqb n m then Some s else assoc_nat n gs'
  end.

(** [m.group(n)] for a group that took part in the match. *)
Definition group (n : nat) (m : rmatch) : string :=
  match n with
  | O => m_text m
  | _ => default "" (assoc_nat n (m_caps m))
  end.

(** [pattern.match] at a given position. *)
Definition match_at (ic : bool) (r : regex) (pos : nat)
    (prev : option ascii) (rest : string) : option rmatch :=
  run ic r (MState pos prev rest [])
    (fun st => Some (RMatch pos (take (m_pos st - pos) rest) (m_groups st))).

Fixpoint search_from (ic : bool) (r : regex) (pos : nat)
    (prev : option ascii) (rest : string) : option rmatch :=
  match match_at ic r pos prev rest with
  | Some m => Some m
  | None =>
      match rest with
      | EmptyString => None
      | String ch rest' => search_from ic r (S pos) (Some ch) rest'
      end
  end.

(** [re.search(r, s)], with [flags=re.IGNORECASE] when [ic]. *)
Definition search (ic : bool) (r : regex) (s : string) : option rmatch :=
  search_from ic r 0 None s.

(** [re.sub(r, repl, s)] for a pattern that matches no empty string:
    every match, left to right and without overlap, is replaced.
    [skip] counts the characters of the current match still to drop. *)
Fixpoint sub_from (r : regex) (repl : string) (skip : nat)
    (prev : option ascii) (rest : string) : string :=
  match rest with
  | EmptyString => EmptyString
  | String ch rest' =>
      match skip with
      | S skip' => sub_from r repl skip' (Some ch) rest'
      | O =>
          match match_at false r 0 prev rest with
          | Some m =>
              repl ++ sub_from r repl (String.length (m_text m) - 1)
                        (Some ch) rest'
          | None => String ch (sub_from r repl 0 (Some ch) rest')
          end
      end
  end.

Definition sub (r : regex) (repl : string) (s : string) : string :=
  sub_from r repl 0 None s.

End Re.

(* ================================================================== *)
(** * Python values, exceptions *)
(* ================================================================== *)

(** The values that travel through the pipeline as [Any]: what
    [json.loads] produces, and tuples and sets, which a caller can put
    in a filter.  A set is listed in its iteration order. *)
Inductive pyval : Type :=
| VNone
| VBool (b : bool)
| VInt (n : Z)
| VFloat (x : float)
| VStr (s : string)
| VList (l : list pyval)
| VTuple (l : list pyval)
| VSet (l : list pyval)
| VDict (d : list (string * pyval)).

(** A [dict] with string keys, in insertion order. *)
Abbreviation pydict := (list (string * pyval)).

(** The exceptions the program meets.  [RemoteQueryError] is the
    failure of the remote query capability, carrying its cause. *)
Inductive exn : Type :=
| ValueError (msg : string)
| TypeError
| AttributeError
| JSONDecodeError
| RemoteQueryError (cause : string).

Inductive result (A : Type) : Type :=
| Ok (a : A)
| Raise (e : exn).
Arguments Ok {A} a.
Arguments Raise {A} e.

Definition bind {A B : Type} (x : result A) (f : A -> result B) : result B :=
  match x with
  | Ok a => f a
  | Raise e => Raise e
  end.

Notation "'let!' x ':=' e1 'in' e2" := (bind e1 (fun x => e2))
  (at level 10, x name, e1 at level 100, e2 at level 200).

Module Py.
Import PyStr.

(** [bool(v)] *)
Definition truthy (v : pyval) : bool :=
  match v with
  | VNone => false
  | VBool b => b
  | VInt n => negb (Z.eqb n 0)
  | VFloat x => negb (PrimFloat.eqb x 0%float)
  | VStr s => negb (String.eqb s "")
  | VList l | VTuple l | VSet l => match l with [] => false | _ => true end
  | VDict d => match d with [] => false | _ => true end
  end.

(** [a or b] *)
Definition or_ (a b : pyval) : pyval := if truthy a then a else b.

(** [isinstance(v, (int, float))]; a [bool] is an [int]. *)
Definition is_number (v : pyval) : bool :=
  match v with
  | VBool _ | VInt _ | VFloat _ => true
  | _ => false
  end.

(** [isinstance(v, Iterable)] *)
Definition is_iterable (v : pyval) : bool :=
  match v with
  | VStr _ | VList _ | VTuple _ | VSet _ | VDict _ => true
  | _ => false
  end.

Definition chars_of (s : string) : list pyval :=
  map (fun c => VStr (String c EmptyString)) (list_ascii_of_string s).

(** The elements iterating [v] produces: a [dict] gives its keys, a
    [str] its characters. *)
Definition iterate (v : pyval) : list pyval :=
  match v with
  | VList l | VTuple l | VSet l => l
  | VDict d => map (fun kv => VStr (fst kv)) d
  | VStr s => chars_of s
  | _ => []
  end.

(** [d.get(k)] and [d[k] = v] on a [dict]. *)
Fixpoint dict_get (k : string) (d : pydict) : option pyval :=
  match d with
  | [] => None
  | (k', v) :: d' => if String.eqb k k' then Some v else dict_get k d'
  end.

Fixpoint dict_set (k : string) (v : pyval) (d : pydict) : pydict :=
  match d with
  | [] => [(k, v)]
  | (k', v') :: d' =>
      if String.eqb k k' then (k, v) :: d' else (k', v') :: dict_set k v d'
  end.

Definition keys (d : pydict) : list string := map fst d.

(** [payload.get(k)] on an arbitrary value: only a [dict] has [get]. *)
Definition get (payload : pyval) (k : string) : result pyval :=
  match payload with
  | VDict d => Ok (default VNone (dict_get k d))
  | _ => Raise AttributeError
  end.

Definition hex_digit (n : N) : ascii :=
  if N.ltb n 10 then chr (48 + n) else chr (87 + n).

Definition hex2 (c : ascii) : string :=
  String (hex_digit (code c / 16)) (String (hex_digit (code c mod 16)) "").

(** [str.isprintable] on one character below U+0100. *)
Definition is_printable (c : ascii) : bool :=
  (between 32 126 c || (between 161 255 c && negb (N.eqb (code c) 173)))%bool.

End Py.

(* ================================================================== *)
(** * The library functions taken as parameters, and what is built on
      them *)
(* ================================================================== *)

Section Pipeline.
Import PyStr.

(** [repr(x)] for a float [x] *)
Variable float_repr : float -> string.
(** [float(s)]; [None] is a [ValueError] *)
Variable float_of_string : string -> option float.
(** [json.loads(s)]; [None] is a [json.JSONDecodeError] *)
Variable json_loads : string -> option pyval.

(* ---------------------------------------------------------------- *)
(** ** [repr], [str] and [json.dumps] *)

Definition repr_char (quote : ascii) (c : ascii) : string :=
  if (Ascii.eqb c quote || Ascii.eqb c backslash)%bool
  then String backslash (String c "")
  else if N.eqb (code c) 9 then "\t"
  else if N.eqb (code c) 10 then "\n"
  else if N.eqb (code c) 13 then "\r"
  else if Py.is_printable c then String c ""
  else "\x" ++ Py.hex2 c.

Fixpoint concat_map (f : ascii -> string) (s : string) : string :=
  match s with
  | EmptyString => EmptyString
  | String c s' => f c ++ concat_map f s'
  end.

(** [repr(s)] for a string: single quotes, unless the string holds a
    single quote and no double quote. *)
Definition repr_str (s : string) : string :=
  let quote : ascii :=
    if (mem_char squote s && negb (mem_char dquote s))%bool
    then dquote else squote in
  String quote (concat_map (repr_char quote) s) ++ String quote "".

Fixpoint repr (v : pyval) : string :=
  match v with
  | VNone => "None"
  | VBool b => if b then "True" else "False"
  | VInt n => of_int n
  | VFloat x => float_repr x
  | VStr s => repr_str s
  | VList l => "[" ++ join ", " (map repr l) ++ "]"
  | VTuple l =>
      match l with
      | [x] => "(" ++ repr x ++ ",)"
      | _ => "(" ++ join ", " (map repr l) ++ ")"
      end
  | VSet l =>
      match l with
      | [] => "set()"
      | _ => "{" ++ join ", " (map repr l) ++ "}"
      end
  | VDict d =>
      "{" ++ join ", " (map (fun kv => repr_str (fst kv) ++ ": " ++ repr (snd kv)) d)
          ++ "}"
  end.

(** [str(v)], which is also how an f-string prints [v]. *)
Definition str (v : pyval) : string :=
  match v with
  | VStr s => s
  | _ => repr v
  end.

Definition json_char (c : ascii) : string :=
  if (Ascii.eqb c dquote || Ascii.eqb c backslash)%bool
  then String backslash (String c "")
  else if N.eqb (code c) 10 then "\n"
  else if N.eqb (code c) 13 then "\r"
  else if N.eqb (code c) 9 then "\t"
  else if N.eqb (code c) 12 then "\f"
  else if N.eqb (code c) 8 then "\b"
  else if between 32 126 c then String c ""
  else "\u00" ++ Py.hex2 c.

(** A JSON string literal, with [ensure_ascii]. *)
Definition json_str (s : string) : string :=
  String dquote (concat_map json_char s) ++ String dquote "".

Definition json_float (x : float) : string :=
  if PrimFloat.is_nan x then "NaN"
  else if PrimFloat.is_infinity x
       then (if PrimFloat.ltb x 0%float then "-Infinity" else "Infinity")
       else float_repr x.

Definition key_le (a b : string * string) : Prop := String.le (fst a) (fst b).

#[local] Instance key_le_dec : RelDecision key_le.
Proof. intros a b; unfold key_le; apply _. Defined.

(** The items of an object, in insertion order or by ascending key
    (code point order) under [sort_keys]. *)
Definition order_items (sort_keys : bool) (items : list (string * string))
    : list (string * string) :=
  if sort_keys then merge_sort key_le items else items.

Definition json_item (kv : string * string) : string :=
  json_str (fst kv) ++ ": " ++ snd kv.

(** [json.dumps(v, sort_keys=sort_keys)]: the default separators,
    [ensure_ascii] and [allow_nan]; a set is not serialisable.  The
    values of an object are encoded before its items are ordered (the
    library orders first); the text is the same. *)
Fixpoint json_dumps (sort_keys : bool) (v : pyval) : result string :=
  match v with
  | VNone => Ok "null"
  | VBool b => Ok (if b then "true" else "false")
  | VInt n => Ok (of_int n)
  | VFloat x => Ok (json_float x)
  | VStr s => Ok (json_str s)
  | VList l | VTuple l =>
      let! parts :=
        (fix each (l : list pyval) : result (list string) :=
           match l with
           | [] => Ok []
           | x :: l' =>
               let! s := json_dumps sort_keys x in
               let! ss := each l' in
               Ok (s :: ss)
           end) l in
      Ok ("[" ++ join ", " parts ++ "]")
  | VSet _ => Raise TypeError
  | VDict d =>
      let! items :=
        (fix each (d : pydict) : result (list (string * string)) :=
           match d with
           | [] => Ok []
           | (k, x) :: d' =>
               let! s := json_dumps sort_keys x in
               let! ss := each d' in
               Ok ((k, s) :: ss)
           end) d in
      Ok ("{" ++ join ", " (map json_item (order_items sort_keys items)) ++ "}")
  end.

(** The items of a list, encoded one by one. *)
Definition encode_list (sort_keys : bool) (l : list pyval)
    : result (list string) :=
  (fix each (l : list pyval) : result (list string) :=
     match l with
     | [] => Ok []
     | x :: l' =>
         let! s := json_dumps sort_keys x in
         let! ss := each l' in
         Ok (s :: ss)
     end) l.

(** The entries of a mapping, their values encoded one by one. *)
Definition encode_entries (sort_keys : bool) (d : pydict)
    : result (list (string * string)) :=
  (fix each (d : pydict) : result (list (string * string)) :=
     match d with
     | [] => Ok []
     | (k, x) :: d' =>
         let! s := json_dumps sort_keys x in
         let! ss := each d' in
         Ok ((k, s) :: ss)
     end) d.

(** Every entry of the first mapping has, under the same key, an entry
    of the second that encodes alike. *)
Definition covered (d1 d2 : pydict) : Prop :=
  forall k x, List.In (k, x) d1 ->
    exists y, List.In (k, y) d2
              /\ json_dumps true x = json_dumps true y.

(* ---------------------------------------------------------------- *)
(** ** [query_parser.py] *)

(** [QueryParams]: the structured search intent.  [entity] is a string
    in every instance that was constructed: [__post_init__] raises on
    anything else (see [QueryParams_new]). *)
Record QueryParams : Type := mkQueryParams {
  entity : string;
  filters : pydict;
  metrics : list pyval;
  raw_query : string;
  limit : option Z
}.

(** The constructor of the dataclass followed by [__post_init__].  The
    entity arrives as any value: a falsy one and a blank string raise
    [ValueError], a truthy value that is no string has no [strip]. *)
Definition QueryParams_new (entity : pyval) (filters : pydict)
    (metrics : list pyval) (raw_query : string) (limit : option Z)
    : result QueryParams :=
  let! name :=
    if negb (Py.truthy entity)
    then Raise (ValueError "entity must be a non-empty string")
    else match entity with
         | VStr s =>
             if negb (Py.truthy (VStr (strip s)))
             then Raise (ValueError "entity must be a non-empty string")
             else Ok s
         | _ => Raise AttributeError
         end in
  match limit with
  | Some n =>
      if n <=? 0
      then Raise (ValueError "limit must be a positive integer when provided")
      else Ok (mkQueryParams name filters metrics raw_query limit)
  | None => Ok (mkQueryParams name filters metrics raw_query limit)
  end.

Definition opt_int (o : option Z) : pyval :=
  match o with Some n => VInt n | None => VNone end.

Definition as_dict (p : QueryParams) : pydict :=
  [ ("entity", VStr (entity p));
    ("filters", VDict (filters p));
    ("metrics", VList (metrics p));
    ("raw_query", VStr (raw_query p));
    ("limit", opt_int (limit p)) ].

Definition to_json (p : QueryParams) : result string :=
  json_dumps false (VDict (as_dict p)).

(** [GeminiResponse]: what either producer hands to [parse].  The
    fields hold what the producer put there, unchecked. *)
Record GeminiResponse : Type := mkGeminiResponse {
  g_entity : pyval;
  g_filters : pydict;
  g_metrics : list pyval;
  g_limit : option Z
}.

Definition instructions : string :=
  "You are a query understanding system for the Colombian SECOP open " ++
  "data portal. Convert the user request into JSON with keys 'entity', " ++
  "'filters', 'metrics', and optionally 'limit' (a positive integer). " ++
  "Filters must be a JSON object with simple key/value pairs or lists.".

Definition prompt_example : pyval :=
  VDict [ ("entity", VStr "contracts");
          ("filters", VDict [ ("buyer", VStr ("Bogot" ++ String a_acute ""));
                              ("year", VInt 2023) ]);
          ("metrics", VList [VStr "total_amount"]);
          ("limit", VInt 20) ].

Definition newline : string := String (chr 10) "".

Definition _build_prompt (query : string) : result string :=
  let! example := json_dumps false prompt_example in
  Ok (instructions ++ newline ++ "Input: " ++ query ++ newline
        ++ "Respond with JSON like: " ++ example).

(** The limit of a model payload: a positive [int], or a string of
    digits whose value is positive.  A [bool] is an [int]: [True]
    passes the test as the integer 1, which it equals and as which it
    is kept here (the two differ in how they print only).  [int]
    raises on a string that [isdigit] accepts and that is no decimal
    numeral. *)
Definition coerce_limit (limit_value : pyval) : result (option Z) :=
  match limit_value with
  | VInt n => Ok (if 0 <? n then Some n else None)
  | VBool b => Ok (if b then Some 1 else None)
  | VStr s =>
      if isdigit s
      then match int_of s with
           | Some n => Ok (if 0 <? n then Some n else None)
           | None => Raise (ValueError "invalid literal for int()")
           end
      else Ok None
  | _ => Ok None
  end.

Definition is_dict (v : pyval) : bool :=
  match v with VDict _ => true | _ => false end.

Definition dict_items (v : pyval) : pydict :=
  match v with VDict d => d | _ => [] end.

(** The part of [_coerce_response] that reads the decoded payload. *)
Definition read_payload (payload : pyval) : result (option GeminiResponse) :=
  let! entity := Py.get payload "entity" in
  let! filters0 := Py.get payload "filters" in
  let filters := Py.or_ filters0 (VDict []) in
  let! metrics0 := Py.get payload "metrics" in
  let metrics := Py.or_ metrics0 (VList []) in
  let! limit_value := Py.get payload "limit" in
  let! limit := coerce_limit limit_value in
  if (negb (is_dict filters) || negb (Py.is_iterable metrics))%bool
  then Ok None
  else Ok (Some (mkGeminiResponse entity (dict_items filters)
                   (Py.iterate metrics) limit)).

Definition _coerce_response (raw_response : pyval)
    : result (option GeminiResponse) :=
  match raw_response with
  | VNone => Ok None
  | VStr s =>
      match json_loads s with
      | None => Ok None
      | Some payload => read_payload payload
      end
  | VDict _ => read_payload raw_response
  | _ => Ok None
  end.

(** The patterns of the heuristic parser. *)
Definition digit : Re.regex := Re.Cls is_digit.

Definition century : Re.regex := Re.Alt (Re.Word "19") (Re.Word "20").

(** [(19|20)\d{2}] *)
Definition year_re : Re.regex :=
  Re.Seq (Re.Group 1 century) (Re.Seq digit digit).

(** [[\w\s....&-]], the dots standing for the five accented vowels and
    the n-tilde *)
Definition name_char (c : ascii) : bool :=
  (is_word c || is_space c
   || Ascii.eqb c a_acute || Ascii.eqb c e_acute || Ascii.eqb c i_acute
   || Ascii.eqb c o_acute || Ascii.eqb c u_acute || Ascii.eqb c n_tilde
   || Ascii.eqb c "." || Ascii.eqb c "&" || Ascii.eqb c "-")%bool.

(** [entidad\s+([...]+)] *)
Definition buyer_re : Re.regex :=
  Re.Seq (Re.Word "entidad")
    (Re.Seq (Re.Plus is_space) (Re.Group 1 (Re.Plus name_char))).

(** [proveedor(?:a)?\s+([...]+)] *)
Definition supplier_re : Re.regex :=
  Re.Seq (Re.Word "proveedor")
    (Re.Seq (Re.Opt (Re.Lit "a"))
       (Re.Seq (Re.Plus is_space) (Re.Group 1 (Re.Plus name_char)))).

(** [(?:\b(?:19|20)\d{2})$] *)
Definition trailing_year_re : Re.regex :=
  Re.Seq (Re.Seq Re.WordB (Re.Seq century (Re.Seq digit digit))) Re.EndA.

Definition amount_char (c : ascii) : bool :=
  (is_digit c || Ascii.eqb c "." || Ascii.eqb c ",")%bool.

(** [mayor(?: a)?\s+\$?(\d+[\d.,]{0,})]: the last class repeated any number of times *)
Definition amount_re : Re.regex :=
  Re.Seq (Re.Word "mayor")
    (Re.Seq (Re.Opt (Re.Word " a"))
       (Re.Seq (Re.Plus is_space)
          (Re.Seq (Re.Opt (Re.Lit "$"))
             (Re.Group 1 (Re.Seq (Re.Plus is_digit) (Re.Star amount_char)))))).

Definition o_or_a (c : ascii) : bool := (Ascii.eqb c "o" || Ascii.eqb c "a")%bool.

(** [(?:top|primer[oa]s?)\s+(\d+)] *)
Definition limit_re : Re.regex :=
  Re.Seq (Re.Alt (Re.Word "top")
            (Re.Seq (Re.Word "primer")
               (Re.Seq (Re.Cls o_or_a) (Re.Opt (Re.Lit "s")))))
    (Re.Seq (Re.Plus is_space) (Re.Group 1 (Re.Plus is_digit))).

Definition cuanto : string := "cu" ++ String a_acute "nto".

Definition _heuristic_parse (query : string) : GeminiResponse :=
  let lowered := lower query in
  let entity :=
    if (contains "proveedor" lowered || contains "supplier" lowered)%bool
    then "suppliers"
    else if (contains "entidad" lowered || contains "agency" lowered)%bool
    then "agencies"
    else "contracts" in
  let filters : pydict := [] in
  let filters :=
    match Re.search false year_re lowered with
    | Some year_match =>
        match int_of (Re.group 0 year_match) with
        | Some y => Py.dict_set "year" (VInt y) filters
        | None => filters
        end
    | None => filters
    end in
  let filters :=
    match Re.search true buyer_re query with
    | Some buyer_match =>
        Py.dict_set "buyer" (VStr (strip (Re.group 1 buyer_match))) filters
    | None => filters
    end in
  let filters :=
    match Re.search true supplier_re query with
    | Some supplier_match =>
        let supplier := strip (Re.group 1 supplier_match) in
        let supplier :=
          strip_chars " ,.-" (Re.sub trailing_year_re "" supplier) in
        if Py.truthy (VStr supplier)
        then Py.dict_set "supplier" (VStr supplier) filters
        else filters
    | None => filters
    end in
  let filters :=
    match Re.search false amount_re lowered with
    | Some amount_match =>
        let amount :=
          replace "," "" (replace "." "" (Re.group 1 amount_match)) in
        match float_of_string amount with
        | Some x => Py.dict_set "min_amount" (VFloat x) filters
        | None => filters
        end
    | None => filters
    end in
  let metrics : list pyval :=
    if (contains cuanto lowered || contains "total" lowered
        || contains "sum" lowered)%bool
    then [VStr "total_amount"] else [] in
  let limit : option Z :=
    match Re.search false limit_re lowered with
    | Some limit_match =>
        match int_of (Re.group 1 limit_match) with
        | Some parsed_limit => if 0 <? parsed_limit then Some parsed_limit else None
        | None => None
        end
    | None => None
    end in
  mkGeminiResponse (VStr entity) filters metrics limit.

(** A language-model client: [generate(prompt)] returns any value or
    raises. *)
Definition llm_client : Type := string -> result pyval.

(** [QueryParser.parse].  The [try] block covers [generate] and
    [_coerce_response]; building the prompt, constructing the
    [QueryParams] and serialising them for the debug log are outside. *)
Definition parse (_llm_client : option llm_client) (query : string)
    : result QueryParams :=
  let! response :=
    match _llm_client with
    | Some generate =>
        let! prompt := _build_prompt query in
        match (let! raw_response := generate prompt in
               _coerce_response raw_response) with
        | Ok response => Ok response
        | Raise _ => Ok None
        end
    | None => Ok None
    end in
  let response :=
    match response with
    | Some r => r
    | None => _heuristic_parse query
    end in
  let! params :=
    QueryParams_new (Py.or_ (g_entity response) (VStr "contracts"))
      (g_filters response) (g_metrics response) query (g_limit response) in
  let! _logged := to_json params in
  Ok params.

(* ---------------------------------------------------------------- *)
(** ** [entity_resolver.py] *)

Record ResolvedEntity : Type := mkResolvedEntity {
  name : string;
  score : float;
  metadata : pydict
}.

(** What [collection.query] returns: three lists of lists, one inner
    list per query text.  A missing key is the empty outer list, which
    [or [[]]] treats alike. *)
Record chroma_results : Type := mkChromaResults {
  documents : list (list string);
  metadatas : list (list (option pydict));
  distances : list (list float)
}.

(** The similarity-search client: collection name, query text and
    [n_results] to the results, or an exception. *)
Definition chroma_client : Type :=
  string -> string -> Z -> result chroma_results.

(** One item of a rerank response. *)
Record rerank_item : Type := mkRerankItem {
  index : Z;
  relevance_score : float
}.

(** The reranking client: query and documents (text and metadata) to
    the ranked items, or an exception. *)
Definition cohere_client : Type :=
  string -> list (string * pydict) -> result (list rerank_item).

Record EntityResolver : Type := mkEntityResolver {
  _chroma_client : option chroma_client;
  _collection_name : string;
  _cohere_client : option cohere_client
}.

(** [xs or [[]]] followed by [[0]] *)
Definition first_or_empty {A : Type} (xs : list (list A)) : list A :=
  match xs with
  | [] => []
  | x :: _ => x
  end.

Fixpoint zip3 {A B C : Type} (xs : list A) (ys : list B) (zs : list C)
    : list (A * B * C) :=
  match xs, ys, zs with
  | x :: xs', y :: ys', z :: zs' => (x, y, z) :: zip3 xs' ys' zs'
  | _, _, _ => []
  end.

Definition _search_chroma (self : EntityResolver) (mention : string)
    (top_k : Z) : list ResolvedEntity :=
  match _chroma_client self with
  | None => [mkResolvedEntity mention 1%float []]
  | Some client =>
      match client (_collection_name self) mention top_k with
      | Raise _ => [mkResolvedEntity mention 1%float []]
      | Ok results =>
          let candidates :=
            map (fun '(doc, metadata, distance) =>
                   mkResolvedEntity doc (PrimFloat.sub 1%float distance)
                     (default [] metadata))
              (zip3 (first_or_empty (documents results))
                    (first_or_empty (metadatas results))
                    (first_or_empty (distances results))) in
          match candidates with
          | [] => [mkResolvedEntity mention 0%float []]
          | _ => candidates
          end
      end
  end.

(** [id_to_candidate.get(i)] for the dictionary of the candidates by
    position *)
Definition candidate_at (candidates : list ResolvedEntity) (i : Z)
    : option ResolvedEntity :=
  if i <? 0 then None else nth_error candidates (Z.to_nat i).

Definition _rerank_with_cohere (client : cohere_client) (mention : string)
    (candidates : list ResolvedEntity) : list ResolvedEntity :=
  match client mention (map (fun c => (name c, metadata c)) candidates) with
  | Raise _ => candidates
  | Ok results =>
      let reranked :=
        omap (fun item =>
                match candidate_at candidates (index item) with
                | None => None
                | Some candidate =>
                    Some (mkResolvedEntity (name candidate)
                            (relevance_score item) (metadata candidate))
                end) results in
      match reranked with
      | [] => candidates
      | _ => reranked
      end
  end.

Definition resolve (self : EntityResolver) (mention : string) (top_k : Z)
    : option ResolvedEntity :=
  let candidates := _search_chroma self mention top_k in
  match candidates with
  | [] => None
  | _ =>
      let candidates :=
        match _cohere_client self with
        | Some client =>
            if (1 <? length candidates)%nat
            then _rerank_with_cohere client mention candidates
            else candidates
        | None => candidates
        end in
      head candidates
  end.

(* ---------------------------------------------------------------- *)
(** ** [soql_builder.py] *)

Record SoQLBuilder : Type := mkSoQLBuilder {
  _dataset_map : gmap string string
}.

(** The payload [build] returns: the [dataset] and [params] entries. *)
Record soql_payload : Type := mkPayload {
  dataset : pyval;
  params : pydict
}.

Definition _resolve_dataset (self : SoQLBuilder) (p : QueryParams)
    (resolved : option ResolvedEntity) : pyval :=
  match resolved with
  | Some e =>
      let dataset_id := default VNone (Py.dict_get "dataset_id" (metadata e)) in
      if Py.truthy dataset_id then dataset_id
      else VStr (default (entity p) (_dataset_map self !! entity p))
  | None => VStr (default (entity p) (_dataset_map self !! entity p))
  end.

Definition _quote (value : pyval) : string :=
  if Py.is_number value then str value
  else "'" ++ replace "'" "''" (str value) ++ "'".

Definition _render_filter (key : string) (value : pyval) : result string :=
  if Py.is_number value then Ok (key ++ " = " ++ str value)
  else match value with
       | VStr s =>
           let escaped := replace "'" "''" s in
           Ok ("upper(" ++ key ++ ") LIKE upper('%" ++ escaped ++ "%')")
       | _ =>
           if Py.is_iterable value
           then
             let values := join ", " (map _quote (Py.iterate value)) in
             Ok (key ++ " IN (" ++ values ++ ")")
           else
             let! encoded := json_dumps false value in
             Ok (key ++ " = " ++ encoded)
       end.

Fixpoint render_all (filters : pydict) : result (list string) :=
  match filters with
  | [] => Ok []
  | (key, value) :: rest =>
      let! clause := _render_filter key value in
      let! clauses := render_all rest in
      Ok (clause :: clauses)
  end.

(** [filter(None, clauses)]: the clauses that are not empty *)
Definition non_empty (clauses : list string) : list string :=
  List.filter (fun c => negb (String.eqb c "")) clauses.

Definition _build_where (filters : pydict) : result string :=
  let! clauses := render_all filters in
  Ok (join " AND " (non_empty clauses)).

(** [", ".join(items)]: every item has to be a string *)
Fixpoint strings_of (items : list pyval) : result (list string) :=
  match items with
  | [] => Ok []
  | VStr s :: rest =>
      let! ss := strings_of rest in
      Ok (s :: ss)
  | _ :: _ => Raise TypeError
  end.

Definition build (self : SoQLBuilder) (p : QueryParams)
    (resolved : option ResolvedEntity) : result soql_payload :=
  let dataset_identifier := _resolve_dataset self p resolved in
  let soql_params : pydict := [] in
  let! where_clause := _build_where (filters p) in
  let soql_params :=
    if Py.truthy (VStr where_clause)
    then Py.dict_set "$where" (VStr where_clause) soql_params
    else soql_params in
  let! soql_params :=
    match metrics p with
    | [] => Ok soql_params
    | _ =>
        let! names := strings_of (metrics p) in
        Ok (Py.dict_set "$select" (VStr (join ", " names)) soql_params)
    end in
  let soql_params :=
    match limit p with
    | Some n => Py.dict_set "$limit" (VInt n) soql_params
    | None => soql_params
    end in
  Ok (mkPayload dataset_identifier soql_params).

(* ---------------------------------------------------------------- *)
(** ** [secop_client.py] *)

(** The remote query capability, [_client.get(dataset, **params)]: its
    n-th invocation (counted from 0) either fails with a cause or
    answers with the rows. *)
Definition remote : Type := nat -> string -> pydict -> string + pyval.

(** What lies outside the client and changes as it runs: how many
    invocations the remote has served, the pauses taken (each the
    backoff and the attempt number it was multiplied with, latest
    first), and the cache store (value and time to live by key). *)
Record World : Type := mkWorld {
  served : nat;
  slept : list (float * Z);
  store : gmap string (string * Z)
}.

Record SecopClient : Type := mkSecopClient {
  _client : remote;
  _redis : bool;           (* whether a cache store is configured *)
  _max_retries : Z;
  _retry_backoff : float
}.

Definition _cache_key (dataset : string) (params : pydict) : result string :=
  let! serialised_params := json_dumps true (VDict params) in
  Ok ("secop:" ++ dataset ++ ":" ++ serialised_params).

(** One invocation of the remote. *)
Definition client_get (self : SecopClient) (dataset : string)
    (params : pydict) (w : World) : (string + pyval) * World :=
  (_client self (served w) dataset params,
   mkWorld (S (served w)) (slept w) (store w)).

Definition sleep (backoff : float) (attempt : Z) (w : World) : World :=
  mkWorld (served w) ((backoff, attempt) :: slept w) (store w).

(** The [while True] loop of [query], entered with [attempt] failures
    behind it.  The exception of the last failure is re-raised. *)
Equations? retry_loop (self : SecopClient) (dataset : string)
    (params : pydict) (attempt : Z) (w : World) : result pyval * World
    by wf (Z.to_nat (_max_retries self + 1 - attempt)) lt :=
  retry_loop self dataset params attempt w
    with client_get self dataset params w := {
    | (inr result, w') => (Ok result, w')
    | (inl exc, w') with Z_gt_dec (attempt + 1) (_max_retries self) := {
        | left _ => (Raise (RemoteQueryError exc), w')
        | right _ =>
            retry_loop self dataset params (attempt + 1)
              (sleep (_retry_backoff self) (attempt + 1) w') } }.
Proof. lia. Qed.

Definition redis_get (self : SecopClient) (key : string) (w : World)
    : option string :=
  if _redis self then fst <$> (store w !! key) else None.

Definition redis_setex (key : string) (ttl : Z) (value : string) (w : World)
    : World :=
  mkWorld (served w) (slept w) (<[key := (value, ttl)]> (store w)).

Definition query (self : SecopClient) (dataset : string)
    (params : option pydict) (w : World) : result pyval * World :=
  let params := default [] params in
  match _cache_key dataset params with
  | Raise e => (Raise e, w)
  | Ok cache_key =>
      match redis_get self cache_key w with
      | Some cached =>
          match json_loads cached with
          | Some value => (Ok value, w)
          | None => (Raise JSONDecodeError, w)
          end
      | None =>
          match retry_loop self dataset params 0 w with
          | (Raise e, w') => (Raise e, w')
          | (Ok result, w') =>
              if _redis self
              then match json_dumps false result with
                   | Ok encoded =>
                       (Ok result, redis_setex cache_key 300 encoded w')
                   | Raise e => (Raise e, w')
                   end
              else (Ok result, w')
          end
      end
  end.

(* ---------------------------------------------------------------- *)
(** ** [formatter.py] *)

(** The horizontal ellipsis, U+2026, ends one line of the WhatsApp
    text.  It lies outside the characters of the model; the text that
    stands for it is a parameter. *)
Variable ellipsis : string.

Definition json_char_raw (c : ascii) : string :=
  if (Ascii.eqb c dquote || Ascii.eqb c backslash)%bool
  then String backslash (String c "")
  else if N.eqb (code c) 10 then "\n"
  else if N.eqb (code c) 13 then "\r"
  else if N.eqb (code c) 9 then "\t"
  else if N.eqb (code c) 12 then "\f"
  else if N.eqb (code c) 8 then "\b"
  else if N.ltb (code c) 32 then "\u00" ++ Py.hex2 c
  else String c "".

(** A JSON string literal under [ensure_ascii=False]: only the quote,
    the backslash and the control characters are escaped. *)
Definition json_str_raw (s : string) : string :=
  String dquote (concat_map json_char_raw s) ++ String dquote "".

(** [json.dumps(v, ensure_ascii=False)] *)
Fixpoint json_dumps_raw (v : pyval) : result string :=
  match v with
  | VNone => Ok "null"
  | VBool b => Ok (if b then "true" else "false")
  | VInt n => Ok (of_int n)
  | VFloat x => Ok (json_float x)
  | VStr s => Ok (json_str_raw s)
  | VList l | VTuple l =>
      let! parts :=
        (fix each (l : list pyval) : result (list string) :=
           match l with
           | [] => Ok []
           | x :: l' =>
               let! s := json_dumps_raw x in
               let! ss := each l' in
               Ok (s :: ss)
           end) l in
      Ok ("[" ++ join ", " parts ++ "]")
  | VSet _ => Raise TypeError
  | VDict d =>
      let! items :=
        (fix each (d : pydict) : result (list string) :=
           match d with
           | [] => Ok []
           | (k, x) :: d' =>
               let! s := json_dumps_raw x in
               let! ss := each d' in
               Ok ((json_str_raw k ++ ": " ++ s) :: ss)
           end) d in
      Ok ("{" ++ join ", " items ++ "}")
  end.

Definition is_lower_ascii (c : ascii) : bool := between 97 122 c.

(** [s.capitalize()] for a string that starts with an ASCII letter, as
    the keys the formatter shows do: the first character in upper
    case, the others in lower case. *)
Definition capitalize (s : string) : string :=
  match s with
  | EmptyString => EmptyString
  | String c s' =>
      String (if is_lower_ascii c then chr (code c - 32) else c) (lower s')
  end.

Definition is_str (v : pyval) (s : string) : bool :=
  match v with
  | VStr t => String.eqb t s
  | _ => false
  end.

(** [key in record]: a key of a mapping, an element of a list, tuple
    or set, a part of a string; no other value can be searched. *)
Definition key_in (key : string) (record : pyval) : result bool :=
  match record with
  | VDict d => Ok (existsb (String.eqb key) (Py.keys d))
  | VList l | VTuple l | VSet l => Ok (existsb (fun x => is_str x key) l)
  | VStr s => Ok (contains key s)
  | _ => Raise TypeError
  end.

(** [record[key]]: only a mapping can be indexed by a string.  It is
    evaluated for a key that is [in] the record, so the error of a
    missing key does not arise; it is put down as a [ValueError]. *)
Definition item (record : pyval) (key : string) : result pyval :=
  match record with
  | VDict d =>
      match Py.dict_get key d with
      | Some v => Ok v
      | None => Raise (ValueError "KeyError")
      end
  | _ => Raise TypeError
  end.

Definition shown_keys : list string := ["buyer"; "supplier"; "amount"; "status"].

(** The piece a mapping gives for one shown key: the key, capitalised,
    and the value as it prints, when the value is there and truthy. *)
Definition piece_for (d : pydict) (key : string) : list string :=
  match Py.dict_get key d with
  | Some v => if Py.truthy v then [capitalize key ++ ": " ++ str v] else []
  | None => []
  end.

(** The pieces of [_summarise_record], one per shown key that the
    record holds with a truthy value. *)
Fixpoint pieces_of (record : pyval) (keys : list string)
    : result (list string) :=
  match keys with
  | [] => Ok []
  | key :: keys' =>
      let! present := key_in key record in
      let! piece :=
        if present
        then (let! v := item record key in
              Ok (if Py.truthy v
                  then [capitalize key ++ ": " ++ str v]
                  else []))
        else Ok [] in
      let! rest := pieces_of record keys' in
      Ok (piece ++ rest)%list
  end.

Definition _summarise_record (record : pyval) : result string :=
  let! pieces := pieces_of record shown_keys in
  let! pieces :=
    match pieces with
    | [] => let! encoded := json_dumps_raw record in Ok [encoded]
    | _ => Ok pieces
    end in
  Ok (join " | " pieces).

(** [list(records)]: the elements of an iterable, [TypeError] for any
    other value. *)
Definition to_list (v : pyval) : result (list pyval) :=
  if Py.is_iterable v then Ok (Py.iterate v) else Raise TypeError.

Definition no_results : string :=
  "No se encontraron resultados para tu b" ++ String u_acute "squeda.".

(** The numbered lines for the records, counted from [idx]. *)
Fixpoint summary_lines (idx : Z) (records : list pyval)
    : result (list string) :=
  match records with
  | [] => Ok []
  | record :: rest =>
      let! summary := _summarise_record record in
      let! lines := summary_lines (idx + 1) rest in
      Ok ((of_int idx ++ ". " ++ summary) :: lines)
  end.

(** The lines [format_for_whatsapp] joins, for a list of records that
    is not empty. *)
Definition more_line (remaining : Z) : string :=
  "Y " ++ of_int remaining ++ " resultados m" ++ String a_acute "s"
    ++ ellipsis.

Definition whatsapp_lines (records : list pyval) : result (list string) :=
  let! numbered := summary_lines 1 (firstn 5 records) in
  let lines := "Resultados para tu consulta:" :: numbered in
  Ok (if (5 <? length records)%nat
      then (lines ++ [more_line (Z.of_nat (length records) - 5)])%list
      else lines).

Definition format_for_whatsapp (records : pyval) (p : QueryParams)
    : result string :=
  let! records := to_list records in
  match records with
  | [] => Ok no_results
  | _ =>
      let! lines := whatsapp_lines records in
      Ok (join newline lines)
  end.

Definition format_for_web (records : pyval) (p : QueryParams)
    : result pyval :=
  let! data := to_list records in
  Ok (VDict [ ("query", VDict (as_dict p));
              ("count", VInt (Z.of_nat (length data)));
              ("results", VList data) ]).

(* ---------------------------------------------------------------- *)
(** ** [search_service.py] *)

(** The service: a parser (its language-model client, if any), a
    resolver, a builder and a client; the formatter has no state. *)
Record SearchService : Type := mkSearchService {
  _parser : option llm_client;
  _resolver : EntityResolver;
  _builder : SoQLBuilder;
  _secop : SecopClient
}.

Definition _resolve_entity (self : SearchService) (p : QueryParams)
    : option ResolvedEntity :=
  resolve (_resolver self) (entity p) 5.

(** [SearchService.search].  The dataset identifier reaches the client
    as it prints, which is how the client puts it into the cache key;
    the remote is asked under that text. *)
Definition search (self : SearchService) (query_text : string)
    (channel : string) (w : World) : result pyval * World :=
  match (let! p := parse (_parser self) query_text in
         let! _logged := to_json p in
         let resolved_entity := _resolve_entity self p in
         let! soql_payload := build (_builder self) p resolved_entity in
         Ok (p, soql_payload)) with
  | Raise e => (Raise e, w)
  | Ok (p, soql_payload) =>
      match query (_secop self) (str (dataset soql_payload))
              (Some (params soql_payload)) w with
      | (Raise e, w') => (Raise e, w')
      | (Ok results, w') =>
          (let! formatted :=
             if String.eqb channel "whatsapp"
             then (let! text := format_for_whatsapp results p in Ok (VStr text))
             else format_for_web results p in
           Ok (VDict [("data", formatted); ("raw", results)]),
           w')
      end
  end.

(* ---------------------------------------------------------------- *)
(** ** [main.py]: the default service *)

Definition unconfigured_message : string :=
  "SecopClient has not been configured with a real Socrata client. " ++
  "Use configure_service() to inject a fully initialised instance.".

(** [_UnconfiguredClient]: every [get] raises. *)
Definition _UnconfiguredClient : remote :=
  fun _ _ _ => inl unconfigured_message.

(** [create_default_service]: no language model, no index, no dataset
    table, and the defaults of [SecopClient] (no cache store, three
    retries, half a second of backoff) around the client above. *)
Definition create_default_service : SearchService :=
  mkSearchService None (mkEntityResolver None "entities" None)
    (mkSoQLBuilder ∅)
    (mkSecopClient _UnconfiguredClient false 3 0.5%float).

(* ---------------------------------------------------------------- *)
(** ** [scripts/populate_chroma.py] *)

(** [load_records], given the suffix of the path and what [json.load]
    makes of the file: the items of a JSON array, nothing for any other
    JSON value, [ValueError] for a suffix that is not [.json]. *)
Definition load_records (suffix : string) (loaded : result pyval)
    : result (list pyval) :=
  if String.eqb (lower suffix) ".json"
  then (let! data := loaded in
        match data with
        | VList items => Ok items
        | _ => Ok []
        end)
  else Raise (ValueError
                "Only JSON files are supported in this lightweight example").

(** [record.get("name") or record.get("title") or ""] *)
Definition document_of (record : pyval) : result pyval :=
  let! name := Py.get record "name" in
  if Py.truthy name then Ok name
  else (let! title := Py.get record "title" in
        Ok (Py.or_ title (VStr ""))).

(** The three lists [main] fills, record by record. *)
Record batch : Type := mkBatch {
  ids : list string;
  batch_documents : list pyval;
  batch_metadatas : list pyval
}.

Fixpoint collect (idx : Z) (records : list pyval) (acc : batch)
    : result batch :=
  match records with
  | [] => Ok acc
  | record :: rest =>
      let! document := document_of record in
      collect (idx + 1) rest
        (mkBatch (ids acc ++ [of_int idx])%list
                 (batch_documents acc ++ [document])%list
                 (batch_metadatas acc ++ [record])%list)
  end.

(** How [main] ends: by [SystemExit], by an exception nobody catches,
    or by adding the batch to the collection. *)
Inductive script_end : Type :=
| SystemExit (message : string)
| Uncaught (e : exn)
| Added (collection : string) (b : batch).

Definition populate (collection : string) (suffix : string)
    (loaded : result pyval) : script_end :=
  match (let! records := load_records suffix loaded in
         collect 0 records (mkBatch [] [] [])) with
  | Raise e => Uncaught e
  | Ok b =>
      match ids b with
      | [] => SystemExit "No records found in source file"
      | _ => Added collection b
      end
  end.

End Pipeline.

(* ================================================================== *)
(** * What the specification says, in its own words *)
(* ================================================================== *)

Module Spec.
Import PyStr.

(** An entity that is empty or consists only of white space. *)
Definition blank (s : string) : bool := forallb is_space s.

(** The invariant of [QueryParams]: the entity is not blank and the
    limit, if present, is greater than zero. *)
Definition valid_args (entity : string) (limit : option Z) : bool :=
  (negb (blank entity)
   && match limit with Some n => 0 <? n | None => true end)%bool.

(** The dataset identifier a resolved entity carries: the value under
    [dataset_id] of its metadata, when there is one and it is not
    empty. *)
Definition carried_dataset (resolved : option ResolvedEntity) : option pyval :=
  match resolved with
  | Some e =>
      match Py.dict_get "dataset_id" (metadata e) with
      | Some id => if Py.truthy id then Some id else None
      | None => None
      end
  | None => None
  end.

(** Dataset selection: the carried identifier, else the entry of the
    static table for the entity name, else the entity name itself. *)
Definition select_dataset (table : gmap string string) (entity : string)
    (resolved : option ResolvedEntity) : pyval :=
  match carried_dataset resolved with
  | Some id => id
  | None =>
      match table !! entity with
      | Some d => VStr d
      | None => VStr entity
      end
  end.

(** Every single quote doubled. *)
Definition double_quotes (s : string) : string := replace squote "''" s.

Section Rendering.
Variable float_repr : float -> string.

(** The quoting rule for the elements of a membership clause: a number
    as it prints, anything else as its text between single quotes, the
    single quotes inside doubled. *)
Definition element (v : pyval) : string :=
  match v with
  | VBool _ | VInt _ | VFloat _ => str float_repr v
  | _ => "'" ++ double_quotes (str float_repr v) ++ "'"
  end.

Definition equality (key text : string) : string := key ++ " = " ++ text.

Definition like (key : string) (s : string) : string :=
  "upper(" ++ key ++ ") LIKE upper('%" ++ double_quotes s ++ "%')".

Definition membership (key : string) (elements : list pyval) : string :=
  key ++ " IN (" ++ join ", " (map element elements) ++ ")".

(** Filter rendering as the specification words it: number, string,
    list, and the JSON encoding for any other kind. *)
Definition clause_as_stated (key : string) (value : pyval) : result string :=
  match value with
  | VBool _ | VInt _ | VFloat _ => Ok (equality key (str float_repr value))
  | VStr s => Ok (like key s)
  | VList l => Ok (membership key l)
  | _ =>
      let! encoded := json_dumps float_repr false value in
      Ok (equality key encoded)
  end.

(** The where clause as the specification words it: the clauses
    joined with [ AND ]. *)
Fixpoint clauses_as_stated (filters : pydict) : result (list string) :=
  match filters with
  | [] => Ok []
  | (key, value) :: rest =>
      let! c := clause_as_stated key value in
      let! cs := clauses_as_stated rest in
      Ok (c :: cs)
  end.

Definition where_as_stated (filters : pydict) : result string :=
  let! clauses := clauses_as_stated filters in
  Ok (join " AND " clauses).

(** Filter rendering by kind as the code has it: every value that can
    be iterated and is no string gives a membership clause over what
    iterating it yields, a mapping yielding its keys; [None] is what
    remains for the JSON encoding. *)
Definition clause (key : string) (value : pyval) : string :=
  match value with
  | VBool _ | VInt _ | VFloat _ => equality key (str float_repr value)
  | VStr s => like key s
  | VList l | VTuple l | VSet l => membership key l
  | VDict d => membership key (map (fun kv => VStr (fst kv)) d)
  | VNone => equality key "null"
  end.

End Rendering.

(** JSON data, as the remote answers with and [json.loads] produces:
    no tuple and no set at any depth. *)
Fixpoint json_data (v : pyval) : bool :=
  match v with
  | VNone | VBool _ | VInt _ | VFloat _ | VStr _ => true
  | VList l => List.forallb json_data l
  | VDict d => List.forallb (fun kv => json_data (snd kv)) d
  | VTuple _ | VSet _ => false
  end.

(** A value without parts. *)
Definition flat (v : pyval) : bool :=
  match v with
  | VNone | VBool _ | VInt _ | VFloat _ | VStr _ => true
  | _ => false
  end.

Definition text_or_mapping (v : pyval) : bool :=
  match v with
  | VStr _ | VDict _ => true
  | _ => false
  end.

(** A decoded payload of the wrong shape: no mapping at all, or one
    whose filters are given and are no mapping, or whose metrics are
    given and cannot be iterated. *)
Definition wrong_shape (payload : pyval) : bool :=
  match payload with
  | VDict d =>
      let given_filters := default VNone (Py.dict_get "filters" d) in
      let given_metrics := default VNone (Py.dict_get "metrics" d) in
      ((Py.truthy given_filters && negb (is_dict given_filters))
       || (Py.truthy given_metrics && negb (Py.is_iterable given_metrics)))%bool
  | _ => true
  end.

Section Model.
Variable json_loads : string -> option pyval.

(** The outcomes of a call to the language model that are of no use:
    the call raised; the output is text that is no JSON; the output,
    decoded if it is text, has the wrong shape; the output is neither
    text nor a mapping. *)
Inductive unusable : result pyval -> Prop :=
| unusable_raised (e : exn) :
    unusable (Raise e)
| unusable_not_json (s : string) :
    json_loads s = None -> unusable (Ok (VStr s))
| unusable_malformed_text (s : string) (payload : pyval) :
    json_loads s = Some payload -> wrong_shape payload = true ->
    unusable (Ok (VStr s))
| unusable_malformed (d : pydict) :
    wrong_shape (VDict d) = true -> unusable (Ok (VDict d))
| unusable_unsupported (raw : pyval) :
    text_or_mapping raw = false -> unusable (Ok raw).

(** No language model is configured, or the one configured is of no
    use on this prompt. *)
Definition no_usable_model (client : option llm_client) (prompt : string)
    : Prop :=
  match client with
  | None => True
  | Some generate => unusable (generate prompt)
  end.

End Model.

(** Two values with the same contents: equal, up to the order in
    which the entries of their mappings, at any depth, were inserted.
    Two mappings have the same contents when each holds every key once,
    they hold as many, and every key of the first is a key of the
    second with a value of the same contents. *)
Fixpoint same_contents (a b : pyval) {struct a} : Prop :=
  let items :=
    fix items (l1 l2 : list pyval) : Prop :=
      match l1, l2 with
      | [], [] => True
      | x :: l1', y :: l2' => same_contents x y /\ items l1' l2'
      | _, _ => False
      end in
  match a, b with
  | VList l1, VList l2 => items l1 l2
  | VTuple l1, VTuple l2 => items l1 l2
  | VDict d1, VDict d2 =>
      List.NoDup (Py.keys d1) /\ List.NoDup (Py.keys d2)
      /\ length d1 = length d2
      /\ (fix entries (d : pydict) : Prop :=
            match d with
            | [] => True
            | (k, x) :: d' =>
                match Py.dict_get k d2 with
                | Some y => same_contents x y
                | None => False
                end /\ entries d'
            end) d1
  | _, _ => a = b
  end.

(** The n-th invocation of the remote fails. *)
Definition fails (self : SecopClient) (dataset : string) (params : pydict)
    (n : nat) : Prop :=
  exists cause, _client self n dataset params = inl cause.

(** The query is not answered from the cache: its key is [key], and no
    cache store is configured or the store holds nothing under it. *)
Definition cache_miss (self : SecopClient) (key : string) (w : World) : Prop :=
  _redis self = false \/ store w !! key = None.

(** The pauses for the attempts [first + 1] to [first + count], the
    latest first: each the backoff with the number of the attempt. *)
Fixpoint backoffs (backoff : float) (first : Z) (count : nat)
    : list (float * Z) :=
  match count with
  | O => []
  | S c => (backoff, first + Z.of_nat (S c)) :: backoffs backoff first c
  end.

End Spec.

(* ================================================================== *)
(** * Properties *)
(* ================================================================== *)

(** ** Strings *)

Module PyStrFacts.
Import PyStr.

Lemma rev_app_empty (s acc : string) :
  String.rev_app s acc = "" -> s = "" /\ acc = "".
Proof.
  revert acc; induction s as [|c s IH]; intros acc H; simpl in H.
  - split; [reflexivity | exact H].
  - apply IH in H. destruct H as [_ H]. discriminate H.
Qed.

Lemma forallb_rev_app (p : ascii -> bool) (s acc : string) :
  forallb p (String.rev_app s acc) = (forallb p s && forallb p acc)%bool.
Proof.
  revert acc; induction s as [|c s IH]; intros acc; simpl.
  - reflexivity.
  - rewrite IH. simpl. destruct (p c), (forallb p s), (forallb p acc); reflexivity.
Qed.

Lemma drop_while_all (p : ascii -> bool) (s : string) :
  forallb p s = true -> drop_while p s = "".
Proof.
  induction s as [|c s IH]; simpl; [reflexivity|].
  destruct (p c); simpl; [exact IH | discriminate].
Qed.

Lemma drop_while_stuck (p : ascii -> bool) (s : string) :
  forallb p (drop_while p s) = true -> forallb p s = true.
Proof.
  induction s as [|c s IH]; simpl; [reflexivity|].
  destruct (p c) eqn:E; simpl.
  - exact IH.
  - rewrite E. simpl. discriminate.
Qed.

Lemma strip_with_empty (p : ascii -> bool) (s : string) :
  strip_with p s = "" <-> forallb p s = true.
Proof.
  unfold strip_with, String.rev. split.
  - intros H. apply rev_app_empty in H as [H _].
    apply drop_while_stuck.
    assert (A : forallb p (String.rev_app (drop_while p s) "") = true).
    { apply drop_while_stuck. rewrite H. reflexivity. }
    rewrite forallb_rev_app in A. apply andb_true_iff in A as [A _]. exact A.
  - intros H. rewrite (drop_while_all _ _ H). reflexivity.
Qed.

Lemma strip_blank (s : string) :
  String.eqb (strip s) "" = Spec.blank s.
Proof.
  unfold strip, Spec.blank.
  destruct (forallb is_space s) eqn:E.
  - apply String.eqb_eq. apply strip_with_empty. exact E.
  - apply String.eqb_neq. intros H. apply strip_with_empty in H. congruence.
Qed.

Lemma app_not_empty_l (a b : string) : a <> "" -> a ++ b <> "".
Proof. destruct a; [congruence | discriminate]. Qed.

Lemma app_not_empty_r (a b : string) : b <> "" -> a ++ b <> "".
Proof. destruct a; simpl; [tauto | discriminate]. Qed.

Lemma join_not_empty (sep : string) (parts : list string) :
  parts <> [] -> Forall (fun c => c <> "") parts -> join sep parts <> "".
Proof.
  destruct parts as [|c parts]; [congruence|].
  intros _ H. apply Forall_cons in H as [Hc _].
  destruct parts; simpl; [exact Hc|].
  apply app_not_empty_l. exact Hc.
Qed.

End PyStrFacts.

(** ** The query parameters *)

Lemma QueryParams_new_valid (entity : string) (filters : pydict)
    (metrics : list pyval) (raw_query : string) (limit : option Z) :
  Spec.valid_args entity limit = true ->
  QueryParams_new (VStr entity) filters metrics raw_query limit
  = Ok (mkQueryParams entity filters metrics raw_query limit).
Proof.
  unfold Spec.valid_args, QueryParams_new.
  cbn [Py.truthy]. rewrite PyStrFacts.strip_blank.
  destruct (String.eqb entity "") eqn:Eempty.
  - apply String.eqb_eq in Eempty. subst entity. discriminate.
  - simpl. destruct (Spec.blank entity); simpl; [discriminate|].
    destruct limit as [n|]; simpl; [|reflexivity].
    intros H. apply Z.ltb_lt in H.
    destruct (Z.leb_spec n 0); [lia | reflexivity].
Qed.

Lemma QueryParams_new_invalid (entity : string) (filters : pydict)
    (metrics : list pyval) (raw_query : string) (limit : option Z) :
  Spec.valid_args entity limit = false ->
  exists msg,
    QueryParams_new (VStr entity) filters metrics raw_query limit
    = Raise (ValueError msg).
Proof.
  unfold Spec.valid_args, QueryParams_new.
  cbn [Py.truthy]. rewrite PyStrFacts.strip_blank.
  destruct (String.eqb entity "") eqn:Eempty.
  - simpl. eauto.
  - simpl. destruct (Spec.blank entity); simpl; [eauto|].
    destruct limit as [n|]; simpl; [|discriminate].
    intros H. apply Z.ltb_ge in H.
    destruct (Z.leb_spec n 0); [eauto | lia].
Qed.

(** C9.  Constructing a [QueryParams] from an entity name and a limit
    succeeds, with the fields as given, exactly when the entity is not
    blank (neither empty nor white space only) and the limit is absent
    or greater than zero; in every other case it fails with the
    validation error ([ValueError] in the code). *)
Theorem QueryParams_new_validates :
  forall (entity : string) (filters : pydict) (metrics : list pyval)
         (raw_query : string) (limit : option Z),
    if Spec.valid_args entity limit
    then QueryParams_new (VStr entity) filters metrics raw_query limit
         = Ok (mkQueryParams entity filters metrics raw_query limit)
    else exists msg,
         QueryParams_new (VStr entity) filters metrics raw_query limit
         = Raise (ValueError msg).
Proof.
  intros entity filters metrics raw_query limit.
  destruct (Spec.valid_args entity limit) eqn:E.
  - apply QueryParams_new_valid. exact E.
  - apply QueryParams_new_invalid. exact E.
Qed.

(** ** The entity resolver *)

(** C8.  With no similarity-search client configured, [resolve] returns,
    for every mention, every [top_k] and whatever reranking client is
    configured, the entity whose name is the mention, whose score is 1.0
    and whose metadata is empty. *)
Theorem resolve_without_chroma :
  forall (collection : string) (cohere : option cohere_client)
         (mention : string) (top_k : Z),
    resolve (mkEntityResolver None collection cohere) mention top_k
    = Some (mkResolvedEntity mention 1%float []).
Proof.
  intros collection cohere mention top_k.
  unfold resolve, _search_chroma; simpl.
  destruct cohere; reflexivity.
Qed.

(** ** The query builder *)

Section BuilderFacts.
Import PyStr.
Variable float_repr : float -> string.

Lemma _quote_element (v : pyval) :
  _quote float_repr v = Spec.element float_repr v.
Proof. destruct v; reflexivity. Qed.

Lemma _render_filter_clause (key : string) (value : pyval) :
  _render_filter float_repr key value = Ok (Spec.clause float_repr key value).
Proof.
  destruct value; unfold _render_filter, Spec.clause, Spec.membership;
    simpl; try reflexivity;
    rewrite (List.map_ext _ _ _quote_element); reflexivity.
Qed.

Lemma render_all_clauses (filters : pydict) :
  render_all float_repr filters
  = Ok (map (fun kv => Spec.clause float_repr (fst kv) (snd kv)) filters).
Proof.
  induction filters as [|[key value] rest IH]; simpl; [reflexivity|].
  rewrite _render_filter_clause, IH. reflexivity.
Qed.

Lemma clause_not_empty (key : string) (value : pyval) :
  Spec.clause float_repr key value <> "".
Proof.
  destruct value; simpl;
    unfold Spec.equality, Spec.membership, Spec.like;
    try (apply PyStrFacts.app_not_empty_r; discriminate);
    discriminate.
Qed.

Lemma non_empty_all (clauses : list string) :
  Forall (fun c => c <> "") clauses -> non_empty clauses = clauses.
Proof.
  induction 1 as [|c clauses Hc _ IH]; simpl; [reflexivity|].
  apply String.eqb_neq in Hc. rewrite Hc. simpl. rewrite IH. reflexivity.
Qed.

Lemma _build_where_clauses (filters : pydict) :
  _build_where float_repr filters
  = Ok (join " AND "
          (map (fun kv => Spec.clause float_repr (fst kv) (snd kv)) filters)).
Proof.
  unfold _build_where. rewrite render_all_clauses. simpl.
  rewrite non_empty_all; [reflexivity|].
  apply List.Forall_forall. intros c Hc. apply List.in_map_iff in Hc as [[k v] [<- _]].
  apply clause_not_empty.
Qed.

(** The where clause is empty for the empty filter set only. *)
Lemma where_clause_empty (filters : pydict) :
  join " AND "
    (map (fun kv => Spec.clause float_repr (fst kv) (snd kv)) filters) = ""
  <-> filters = [].
Proof.
  split; [|intros ->; reflexivity].
  intros H. destruct filters as [|kv rest]; [reflexivity|].
  exfalso. revert H. apply PyStrFacts.join_not_empty; [discriminate|].
  apply List.Forall_forall. intros c Hc. apply List.in_map_iff in Hc as [[k v] [<- _]].
  apply clause_not_empty.
Qed.

Lemma dict_get_set_other (k k' : string) (v : pyval) (d : pydict) :
  k <> k' -> Py.dict_get k (Py.dict_set k' v d) = Py.dict_get k d.
Proof.
  intros Hne. induction d as [|[k0 v0] d IH]; simpl.
  - apply String.eqb_neq in Hne. rewrite Hne. reflexivity.
  - destruct (String.eqb_spec k' k0) as [->|Hk]; simpl.
    + apply String.eqb_neq in Hne. rewrite Hne. reflexivity.
    + destruct (String.eqb k k0); [reflexivity | exact IH].
Qed.

(** [build] fails on metrics that are no strings, and on nothing else. *)
Lemma build_total (self : SoQLBuilder) (p : QueryParams)
    (resolved : option ResolvedEntity) (names : list string) :
  strings_of (metrics p) = Ok names ->
  exists payload, build float_repr self p resolved = Ok payload.
Proof.
  unfold build. rewrite _build_where_clauses. cbn [bind].
  destruct (metrics p) as [|m ms]; intros Hm; cbn [bind]; [eauto|].
  rewrite Hm. cbn [bind]. eauto.
Qed.

(** C5, as amended.  For every [QueryParams] for which [build] returns
    a payload, the where clause is the clauses of the filters, in
    order, joined with [ AND ], and there is none for the empty filter
    set.  A numeric value gives the equality clause [key = value]; a
    string the clause [upper(key) LIKE upper('%v%')] with every single
    quote of [v] doubled; a list, tuple, set or mapping (every iterable
    value that is no string) the clause [key IN (v1, v2, ...)] over the
    elements iterating it yields, a mapping yielding its keys, each
    element a number as it prints or else its text between single
    quotes; [None], the one remaining kind, the clause [key = null]. *)
Theorem build_where_clause_by_kind :
  forall (self : SoQLBuilder) (p : QueryParams)
         (resolved : option ResolvedEntity) (payload : soql_payload),
    build float_repr self p resolved = Ok payload ->
    Py.dict_get "$where" (params payload)
    = match filters p with
      | [] => None
      | fs =>
          Some (VStr (join " AND "
                  (map (fun kv => Spec.clause float_repr (fst kv) (snd kv)) fs)))
      end.
Proof.
  intros self p resolved payload. unfold build.
  rewrite _build_where_clauses. cbn [bind].
  set (w := join " AND " _).
  assert (Hw : Py.dict_get "$where"
                 (if Py.truthy (VStr w) then Py.dict_set "$where" (VStr w) []
                  else [])
               = match filters p with [] => None | _ => Some (VStr w) end).
  { destruct (filters p) as [|kv rest] eqn:Ef; [reflexivity|].
    assert (Hne : w <> "").
    { intros H. apply where_clause_empty in H. discriminate H. }
    cbn [Py.truthy]. apply String.eqb_neq in Hne. rewrite Hne. reflexivity. }
  set (base := if Py.truthy (VStr w) then _ else _) in *.
  assert (Hlimit : forall d,
    Py.dict_get "$where"
      (match limit p with Some n => Py.dict_set "$limit" (VInt n) d | None => d end)
    = Py.dict_get "$where" d).
  { intros d. destruct (limit p); [|reflexivity].
    apply dict_get_set_other. discriminate. }
  destruct (metrics p) as [|m ms]; cbn [bind].
  - intros [= <-]. cbn [params]. rewrite Hlimit. rewrite Hw.
    destruct (filters p); reflexivity.
  - destruct (strings_of (m :: ms)) as [names|e]; cbn [bind]; [|discriminate].
    intros [= <-]. cbn [params]. rewrite Hlimit.
    rewrite dict_get_set_other by discriminate. rewrite Hw.
    destruct (filters p); reflexivity.
Qed.

(** C10.  A filter value that is neither numeric nor a string is
    rendered as a membership clause [key IN (...)] whenever it can be
    iterated: over the elements of a list, a tuple or a set, and over
    the keys of a mapping, not its key-value pairs.  The JSON-encoded
    rendering [key = <json>] is what such a value gets only when it is
    [None], the value that cannot be iterated. *)
Theorem render_filter_iterables :
  forall (key : string) (value : pyval),
    Py.is_number value = false ->
    (forall s, value <> VStr s) ->
    match value with
    | VList l | VTuple l | VSet l =>
        _render_filter float_repr key value
        = Ok (key ++ " IN (" ++ join ", " (map (_quote float_repr) l) ++ ")")
    | VDict d =>
        _render_filter float_repr key value
        = Ok (key ++ " IN ("
                ++ join ", " (map (fun kv => _quote float_repr (VStr (fst kv))) d)
                ++ ")")
    | _ =>
        value = VNone
        /\ _render_filter float_repr key value = Ok (key ++ " = null")
    end
    /\ (forall encoded,
          json_dumps float_repr false value = Ok encoded ->
          _render_filter float_repr key value = Ok (key ++ " = " ++ encoded) ->
          value = VNone).
Proof.
  intros key value Hnum Hstr.
  destruct value; try discriminate Hnum;
    try (exfalso; eapply Hstr; reflexivity).
  - split; [split; reflexivity | reflexivity].
  - split; [reflexivity|]. intros encoded _ H. simpl in H.
    injection H as H. apply String.app_inj in H. discriminate H.
  - split; [reflexivity|]. intros encoded _ H. simpl in H.
    injection H as H. apply String.app_inj in H. discriminate H.
  - split; [reflexivity|]. intros encoded H. discriminate H.
  - split; [unfold _render_filter; simpl; rewrite List.map_map; reflexivity|].
    intros encoded _ H.
    simpl in H. injection H as H. apply String.app_inj in H. discriminate H.
Qed.

(** C6.  For every [QueryParams] and optional resolved entity for which
    [build] returns a payload, its dataset is the identifier the
    resolved entity carries in its metadata (a non-empty value under
    [dataset_id]) when an entity is given and carries one; otherwise
    the entry of the static table for the entity name; otherwise the
    entity name itself. *)
Theorem build_dataset_precedence :
  forall (self : SoQLBuilder) (p : QueryParams)
         (resolved : option ResolvedEntity) (payload : soql_payload),
    build float_repr self p resolved = Ok payload ->
    dataset payload
    = Spec.select_dataset (_dataset_map self) (entity p) resolved.
Proof.
  intros self p resolved payload. unfold build.
  rewrite _build_where_clauses. cbn [bind].
  assert (Hd : _resolve_dataset self p resolved
               = Spec.select_dataset (_dataset_map self) (entity p) resolved).
  { unfold _resolve_dataset, Spec.select_dataset, Spec.carried_dataset.
    destruct resolved as [e|]; simpl.
    - destruct (Py.dict_get "dataset_id" (metadata e)) as [id|]; simpl.
      + destruct (Py.truthy id); [reflexivity|].
        destruct (_dataset_map self !! entity p); reflexivity.
      + destruct (_dataset_map self !! entity p); reflexivity.
    - destruct (_dataset_map self !! entity p); reflexivity. }
  destruct (metrics p) as [|m ms]; cbn [bind].
  - intros [= <-]. exact Hd.
  - destruct (strings_of (m :: ms)); cbn [bind]; [|discriminate].
    intros [= <-]. exact Hd.
Qed.

End BuilderFacts.

(** ** Values *)

(** Induction over values, with the hypothesis for every item of a
    container. *)
Section pyval_induction.
Variable P : pyval -> Prop.
Hypothesis HNone : P VNone.
Hypothesis HBool : forall b, P (VBool b).
Hypothesis HInt : forall n, P (VInt n).
Hypothesis HFloat : forall x, P (VFloat x).
Hypothesis HStr : forall s, P (VStr s).
Hypothesis HList : forall l, List.Forall P l -> P (VList l).
Hypothesis HTuple : forall l, List.Forall P l -> P (VTuple l).
Hypothesis HSet : forall l, List.Forall P l -> P (VSet l).
Hypothesis HDict :
  forall d, List.Forall (fun kv => P (snd kv)) d -> P (VDict d).

Fixpoint pyval_items_ind (v : pyval) : P v :=
  let items :=
    fix items (l : list pyval) : List.Forall P l :=
      match l with
      | [] => @List.Forall_nil _ P
      | x :: l' => @List.Forall_cons _ P x l' (pyval_items_ind x) (items l')
      end in
  match v with
  | VNone => HNone
  | VBool b => HBool b
  | VInt n => HInt n
  | VFloat x => HFloat x
  | VStr s => HStr s
  | VList l => HList l (items l)
  | VTuple l => HTuple l (items l)
  | VSet l => HSet l (items l)
  | VDict d =>
      HDict d
        ((fix entries (d : pydict) : List.Forall (fun kv => P (snd kv)) d :=
            match d with
            | [] => @List.Forall_nil _ _
            | kv :: d' =>
                @List.Forall_cons _ (fun kv => P (snd kv)) kv d'
                  (pyval_items_ind (snd kv)) (entries d')
            end) d)
  end.
End pyval_induction.

Section EncoderFacts.
Variable float_repr : float -> string.

Lemma json_dumps_list (sort_keys : bool) (l : list pyval) :
  json_dumps float_repr sort_keys (VList l)
  = (let! parts := encode_list float_repr sort_keys l in
     Ok ("[" ++ PyStr.join ", " parts ++ "]")).
Proof. reflexivity. Qed.

Lemma json_dumps_dict (sort_keys : bool) (d : pydict) :
  json_dumps float_repr sort_keys (VDict d)
  = (let! items := encode_entries float_repr sort_keys d in
     Ok ("{" ++ PyStr.join ", "
                  (map json_item (order_items sort_keys items)) ++ "}")).
Proof. reflexivity. Qed.

Lemma encode_entries_cons (sort_keys : bool) (k : string) (x : pyval)
    (d : pydict) :
  encode_entries float_repr sort_keys ((k, x) :: d)
  = (let! s := json_dumps float_repr sort_keys x in
     let! ss := encode_entries float_repr sort_keys d in
     Ok ((k, s) :: ss)).
Proof. reflexivity. Qed.

(** The encoder raises nothing but [TypeError]. *)
Lemma json_dumps_raises (sort_keys : bool) (v : pyval) (e : exn) :
  json_dumps float_repr sort_keys v = Raise e -> e = TypeError.
Proof.
  revert e. induction v as [| | | | |l IH|l IH|l IH|d IH] using pyval_items_ind;
    intros e; try discriminate.
  - rewrite json_dumps_list.
    assert (A : forall e', encode_list float_repr sort_keys l = Raise e' -> e' = TypeError).
    { clear e. induction IH as [|x l Hx _ IHl]; intros e' H; [discriminate|].
      simpl in H. destruct (json_dumps float_repr sort_keys x) eqn:Ex.
      - cbn [bind] in H. fold (encode_list float_repr sort_keys l) in H.
        destruct (encode_list float_repr sort_keys l); [discriminate|].
        injection H as <-. apply IHl. reflexivity.
      - injection H as <-. apply Hx. reflexivity. }
    destruct (encode_list float_repr sort_keys l) eqn:El; [discriminate|].
    intros [= <-]. apply A. reflexivity.
  - change (json_dumps float_repr sort_keys (VTuple l))
      with (json_dumps float_repr sort_keys (VList l)).
    rewrite json_dumps_list.
    assert (A : forall e', encode_list float_repr sort_keys l = Raise e' -> e' = TypeError).
    { clear e. induction IH as [|x l Hx _ IHl]; intros e' H; [discriminate|].
      simpl in H. destruct (json_dumps float_repr sort_keys x) eqn:Ex.
      - cbn [bind] in H. fold (encode_list float_repr sort_keys l) in H.
        destruct (encode_list float_repr sort_keys l); [discriminate|].
        injection H as <-. apply IHl. reflexivity.
      - injection H as <-. apply Hx. reflexivity. }
    destruct (encode_list float_repr sort_keys l) eqn:El; [discriminate|].
    intros [= <-]. apply A. reflexivity.
  - intros [= <-]. reflexivity.
  - rewrite json_dumps_dict.
    assert (A : forall e',
               encode_entries float_repr sort_keys d = Raise e' -> e' = TypeError).
    { clear e. induction IH as [|[k x] d Hx _ IHd]; intros e' H; [discriminate|].
      rewrite encode_entries_cons in H. simpl in Hx.
      destruct (json_dumps float_repr sort_keys x) eqn:Ex.
      - cbn [bind] in H.
        destruct (encode_entries float_repr sort_keys d); [discriminate|].
        injection H as <-. apply IHd. reflexivity.
      - injection H as <-. apply Hx. reflexivity. }
    destruct (encode_entries float_repr sort_keys d) eqn:Ed; [discriminate|].
    intros [= <-]. apply A. reflexivity.
Qed.

(** JSON data serialises. *)
Lemma json_data_dumps (sort_keys : bool) (v : pyval) :
  Spec.json_data v = true ->
  exists text, json_dumps float_repr sort_keys v = Ok text.
Proof.
  induction v as [|b|n|x|s|l IH|l IH|l IH|d IH] using pyval_items_ind;
    intros H; try discriminate H; try (eexists; reflexivity).
  - rewrite json_dumps_list.
    assert (A : exists parts, encode_list float_repr sort_keys l = Ok parts).
    { simpl in H. induction IH as [|x l Hx _ IHl]; [eexists; reflexivity|].
      simpl in H. apply andb_true_iff in H as [H1 H2].
      destruct (Hx H1) as [text Hx']. destruct (IHl H2) as [parts Hl].
      simpl. fold (encode_list float_repr sort_keys l).
      rewrite Hx', Hl. eexists. reflexivity. }
    destruct A as [parts ->]. eexists. reflexivity.
  - rewrite json_dumps_dict.
    assert (A : exists items,
               encode_entries float_repr sort_keys d = Ok items).
    { simpl in H. induction IH as [|[k x] d Hx _ IHd]; [eexists; reflexivity|].
      simpl in H, Hx. apply andb_true_iff in H as [H1 H2].
      destruct (Hx H1) as [text Hx']. destruct (IHd H2) as [items Hd].
      rewrite encode_entries_cons, Hx', Hd. eexists. reflexivity. }
    destruct A as [items ->]. eexists. reflexivity.
Qed.

End EncoderFacts.

(** ** The client: cache and bounded retries *)

Section ClientFacts.
Variable float_repr : float -> string.
Variable json_loads : string -> option pyval.

(** One turn of the loop. *)
Lemma retry_loop_step (self : SecopClient) (dataset : string)
    (params : pydict) (attempt : Z) (w : World) :
  retry_loop self dataset params attempt w
  = let w' := mkWorld (S (served w)) (slept w) (store w) in
    match _client self (served w) dataset params with
    | inr result => (Ok result, w')
    | inl exc =>
        if attempt + 1 >? _max_retries self
        then (Raise (RemoteQueryError exc), w')
        else retry_loop self dataset params (attempt + 1)
               (sleep (_retry_backoff self) (attempt + 1) w')
    end.
Proof.
  rewrite retry_loop_equation_1. unfold client_get.
  destruct (_client self (served w) dataset params) as [exc|result]; simpl;
    [|reflexivity].
  destruct (Z_gt_dec (attempt + 1) (_max_retries self)) as [g|g]; simpl;
    destruct (Z.gtb_spec (attempt + 1) (_max_retries self)); try lia;
    reflexivity.
Qed.

(** The loop raises only the failure of the remote, and only when the
    attempt that exceeds the maximum has failed like all before it. *)
Lemma retry_loop_raise (self : SecopClient) (dataset : string)
    (params : pydict) (n : nat) :
  forall (attempt : Z) (w w' : World) (e : exn),
    n = Z.to_nat (_max_retries self + 1 - attempt) ->
    attempt <= _max_retries self ->
    retry_loop self dataset params attempt w = (Raise e, w') ->
    served w' = (served w + n)%nat
    /\ (forall i, (i < n)%nat -> Spec.fails self dataset params (served w + i)%nat)
    /\ exists cause, e = RemoteQueryError cause
         /\ _client self (served w + n - 1)%nat dataset params = inl cause.
Proof.
  induction n as [|n IH]; intros attempt w w' e Hn Hle H; [lia|].
  rewrite retry_loop_step in H. cbv zeta in H.
  destruct (_client self (served w) dataset params) as [exc|result] eqn:Ec;
    [|discriminate].
  destruct (Z.gtb_spec (attempt + 1) (_max_retries self)) as [Hgt|Hng].
  - injection H as <- <-. assert (n = 0%nat) as -> by lia. simpl.
    split; [lia|]. split.
    + intros i Hi. assert (i = 0%nat) as -> by lia.
      rewrite Nat.add_0_r. exists exc. exact Ec.
    + exists exc. split; [reflexivity|].
      replace (served w + 1 - 1)%nat with (served w) by lia. exact Ec.
  - apply IH in H; [|lia|lia]. simpl in H. destruct H as (Hs & Hf & cause & -> & Hc).
    split; [lia|]. split.
    + intros i Hi. destruct i as [|i].
      * rewrite Nat.add_0_r. exists exc. exact Ec.
      * replace (served w + S i)%nat with (S (served w) + i)%nat by lia.
        apply Hf. lia.
    + exists cause. split; [reflexivity|].
      replace (served w + S n - 1)%nat with (S (served w) + n - 1)%nat by lia.
      exact Hc.
Qed.

(** When every invocation fails the loop ends by raising. *)
Lemma retry_loop_all_fail (self : SecopClient) (dataset : string)
    (params : pydict) (n : nat) :
  forall (attempt : Z) (w : World),
    n = Z.to_nat (_max_retries self + 1 - attempt) ->
    attempt <= _max_retries self ->
    (forall i, Spec.fails self dataset params (served w + i)%nat) ->
    exists cause w',
      retry_loop self dataset params attempt w
      = (Raise (RemoteQueryError cause), w').
Proof.
  induction n as [|n IH]; intros attempt w Hn Hle Hf; [lia|].
  rewrite retry_loop_step. cbv zeta.
  destruct (Hf 0%nat) as [exc Hexc]. rewrite Nat.add_0_r in Hexc. rewrite Hexc.
  destruct (Z.gtb_spec (attempt + 1) (_max_retries self)) as [Hgt|Hng];
    [eauto|].
  apply IH; [lia|lia|]. intros i. simpl.
  replace (S (served w + i))%nat with (served w + S i)%nat by lia. apply Hf.
Qed.

(** The first attempt that does not fail ends the loop with its rows. *)
Lemma retry_loop_first_success (self : SecopClient) (dataset : string)
    (params : pydict) (rows : pyval) (k : nat) :
  forall (attempt : Z) (w : World),
    (forall i, (i < k)%nat -> Spec.fails self dataset params (served w + i)%nat) ->
    _client self (served w + k)%nat dataset params = inr rows ->
    attempt + Z.of_nat k <= _max_retries self ->
    exists w',
      retry_loop self dataset params attempt w = (Ok rows, w')
      /\ served w' = (served w + k + 1)%nat
      /\ store w' = store w.
Proof.
  induction k as [|k IH]; intros attempt w Hf Hk Hle;
    rewrite retry_loop_step; cbv zeta.
  - rewrite Nat.add_0_r in Hk. rewrite Hk. eexists. split; [reflexivity|].
    simpl. split; [lia | reflexivity].
  - destruct (Hf 0%nat) as [exc Hexc]; [lia|].
    rewrite Nat.add_0_r in Hexc. rewrite Hexc.
    destruct (Z.gtb_spec (attempt + 1) (_max_retries self)) as [Hgt|Hng];
      [lia|].
    destruct (IH (attempt + 1)
                (sleep (_retry_backoff self) (attempt + 1)
                   (mkWorld (S (served w)) (slept w) (store w))))
      as (w' & Hr & Hs & Hst).
    + intros i Hi. simpl.
      replace (S (served w + i))%nat with (served w + S i)%nat by lia.
      apply Hf. lia.
    + simpl. replace (S (served w + k))%nat with (served w + S k)%nat by lia.
      exact Hk.
    + lia.
    + exists w'. split; [exact Hr|]. simpl in Hs, Hst. split; [lia | exact Hst].
Qed.

Lemma redis_get_miss (self : SecopClient) (key : string) (w : World) :
  Spec.cache_miss self key w -> redis_get self key w = None.
Proof.
  unfold Spec.cache_miss, redis_get. intros [-> | H]; [reflexivity|].
  rewrite H. destruct (_redis self); reflexivity.
Qed.

(** C1.  With a maximum of retries that is not negative, for every
    dataset and params: [query] raises the failure of the remote
    ([RemoteQueryError]) only after exactly [max_retries + 1] attempts,
    counted from the state it was called in, all of which failed, the
    last with the failure raised; when the query is not answered from
    the cache and every remote call fails, that is what it does; and
    when the first attempt that does not fail is one of the
    [max_retries + 1], no attempt follows it and its rows are returned
    (with a cache store configured they are serialised for it before
    the return, which rows of JSON data always can be). *)
Theorem query_retries_exactly :
  forall (self : SecopClient) (dataset : string) (params : option pydict)
         (w : World),
    0 <= _max_retries self ->
    let args := default [] params in
    let outcome := query float_repr json_loads self dataset params w in
    (forall cause,
        fst outcome = Raise (RemoteQueryError cause) ->
        served (snd outcome)
        = (served w + Z.to_nat (_max_retries self + 1))%nat
        /\ (forall i, (i < Z.to_nat (_max_retries self + 1))%nat ->
                      Spec.fails self dataset args (served w + i)%nat)
        /\ _client self (served w + Z.to_nat (_max_retries self))%nat dataset args
           = inl cause)
    /\ (forall key,
          _cache_key float_repr dataset args = Ok key ->
          Spec.cache_miss self key w ->
          (forall i, Spec.fails self dataset args (served w + i)%nat) ->
          exists cause, fst outcome = Raise (RemoteQueryError cause))
    /\ (forall key k rows,
          _cache_key float_repr dataset args = Ok key ->
          Spec.cache_miss self key w ->
          (forall i, (i < k)%nat -> Spec.fails self dataset args (served w + i)%nat) ->
          _client self (served w + k)%nat dataset args = inr rows ->
          Z.of_nat k <= _max_retries self ->
          served (snd outcome) = (served w + k + 1)%nat
          /\ fst outcome
             = (if _redis self
                then (let! _encoded := json_dumps float_repr false rows in
                      Ok rows)
                else Ok rows)
          /\ (Spec.json_data rows = true -> fst outcome = Ok rows)).
Proof.
  intros self dataset params w Hmax args outcome.
  subst outcome. unfold query. fold args.
  split; [|split].
  - intros cause.
    destruct (_cache_key float_repr dataset args) as [key|e] eqn:Ekey.
    + destruct (redis_get self key w) as [cached|] eqn:Eget.
      * destruct (json_loads cached); discriminate.
      * destruct (retry_loop self dataset args 0 w) as [[result|e] w'] eqn:Eloop.
        -- destruct (_redis self); [|discriminate].
           destruct (json_dumps float_repr false result) as [enc|e] eqn:Eenc;
             [discriminate|].
           simpl. intros [= ->]. apply json_dumps_raises in Eenc. discriminate.
        -- simpl. intros [= ->].
           eapply retry_loop_raise in Eloop; [|reflexivity|lia].
           rewrite Z.sub_0_r in Eloop.
           destruct Eloop as (Hs & Hf & cause' & [= ->] & Hc).
           split; [exact Hs|]. split; [exact Hf|].
           replace (served w + Z.to_nat (_max_retries self))%nat
             with (served w + Z.to_nat (_max_retries self + 1) - 1)%nat by lia.
           exact Hc.
    + simpl. intros [= ->]. unfold _cache_key in Ekey.
      destruct (json_dumps float_repr true (VDict args)) eqn:Eenc;
        [discriminate|].
      injection Ekey as ->. apply json_dumps_raises in Eenc. discriminate.
  - intros key Hkey Hmiss Hf. rewrite Hkey.
    rewrite (redis_get_miss _ _ _ Hmiss).
    destruct (retry_loop_all_fail self dataset args
                (Z.to_nat (_max_retries self + 1 - 0)) 0 w)
      as (cause & w' & Hloop); [reflexivity|lia|exact Hf|].
    rewrite Hloop. simpl. eauto.
  - intros key k rows Hkey Hmiss Hf Hk Hle. rewrite Hkey.
    rewrite (redis_get_miss _ _ _ Hmiss).
    destruct (retry_loop_first_success self dataset args rows k 0 w)
      as (w' & Hloop & Hs & _); [exact Hf|exact Hk|lia|].
    rewrite Hloop.
    destruct (_redis self);
      [|split; [exact Hs | split; [reflexivity | intros _; reflexivity]]].
    destruct (json_dumps float_repr false rows) as [enc|e] eqn:Eenc; simpl;
      (split; [exact Hs|]); (split; [reflexivity|]); intros Hdata;
      [reflexivity|].
    destruct (json_data_dumps float_repr false rows Hdata) as [text Ht].
    congruence.
Qed.

(** With a negative maximum the first failure is already one too many:
    the loop makes one attempt. *)
Lemma retry_loop_negative_maximum (self : SecopClient) (dataset : string)
    (params : pydict) (w : World) (cause : string) :
  _max_retries self < 0 ->
  _client self (served w) dataset params = inl cause ->
  retry_loop self dataset params 0 w
  = (Raise (RemoteQueryError cause),
     mkWorld (S (served w)) (slept w) (store w)).
Proof.
  intros Hneg Hc. rewrite retry_loop_step. cbv zeta. rewrite Hc.
  destruct (Z.gtb_spec (0 + 1) (_max_retries self)); [reflexivity | lia].
Qed.

(** C2.  When a cache store is configured and holds a value under the
    cache key of the dataset and params, [query] returns what that
    value deserialises to and leaves everything outside as it was: the
    remote capability is not called, nothing is slept, nothing is
    stored. *)
Theorem query_cache_hit :
  forall (self : SecopClient) (dataset : string) (params : option pydict)
         (w : World) (key cached : string) (ttl : Z) (value : pyval),
    _redis self = true ->
    _cache_key float_repr dataset (default [] params) = Ok key ->
    store w !! key = Some (cached, ttl) ->
    json_loads cached = Some value ->
    query float_repr json_loads self dataset params w = (Ok value, w)
    /\ served (snd (query float_repr json_loads self dataset params w))
       = served w.
Proof.
  intros self dataset params w key cached ttl value Hredis Hkey Hstore Hval.
  assert (H : query float_repr json_loads self dataset params w = (Ok value, w)).
  { unfold query. rewrite Hkey. unfold redis_get. rewrite Hredis, Hstore.
    simpl. rewrite Hval. reflexivity. }
  rewrite H. split; reflexivity.
Qed.

End ClientFacts.

(** ** The query parser *)

Section ParserFacts.
Import PyStr.
Variable float_repr : float -> string.
Variable float_of_string : string -> option float.
Variable json_loads : string -> option pyval.

Lemma dict_set_flat (k : string) (v : pyval) (d : pydict) :
  Spec.flat v = true ->
  List.Forall (fun kv => Spec.flat (snd kv) = true) d ->
  List.Forall (fun kv => Spec.flat (snd kv) = true) (Py.dict_set k v d).
Proof.
  intros Hv. induction 1 as [|[k0 v0] d H0 Hd IH]; simpl.
  - constructor; [exact Hv | constructor].
  - destruct (String.eqb k k0); constructor; simpl in *; auto.
Qed.

Lemma heuristic_filters_flat (query : string) :
  List.Forall (fun kv => Spec.flat (snd kv) = true)
    (g_filters (_heuristic_parse float_of_string query)).
Proof.
  unfold _heuristic_parse. cbn [g_filters]. cbv zeta.
  repeat match goal with
  | |- List.Forall _ (match ?x with _ => _ end) => destruct x
  | |- List.Forall _ (if ?x then _ else _) => destruct x
  | |- List.Forall _ (Py.dict_set _ _ _) => apply dict_set_flat; [reflexivity|]
  end.
  all: constructor.
Qed.

Lemma heuristic_metrics_flat (query : string) :
  List.Forall (fun m => Spec.flat m = true)
    (g_metrics (_heuristic_parse float_of_string query)).
Proof.
  unfold _heuristic_parse. cbn [g_metrics]. cbv zeta.
  match goal with |- List.Forall _ (if ?x then _ else _) => destruct x end;
    repeat constructor.
Qed.

Lemma heuristic_entity (query : string) :
  exists e,
    g_entity (_heuristic_parse float_of_string query) = VStr e
    /\ (e = "suppliers" \/ e = "agencies" \/ e = "contracts").
Proof.
  unfold _heuristic_parse. cbn [g_entity]. cbv zeta.
  repeat match goal with
  | |- context [if ?x then _ else _] => destruct x
  end; eauto.
Qed.

Lemma heuristic_limit (query : string) :
  match g_limit (_heuristic_parse float_of_string query) with
  | Some n => 0 < n
  | None => True
  end.
Proof.
  unfold _heuristic_parse. cbn [g_limit]. cbv zeta.
  destruct (Re.search false limit_re (lower query)) as [m|]; [|exact I].
  destruct (int_of (Re.group 1 m)) as [n|]; [|exact I].
  destruct (Z.ltb_spec 0 n); [assumption | exact I].
Qed.

Lemma encode_list_flat (l : list pyval) :
  List.Forall (fun m => Spec.flat m = true) l ->
  exists parts, encode_list float_repr false l = Ok parts.
Proof.
  induction 1 as [|x l Hx _ [parts IH]]; [eexists; reflexivity|].
  simpl. fold (encode_list float_repr false l). rewrite IH.
  destruct x; try discriminate Hx; simpl; eauto.
Qed.

Lemma encode_entries_flat (d : pydict) :
  List.Forall (fun kv => Spec.flat (snd kv) = true) d ->
  exists items, encode_entries float_repr false d = Ok items.
Proof.
  induction 1 as [|[k x] d Hx _ [items IH]]; [eexists; reflexivity|].
  rewrite encode_entries_cons, IH.
  destruct x; try discriminate Hx; simpl; eauto.
Qed.

(** Parameters with flat filters and metrics serialise. *)
Lemma to_json_flat (p : QueryParams) :
  List.Forall (fun kv => Spec.flat (snd kv) = true) (filters p) ->
  List.Forall (fun m => Spec.flat m = true) (metrics p) ->
  exists text, to_json float_repr p = Ok text.
Proof.
  intros Hf Hm. unfold to_json, as_dict.
  rewrite json_dumps_dict. rewrite !encode_entries_cons.
  rewrite json_dumps_dict, json_dumps_list.
  destruct (encode_entries_flat _ Hf) as [items ->].
  destruct (encode_list_flat _ Hm) as [parts ->].
  destruct (limit p); simpl; eauto.
Qed.

Lemma _build_prompt_total (query : string) :
  exists prompt, _build_prompt float_repr query = Ok prompt.
Proof. unfold _build_prompt. eexists. reflexivity. Qed.

(** Without a language model, [parse] returns the heuristic reading. *)
Lemma parse_heuristic (query : string) :
  let h := _heuristic_parse float_of_string query in
  exists e,
    g_entity h = VStr e
    /\ (e = "suppliers" \/ e = "agencies" \/ e = "contracts")
    /\ parse float_repr float_of_string json_loads None query
       = Ok (mkQueryParams e (g_filters h) (g_metrics h) query (g_limit h)).
Proof.
  intros h. destruct (heuristic_entity query) as (e & He & Hcase).
  fold h in He. exists e. split; [exact He|]. split; [exact Hcase|].
  unfold parse. cbn [bind]. fold h. rewrite He.
  assert (Hnew : QueryParams_new (Py.or_ (VStr e) (VStr "contracts"))
                   (g_filters h) (g_metrics h) query (g_limit h)
                 = Ok (mkQueryParams e (g_filters h) (g_metrics h) query
                         (g_limit h))).
  { pose proof (heuristic_limit query) as Hl. fold h in Hl.
    assert (Hor : Py.or_ (VStr e) (VStr "contracts") = VStr e)
      by (destruct Hcase as [-> | [-> | ->]]; reflexivity).
    rewrite Hor. apply QueryParams_new_valid. unfold Spec.valid_args.
    assert (Hb : Spec.blank e = false)
      by (destruct Hcase as [-> | [-> | ->]]; reflexivity).
    rewrite Hb. destruct (g_limit h) as [n|]; [|reflexivity].
    apply Z.ltb_lt in Hl. rewrite Hl. reflexivity. }
  rewrite Hnew. cbn [bind].
  destruct (to_json_flat
              (mkQueryParams e (g_filters h) (g_metrics h) query (g_limit h)))
    as [text ->]; [apply heuristic_filters_flat | apply heuristic_metrics_flat|].
  reflexivity.
Qed.

Lemma read_payload_wrong_shape (payload : pyval) (r : GeminiResponse) :
  Spec.wrong_shape payload = true -> read_payload payload <> Ok (Some r).
Proof.
  intros Hw. destruct payload; try discriminate.
  unfold read_payload. cbn [Py.get bind].
  destruct (coerce_limit _); cbn [bind]; [|discriminate].
  unfold Spec.wrong_shape in Hw. cbv zeta in Hw. unfold Py.or_.
  destruct (Py.truthy (default VNone (Py.dict_get "filters" d)));
    destruct (Py.truthy (default VNone (Py.dict_get "metrics" d)));
    simpl in Hw |- *;
    repeat match goal with
    | |- context [is_dict ?x] => destruct (is_dict x)
    | |- context [Py.is_iterable ?x] => destruct (Py.is_iterable x)
    end; simpl in Hw |- *; congruence.
Qed.

(** An outcome of no use is not coerced into a response. *)
Lemma unusable_not_coerced (outcome : result pyval) (r : GeminiResponse) :
  Spec.unusable json_loads outcome ->
  (let! raw_response := outcome in _coerce_response json_loads raw_response)
  <> Ok (Some r).
Proof.
  destruct 1 as [e|s Hs|s payload Hs Hw|d Hw|raw Hraw]; cbn [bind].
  - discriminate.
  - unfold _coerce_response. rewrite Hs. discriminate.
  - unfold _coerce_response. rewrite Hs.
    apply read_payload_wrong_shape. exact Hw.
  - unfold _coerce_response. apply read_payload_wrong_shape. exact Hw.
  - destruct raw; try discriminate Hraw; discriminate.
Qed.

(** With no model of use, [parse] is [parse] without a model. *)
Lemma parse_without_usable_model (client : option llm_client)
    (query prompt : string) :
  _build_prompt float_repr query = Ok prompt ->
  Spec.no_usable_model json_loads client prompt ->
  parse float_repr float_of_string json_loads client query
  = parse float_repr float_of_string json_loads None query.
Proof.
  intros Hp Hu. destruct client as [generate|]; [|reflexivity].
  unfold parse. rewrite Hp. cbn [bind]. simpl in Hu.
  pose proof (fun r => unusable_not_coerced _ r Hu) as Hn.
  destruct (generate prompt) as [raw|e]; [|reflexivity].
  cbn [bind] in Hn |- *.
  destruct (_coerce_response json_loads raw) as [[r|]|e] eqn:Ec;
    try reflexivity.
  exfalso. exact (Hn r eq_refl).
Qed.

(** For every text, with no language-model client configured or with
    one whose call raises, whose output is text that is no JSON, or
    whose payload has the wrong shape, [parse] raises nothing and
    returns the heuristic reading, whose entity is not blank; for the
    text [Contratos de la entidad Ministerio de Salud 2022] that is the
    entity [agencies], the integer 2022 as [filters.year] and a
    non-empty [filters.buyer]. *)
Lemma parse_falls_back_without_usable_model :
  forall (client : option llm_client) (query prompt : string),
    _build_prompt float_repr query = Ok prompt ->
    Spec.no_usable_model json_loads client prompt ->
    exists p,
      parse float_repr float_of_string json_loads client query = Ok p
      /\ entity p <> ""
      /\ Spec.blank (entity p) = false
      /\ (query = "Contratos de la entidad Ministerio de Salud 2022" ->
          entity p = "agencies"
          /\ Py.dict_get "year" (filters p) = Some (VInt 2022)
          /\ exists buyer,
               Py.dict_get "buyer" (filters p) = Some (VStr buyer)
               /\ buyer <> "").
Proof.
  intros client query prompt Hp Hu.
  rewrite (parse_without_usable_model client query prompt Hp Hu).
  destruct (parse_heuristic query) as (e & He & Hcase & Hparse).
  eexists. split; [exact Hparse|]. cbn [entity filters].
  split; [destruct Hcase as [-> | [-> | ->]]; discriminate|].
  split; [destruct Hcase as [-> | [-> | ->]]; reflexivity|].
  intros ->. vm_compute in He. injection He as <-.
  split; [reflexivity|]. split; [vm_compute; reflexivity|].
  exists "Ministerio de Salud 2022". split; [vm_compute; reflexivity|].
  discriminate.
Qed.

(** A payload that gives only the entity is coerced into a response
    with that entity, no filters, no metrics and no limit. *)
Lemma read_payload_entity_only (entity_value : pyval) :
  read_payload (VDict [("entity", entity_value)])
  = Ok (Some (mkGeminiResponse entity_value [] [] None)).
Proof. reflexivity. Qed.

(** The same malformation in a string: a blank entity passes
    [_coerce_response] and is refused by the constructor. *)
Lemma parse_raises_on_blank_entity :
  forall (query text : string),
    json_loads text = Some (VDict [("entity", VStr " ")]) ->
    parse float_repr float_of_string json_loads
      (Some (fun _ => Ok (VStr text))) query
    = Raise (ValueError "entity must be a non-empty string").
Proof.
  intros query text Hload.
  destruct (_build_prompt_total query) as [prompt Hp].
  unfold parse. rewrite Hp. cbn [bind _coerce_response].
  rewrite Hload, read_payload_entity_only. reflexivity.
Qed.

(** C3, where the code departs from it.  When the model answers with
    JSON text whose payload is malformed in its entity, a number other
    than zero where a string belongs, [_coerce_response] accepts the
    payload and the constructor of [QueryParams], called outside the
    [try], finds no [strip] on the number: for every text [parse]
    raises [AttributeError], where the specification and the docstring
    of the class have it fall back to the heuristics and return
    parameters with a non-empty entity. *)
Theorem parse_raises_on_malformed_entity :
  forall (query text : string) (n : Z),
    n <> 0 ->
    json_loads text = Some (VDict [("entity", VInt n)]) ->
    parse float_repr float_of_string json_loads
      (Some (fun _ => Ok (VStr text))) query
    = Raise AttributeError.
Proof.
  intros query text n Hn Hload.
  destruct (_build_prompt_total query) as [prompt Hp].
  unfold parse. rewrite Hp. cbn [bind _coerce_response].
  rewrite Hload, read_payload_entity_only.
  cbn [bind g_entity g_filters g_metrics g_limit].
  unfold Py.or_, QueryParams_new. cbn [Py.truthy].
  apply Z.eqb_neq in Hn. rewrite Hn. cbn [negb Py.truthy].
  rewrite Hn. reflexivity.
Qed.

(** C4.  With no language-model client configured, [parse] on the text
    [Top 5 contratos del proveedor ACME Corp 2024] returns a
    [QueryParams] with the entity [suppliers], [filters.supplier] equal
    to [ACME Corp], [filters.year] equal to the integer 2024 and the
    limit 5; the supplier pattern had captured [ACME Corp 2024], from
    which the trailing year was stripped. *)
Theorem parse_supplier_example :
  let query := "Top 5 contratos del proveedor ACME Corp 2024" in
  exists p,
    parse float_repr float_of_string json_loads None query = Ok p
    /\ entity p = "suppliers"
    /\ Py.dict_get "supplier" (filters p) = Some (VStr "ACME Corp")
    /\ Py.dict_get "year" (filters p) = Some (VInt 2024)
    /\ limit p = Some 5
    /\ Re.group 1 <$> Re.search true supplier_re query
       = Some "ACME Corp 2024".
Proof.
  intros query. eexists. split; [vm_compute; reflexivity|].
  cbn [entity filters limit]. repeat split; vm_compute; reflexivity.
Qed.

End ParserFacts.

(** ** The cache key *)

Section CacheKeyFacts.
Variable float_repr : float -> string.

#[local] Existing Instance key_le_dec.

#[local] Instance key_le_trans : Transitive key_le.
Proof. intros a b c; unfold key_le; apply transitivity. Qed.

#[local] Instance key_le_total : Total key_le.
Proof. intros a b; unfold key_le; apply total; apply _. Qed.

Lemma dict_get_In (k : string) (v : pyval) (d : pydict) :
  Py.dict_get k d = Some v -> List.In (k, v) d.
Proof.
  induction d as [|[k0 v0] d IH]; simpl; [discriminate|].
  destruct (String.eqb_spec k k0) as [->|Hne].
  - intros [= ->]. left. reflexivity.
  - intros H. right. apply IH. exact H.
Qed.

(** In a list with each key once, a key has one entry. *)
Lemma unique_entry {V : Type} (l : list (string * V)) (a b : string * V) :
  List.NoDup (map fst l) -> List.In a l -> List.In b l -> fst a = fst b ->
  a = b.
Proof.
  induction l as [|c l IH]; simpl; [tauto|].
  intros Hnd Ha Hb Hk. apply List.NoDup_cons_iff in Hnd as [Hc Hnd].
  destruct Ha as [-> | Ha], Hb as [-> | Hb].
  - reflexivity.
  - exfalso. apply Hc. rewrite Hk. apply List.in_map. exact Hb.
  - exfalso. apply Hc. rewrite <- Hk. apply List.in_map. exact Ha.
  - apply IH; assumption.
Qed.

(** What the encoded entries of a mapping are. *)
Lemma encode_entries_ok (sort_keys : bool) (d : pydict)
    (items : list (string * string)) :
  encode_entries float_repr sort_keys d = Ok items ->
  map fst items = map fst d
  /\ (forall k s, List.In (k, s) items ->
        exists x, List.In (k, x) d
                  /\ json_dumps float_repr sort_keys x = Ok s)
  /\ (forall k x, List.In (k, x) d ->
        exists s, List.In (k, s) items
                  /\ json_dumps float_repr sort_keys x = Ok s).
Proof.
  revert items. induction d as [|[k0 x0] d IH]; intros items H.
  - injection H as <-. simpl. repeat split; intros ? ? [].
  - rewrite encode_entries_cons in H.
    destruct (json_dumps float_repr sort_keys x0) as [s0|] eqn:E0;
      [|discriminate].
    cbn [bind] in H.
    destruct (encode_entries float_repr sort_keys d) as [rest|];
      [|discriminate].
    injection H as <-. destruct (IH rest eq_refl) as (Hk & Hin & Hout).
    split; [simpl; f_equal; exact Hk|]. split.
    + intros k s [[= <- <-] | Hi].
      * exists x0. split; [left; reflexivity | exact E0].
      * destruct (Hin k s Hi) as (x & Hx & Hs). exists x. split; [right|]; assumption.
    + intros k x [[= <- <-] | Hi].
      * exists s0. split; [left; reflexivity | exact E0].
      * destruct (Hout k x Hi) as (s & Hs & Hx). exists s. split; [right|]; assumption.
Qed.

Lemma encode_entries_raise (sort_keys : bool) (d : pydict) (e : exn) :
  encode_entries float_repr sort_keys d = Raise e ->
  exists k x e', List.In (k, x) d
                 /\ json_dumps float_repr sort_keys x = Raise e'.
Proof.
  revert e. induction d as [|[k0 x0] d IH]; intros e H; [discriminate|].
  rewrite encode_entries_cons in H.
  destruct (json_dumps float_repr sort_keys x0) as [s0|e0] eqn:E0.
  - cbn [bind] in H.
    destruct (encode_entries float_repr sort_keys d) as [rest|e1];
      [discriminate|].
    destruct (IH e1 eq_refl) as (k & x & e' & Hi & Hx).
    exists k, x, e'. split; [right|]; assumption.
  - exists k0, x0, e0. split; [left; reflexivity | exact E0].
Qed.

Lemma covered_sym (d1 d2 : pydict) :
  List.NoDup (Py.keys d1) -> List.NoDup (Py.keys d2) ->
  length d1 = length d2 ->
  covered float_repr d1 d2 -> covered float_repr d2 d1.
Proof.
  intros N1 N2 Hlen Hc k y Hy.
  assert (Hincl : List.incl (Py.keys d1) (Py.keys d2)).
  { intros k1 Hk1. apply List.in_map_iff in Hk1 as ([k' x] & <- & Hx).
    destruct (Hc k' x Hx) as (y' & Hy' & _).
    apply (List.in_map fst) in Hy'. exact Hy'. }
  assert (Hback : List.incl (Py.keys d2) (Py.keys d1)).
  { apply List.NoDup_length_incl; [exact N1| |exact Hincl].
    unfold Py.keys. rewrite !List.length_map. lia. }
  assert (Hk : List.In k (Py.keys d1)).
  { apply Hback. apply (List.in_map fst) in Hy. exact Hy. }
  apply List.in_map_iff in Hk as ([k' x] & Hkk & Hx). simpl in Hkk. subst k'.
  destruct (Hc k x Hx) as (y' & Hy' & Heq).
  assert (E : (k, y') = (k, y)).
  { apply (unique_entry d2); [exact N2 | exact Hy' | exact Hy | reflexivity]. }
  injection E as ->. exists x. split; [exact Hx | symmetry; exact Heq].
Qed.

Lemma covered_encodes (d1 d2 : pydict) (items1 : list (string * string)) :
  covered float_repr d2 d1 ->
  encode_entries float_repr true d1 = Ok items1 ->
  exists items2, encode_entries float_repr true d2 = Ok items2.
Proof.
  intros Hc H1.
  destruct (encode_entries float_repr true d2) as [items2|e] eqn:E2;
    [eauto|].
  exfalso. apply encode_entries_raise in E2 as (k & y & e' & Hy & Hraise).
  destruct (Hc k y Hy) as (x & Hx & Heq).
  apply encode_entries_ok in H1 as (_ & _ & Hout).
  destruct (Hout k x Hx) as (s & _ & Hs). congruence.
Qed.

Lemma covered_items (d1 d2 : pydict) (items1 items2 : list (string * string)) :
  covered float_repr d1 d2 ->
  encode_entries float_repr true d1 = Ok items1 ->
  encode_entries float_repr true d2 = Ok items2 ->
  List.incl items1 items2.
Proof.
  intros Hc H1 H2 [k s] Hi.
  apply encode_entries_ok in H1 as (_ & Hin1 & _).
  apply encode_entries_ok in H2 as (_ & _ & Hout2).
  destruct (Hin1 k s Hi) as (x & Hx & Hs).
  destruct (Hc k x Hx) as (y & Hy & Heq).
  destruct (Hout2 k y Hy) as (s' & Hs' & Hy').
  assert (s' = s) as -> by congruence. exact Hs'.
Qed.

(** Sorting by key gives one list for all orders of the same items. *)
Lemma sorted_items_unique (items1 items2 : list (string * string)) :
  List.NoDup (map fst items1) -> Permutation items1 items2 ->
  merge_sort key_le items1 = merge_sort key_le items2.
Proof.
  intros Hnd Hperm.
  apply (StronglySorted_unique_strong key_le).
  - intros a b Ha Hb Hab Hba.
    apply (unique_entry items1); [exact Hnd| | |].
    + apply list_elem_of_In. rewrite <- (merge_sort_Permutation key_le). exact Ha.
    + apply list_elem_of_In. rewrite Hperm.
      rewrite <- (merge_sort_Permutation key_le). exact Hb.
    + unfold key_le in Hab, Hba. apply (anti_symm String.le); assumption.
  - apply StronglySorted_merge_sort; apply _.
  - apply StronglySorted_merge_sort; apply _.
  - rewrite !merge_sort_Permutation. exact Hperm.
Qed.

Lemma same_entries_encode (d1 d2 : pydict) :
  List.NoDup (Py.keys d1) -> List.NoDup (Py.keys d2) ->
  length d1 = length d2 ->
  covered float_repr d1 d2 ->
  json_dumps float_repr true (VDict d1) = json_dumps float_repr true (VDict d2).
Proof.
  intros N1 N2 Hlen Hc.
  pose proof (covered_sym d1 d2 N1 N2 Hlen Hc) as Hc'.
  rewrite !json_dumps_dict.
  destruct (encode_entries float_repr true d1) as [items1|e1] eqn:E1.
  - destruct (covered_encodes d1 d2 items1 Hc' E1) as [items2 E2].
    rewrite E2. cbn [bind]. unfold order_items. do 5 f_equal.
    pose proof (encode_entries_ok _ _ _ E1) as (K1 & _ & _).
    pose proof (encode_entries_ok _ _ _ E2) as (K2 & _ & _).
    assert (Nitems : List.NoDup (map fst items1)) by (rewrite K1; exact N1).
    apply sorted_items_unique; [exact Nitems|].
    apply NoDup_Permutation_bis.
    + eapply List.NoDup_map_inv. exact Nitems.
    + apply (f_equal (@length _)) in K1, K2. rewrite !List.length_map in K1, K2.
      lia.
    + apply (covered_items d1 d2); assumption.
  - destruct (encode_entries float_repr true d2) as [items2|e2] eqn:E2.
    + exfalso. destruct (covered_encodes d2 d1 items2 Hc E2) as [items1 E1'].
      congruence.
    + cbn [bind].
      assert (A1 : json_dumps float_repr true (VDict d1) = Raise e1)
        by (rewrite json_dumps_dict, E1; reflexivity).
      assert (A2 : json_dumps float_repr true (VDict d2) = Raise e2)
        by (rewrite json_dumps_dict, E2; reflexivity).
      apply json_dumps_raises in A1, A2. congruence.
Qed.

Lemma same_contents_list (l1 l2 : list pyval) :
  Spec.same_contents (VList l1) (VList l2)
  <-> List.Forall2 Spec.same_contents l1 l2.
Proof.
  revert l2. induction l1 as [|x l1 IH]; intros [|y l2]; simpl.
  - split; [constructor | trivial].
  - split; [tauto | inversion 1].
  - split; [tauto | inversion 1].
  - specialize (IH l2). simpl in IH. split.
    + intros [Hx Hl]. constructor; [exact Hx | apply IH; exact Hl].
    + inversion 1; subst. split; [assumption | apply IH; assumption].
Qed.

Lemma same_contents_tuple (l1 l2 : list pyval) :
  Spec.same_contents (VTuple l1) (VTuple l2)
  <-> List.Forall2 Spec.same_contents l1 l2.
Proof.
  rewrite <- same_contents_list. reflexivity.
Qed.

Lemma same_contents_dict (d1 d2 : pydict) :
  Spec.same_contents (VDict d1) (VDict d2)
  <-> List.NoDup (Py.keys d1) /\ List.NoDup (Py.keys d2)
      /\ length d1 = length d2
      /\ List.Forall
           (fun kv => exists y, Py.dict_get (fst kv) d2 = Some y
                                /\ Spec.same_contents (snd kv) y) d1.
Proof.
  simpl. 
  assert (A : forall d,
    (fix entries (d : pydict) : Prop :=
            match d with
            | [] => True
            | (k, x) :: d' =>
                match Py.dict_get k d2 with
                | Some y => Spec.same_contents x y
                | None => False
                end /\ entries d'
            end) d
    <-> List.Forall
           (fun kv => exists y, Py.dict_get (fst kv) d2 = Some y
                                /\ Spec.same_contents (snd kv) y) d).
  { induction d as [|[k x] d IH].
    - split; [constructor | trivial].
    - rewrite List.Forall_cons_iff, <- IH. simpl.
      destruct (Py.dict_get k d2) as [y|].
      + split.
        * intros [Hx Hd]. split; [exists y; split; [reflexivity | exact Hx] | exact Hd].
        * intros [(y' & [= <-] & Hx) Hd]. split; assumption.
      + split; [tauto|]. intros [(y' & Hy & _) _]. discriminate. }
  rewrite (A d1). reflexivity.
Qed.

Lemma same_items_encode (l1 l2 : list pyval) :
  List.Forall
    (fun x => forall y, Spec.same_contents x y ->
       json_dumps float_repr true x = json_dumps float_repr true y) l1 ->
  List.Forall2 Spec.same_contents l1 l2 ->
  encode_list float_repr true l1 = encode_list float_repr true l2.
Proof.
  intros IH H. induction H as [|x y l1 l2 Hxy _ IHl]; [reflexivity|].
  apply List.Forall_cons_iff in IH as [Hx IH].
  simpl. fold (encode_list float_repr true l1) (encode_list float_repr true l2).
  rewrite (Hx y Hxy), (IHl IH). reflexivity.
Qed.

(** Values with the same contents have the same sorted encoding. *)
Lemma same_contents_encodes (a : pyval) :
  forall b, Spec.same_contents a b ->
    json_dumps float_repr true a = json_dumps float_repr true b.
Proof.
  induction a as [|b0|n|x|s|l IH|l IH|l IH|d IH] using pyval_items_ind;
    intros b H;
    try (destruct b; simpl in H; inversion H; reflexivity).
  - destruct b; try (simpl in H; discriminate H).
    apply same_contents_list in H. rewrite !json_dumps_list.
    rewrite (same_items_encode _ _ IH H). reflexivity.
  - destruct b; try (simpl in H; discriminate H).
    apply same_contents_tuple in H.
    change (json_dumps float_repr true (VList l)
            = json_dumps float_repr true (VList l0)).
    rewrite !json_dumps_list.
    rewrite (same_items_encode _ _ IH H). reflexivity.
  - destruct b; try (simpl in H; discriminate H).
    apply same_contents_dict in H as (N1 & N2 & Hlen & Hall).
    apply same_entries_encode; try assumption.
    intros k x Hx.
    rewrite List.Forall_forall in Hall, IH.
    destruct (Hall (k, x) Hx) as (y & Hy & Hsame). simpl in Hy, Hsame.
    exists y. split; [apply dict_get_In; exact Hy|].
    apply (IH (k, x) Hx). exact Hsame.
Qed.

Lemma In_dict_get (k : string) (v : pyval) (d : pydict) :
  List.NoDup (Py.keys d) -> List.In (k, v) d -> Py.dict_get k d = Some v.
Proof.
  induction d as [|[k0 v0] d IH]; simpl; [tauto|].
  intros Hnd Hin. apply List.NoDup_cons_iff in Hnd as [Hk Hnd].
  destruct (String.eqb_spec k k0) as [->|Hne].
  - destruct Hin as [[= ->] | Hin]; [reflexivity|].
    exfalso. apply Hk. apply (List.in_map fst) in Hin. exact Hin.
  - destruct Hin as [[= -> _] | Hin]; [congruence|]. apply IH; assumption.
Qed.

(** Two mappings that hold each key once and answer every lookup alike
    have the same contents. *)
Lemma same_lookups_same_contents (d1 d2 : pydict) :
  List.NoDup (Py.keys d1) -> List.NoDup (Py.keys d2) ->
  List.Forall (fun kv => Spec.same_contents (snd kv) (snd kv)) d1 ->
  (forall k, Py.dict_get k d1 = Py.dict_get k d2) ->
  Spec.same_contents (VDict d1) (VDict d2).
Proof.
  intros N1 N2 Hrefl Hget. apply same_contents_dict.
  split; [exact N1|]. split; [exact N2|]. split.
  - assert (Hk : forall k, List.In k (Py.keys d1) <-> List.In k (Py.keys d2)).
    { intros k. unfold Py.keys. rewrite !List.in_map_iff. split.
      - intros ([k' v] & <- & Hin). exists (k', v). split; [reflexivity|].
        apply dict_get_In. rewrite <- Hget. apply In_dict_get; assumption.
      - intros ([k' v] & <- & Hin). exists (k', v). split; [reflexivity|].
        apply dict_get_In. rewrite Hget. apply In_dict_get; assumption. }
    pose proof (Stdlib.Sorting.Permutation.NoDup_Permutation N1 N2 Hk) as Hp.
    apply Permutation_length in Hp. unfold Py.keys in Hp.
    rewrite !List.length_map in Hp. exact Hp.
  - rewrite List.Forall_forall in Hrefl |- *. intros [k v] Hin. simpl.
    exists v. split; [|exact (Hrefl (k, v) Hin)].
    rewrite <- Hget. apply In_dict_get; assumption.
Qed.

(** C7.  For every dataset name and every two params mappings with the
    same contents (the same keys with the same values, in whatever
    order they were inserted, the mappings inside the values
    included), [_cache_key] gives the same key: either the same text,
    or the same refusal to serialise. *)
Theorem cache_key_insertion_order :
  forall (dataset : string) (params1 params2 : pydict),
    Spec.same_contents (VDict params1) (VDict params2) ->
    _cache_key float_repr dataset params1
    = _cache_key float_repr dataset params2.
Proof.
  intros dataset params1 params2 H. unfold _cache_key.
  rewrite (same_contents_encodes _ _ H). reflexivity.
Qed.

End CacheKeyFacts.

(* ================================================================== *)
(** * Further properties of the code *)
(* ================================================================== *)

(** ** The client: what a query does to the world *)

Section ClientTrace.
Variable float_repr : float -> string.
Variable json_loads : string -> option pyval.

Lemma backoffs_next (backoff : float) (first : Z) (count : nat)
    (earlier : list (float * Z)) :
  (Spec.backoffs backoff (first + 1) count
     ++ (backoff, first + 1) :: earlier)%list
  = (Spec.backoffs backoff first (S count) ++ earlier)%list.
Proof.
  induction count as [|c IH].
  - simpl. reflexivity.
  - change (Spec.backoffs backoff (first + 1) (S c))
      with ((backoff, first + 1 + Z.of_nat (S c))
              :: Spec.backoffs backoff (first + 1) c).
    change (Spec.backoffs backoff first (S (S c)))
      with ((backoff, first + Z.of_nat (S (S c)))
              :: Spec.backoffs backoff first (S c)).
    rewrite <- !List.app_comm_cons. rewrite IH.
    do 2 f_equal. lia.
Qed.

(** What the loop does to the world, whatever the remote answers: it
    leaves the store alone, asks the remote at least once and at most
    as often as attempts remain, and pauses once between two
    attempts. *)
Lemma retry_loop_world (self : SecopClient) (dataset : string)
    (params : pydict) (n : nat) :
  forall (attempt : Z) (w w' : World) (r : result pyval),
    n = Z.to_nat (_max_retries self + 1 - attempt) ->
    retry_loop self dataset params attempt w = (r, w') ->
    store w' = store w
    /\ exists pauses : nat,
         served w' = (served w + S pauses)%nat
         /\ (S pauses <= Nat.max 1 n)%nat
         /\ slept w'
            = (Spec.backoffs (_retry_backoff self) attempt pauses
                 ++ slept w)%list.
Proof.
  induction n as [|n IH]; intros attempt w w' r Hn H;
    rewrite retry_loop_step in H; cbv zeta in H;
    destruct (_client self (served w) dataset params) as [exc|rows].
  - destruct (Z.gtb_spec (attempt + 1) (_max_retries self)); [|lia].
    injection H as <- <-. simpl. split; [reflexivity|].
    exists 0%nat. simpl. repeat split; lia.
  - injection H as <- <-. simpl. split; [reflexivity|].
    exists 0%nat. simpl. repeat split; lia.
  - destruct (Z.gtb_spec (attempt + 1) (_max_retries self)).
    + injection H as <- <-. simpl. split; [reflexivity|].
      exists 0%nat. simpl. repeat split; lia.
    + apply IH in H; [|lia]. simpl in H.
      destruct H as (Hstore & pauses & Hserved & Hbound & Hslept).
      split; [exact Hstore|]. exists (S pauses).
      split; [lia|]. split; [lia|].
      rewrite Hslept. apply backoffs_next.
  - injection H as <- <-. simpl. split; [reflexivity|].
    exists 0%nat. simpl. repeat split; lia.
Qed.

(** X1.  Whatever the remote answers and whatever the cache holds,
    [query] pauses exactly once between two consecutive attempts, for
    the backoff times the number of the failed attempt (1, 2, ...),
    and neither after its last attempt nor when it made none. *)
Theorem query_pauses_between_attempts :
  forall (self : SecopClient) (dataset : string) (params : option pydict)
         (w : World),
    let w' := snd (query float_repr json_loads self dataset params w) in
    slept w'
    = (Spec.backoffs (_retry_backoff self) 0 (served w' - served w - 1)
         ++ slept w)%list.
Proof.
  intros self dataset params w. unfold query.
  destruct (_cache_key float_repr dataset (default [] params)) as [key|e];
    [|simpl; rewrite Nat.sub_diag; reflexivity].
  destruct (redis_get self key w) as [cached|].
  { destruct (json_loads cached); simpl; rewrite Nat.sub_diag; reflexivity. }
  destruct (retry_loop self dataset (default [] params) 0 w) as [r w1] eqn:El.
  apply (retry_loop_world _ _ _ _ _ _ _ _ eq_refl) in El
    as (_ & pauses & Hserved & _ & Hslept).
  assert (Hp : (served w1 - served w - 1)%nat = pauses) by lia.
  destruct r as [rows|e]; [|simpl; rewrite Hp; exact Hslept].
  destruct (_redis self); [|simpl; rewrite Hp; exact Hslept].
  destruct (json_dumps float_repr false rows); simpl; rewrite Hp; exact Hslept.
Qed.

(** X2.  Whatever the remote answers, [query] asks it at most
    [max_retries + 1] times (once, when the maximum is negative), and
    not at all when the query is answered from the cache. *)
Theorem query_attempts_bounded :
  forall (self : SecopClient) (dataset : string) (params : option pydict)
         (w : World),
    let w' := snd (query float_repr json_loads self dataset params w) in
    (served w <= served w')%nat
    /\ (served w' <= served w + Z.to_nat (Z.max 0 (_max_retries self)) + 1)%nat
    /\ (forall key cached,
          _cache_key float_repr dataset (default [] params) = Ok key ->
          redis_get self key w = Some cached ->
          served w' = served w).
Proof.
  intros self dataset params w w'.
  assert (Hhit : forall key cached,
            _cache_key float_repr dataset (default [] params) = Ok key ->
            redis_get self key w = Some cached ->
            served w' = served w).
  { intros key cached Hkey Hget. subst w'. unfold query.
    rewrite Hkey, Hget. destruct (json_loads cached); reflexivity. }
  split; [|split; [|exact Hhit]]; subst w'; clear Hhit; unfold query;
    (destruct (_cache_key float_repr dataset (default [] params)) as [key|e];
     [|simpl; lia]);
    (destruct (redis_get self key w) as [cached|];
     [destruct (json_loads cached); simpl; lia|]);
    destruct (retry_loop self dataset (default [] params) 0 w)
      as [r w1] eqn:El;
    apply (retry_loop_world _ _ _ _ _ _ _ _ eq_refl) in El
      as (_ & pauses & Hserved & Hbound & _);
    (destruct r as [rows|e]; [|simpl; lia]);
    (destruct (_redis self); [|simpl; lia]);
    destruct (json_dumps float_repr false rows); simpl; lia.
Qed.

(** X3.  A query that raises leaves the cache store as it was, and so
    does every query of a client without a cache store: failures are
    not cached. *)
Theorem query_failure_not_cached :
  forall (self : SecopClient) (dataset : string) (params : option pydict)
         (w : World),
    let outcome := query float_repr json_loads self dataset params w in
    (forall e, fst outcome = Raise e -> store (snd outcome) = store w)
    /\ (_redis self = false -> store (snd outcome) = store w).
Proof.
  intros self dataset params w. unfold query.
  destruct (_cache_key float_repr dataset (default [] params)) as [key|e];
    [|simpl; split; reflexivity].
  destruct (redis_get self key w) as [cached|].
  { destruct (json_loads cached); simpl; split; reflexivity. }
  destruct (retry_loop self dataset (default [] params) 0 w) as [r w1] eqn:El.
  apply (retry_loop_world _ _ _ _ _ _ _ _ eq_refl) in El as (Hstore & _).
  destruct r as [rows|e]; [|simpl; split; intros; exact Hstore].
  destruct (_redis self) eqn:Er; [|simpl; split; intros; exact Hstore].
  destruct (json_dumps float_repr false rows); simpl; split;
    try discriminate; intros; exact Hstore.
Qed.

(** X4.  The cache closes the loop.  When a query that missed the
    cache gets its rows from the remote, the store holds their
    serialisation under the cache key for 300 seconds, and the same
    query asked again returns, from a decoder that inverts the encoder
    on that text, the same rows without one more call to the remote. *)
Theorem query_then_cached :
  forall (self : SecopClient) (dataset : string) (params : option pydict)
         (w : World) (key encoded : string) (k : nat) (rows : pyval),
    _redis self = true ->
    _cache_key float_repr dataset (default [] params) = Ok key ->
    store w !! key = None ->
    (forall i, (i < k)%nat ->
       Spec.fails self dataset (default [] params) (served w + i)%nat) ->
    _client self (served w + k)%nat dataset (default [] params) = inr rows ->
    Z.of_nat k <= _max_retries self ->
    json_dumps float_repr false rows = Ok encoded ->
    json_loads encoded = Some rows ->
    let first := query float_repr json_loads self dataset params w in
    fst first = Ok rows
    /\ store (snd first) = <[key := (encoded, 300)]> (store w)
    /\ query float_repr json_loads self dataset params (snd first)
       = (Ok rows, snd first).
Proof.
  intros self dataset params w key encoded k rows Hredis Hkey Hmiss Hf Hk
    Hle Henc Hdec first.
  assert (Hfirst : exists w1,
            first = (Ok rows, redis_setex key 300 encoded w1)
            /\ store w1 = store w).
  { subst first. unfold query. rewrite Hkey. unfold redis_get.
    rewrite Hredis, Hmiss. simpl.
    destruct (retry_loop_first_success self dataset (default [] params)
                rows k 0 w Hf Hk) as (w1 & Hloop & _ & Hstore); [lia|].
    rewrite Hloop, Henc. eauto. }
  destruct Hfirst as (w1 & -> & Hstore). simpl.
  split; [reflexivity|]. split; [rewrite Hstore; reflexivity|].
  unfold query. rewrite Hkey. unfold redis_get. rewrite Hredis. simpl.
  rewrite lookup_insert_eq. simpl. rewrite Hdec. reflexivity.
Qed.

End ClientTrace.

(** ** The entity resolver with its collaborators *)

Section ResolverFacts.

Lemma _search_chroma_not_empty (self : EntityResolver) (mention : string)
    (top_k : Z) :
  _search_chroma self mention top_k <> [].
Proof.
  unfold _search_chroma.
  destruct (_chroma_client self) as [client|]; [|discriminate].
  destruct (client (_collection_name self) mention top_k) as [results|e];
    [|discriminate].
  destruct (map _ _) eqn:E; discriminate.
Qed.

Lemma _rerank_with_cohere_not_empty (client : cohere_client)
    (mention : string) (candidates : list ResolvedEntity) :
  candidates <> [] -> _rerank_with_cohere client mention candidates <> [].
Proof.
  intros Hne. unfold _rerank_with_cohere.
  destruct (client mention _) as [results|e]; [|exact Hne].
  destruct (omap _ results); [exact Hne | discriminate].
Qed.

(** The candidates after the optional reranking. *)
Lemma resolve_head (self : EntityResolver) (mention : string) (top_k : Z) :
  resolve self mention top_k
  = head (match _cohere_client self with
          | Some client =>
              if (1 <? length (_search_chroma self mention top_k))%nat
              then _rerank_with_cohere client mention
                     (_search_chroma self mention top_k)
              else _search_chroma self mention top_k
          | None => _search_chroma self mention top_k
          end).
Proof.
  unfold resolve.
  pose proof (_search_chroma_not_empty self mention top_k) as Hne.
  destruct (_search_chroma self mention top_k); [congruence | reflexivity].
Qed.

(** X5.  [resolve] never returns [None], whatever the similarity
    search and the reranker answer or raise: there is always a
    candidate, if only the mention itself. *)
Theorem resolve_always_some :
  forall (self : EntityResolver) (mention : string) (top_k : Z),
    exists r, resolve self mention top_k = Some r.
Proof.
  intros self mention top_k. rewrite resolve_head.
  pose proof (_search_chroma_not_empty self mention top_k) as Hne.
  set (candidates := _search_chroma self mention top_k) in *.
  assert (H : forall l : list ResolvedEntity, l <> [] -> exists r, head l = Some r).
  { intros [|r l] Hl; [congruence | exists r; reflexivity]. }
  apply H. destruct (_cohere_client self) as [client|]; [|exact Hne].
  destruct (1 <? length candidates)%nat; [|exact Hne].
  apply _rerank_with_cohere_not_empty. exact Hne.
Qed.

(** X6.  A similarity search that raises is treated like none at all:
    the mention comes back with the score 1.0 and no metadata, and the
    reranker is not asked. *)
Theorem resolve_chroma_failure :
  forall (client : chroma_client) (collection : string)
         (cohere : option cohere_client) (mention : string) (top_k : Z)
         (e : exn),
    client collection mention top_k = Raise e ->
    resolve (mkEntityResolver (Some client) collection cohere) mention top_k
    = Some (mkResolvedEntity mention 1%float []).
Proof.
  intros client collection cohere mention top_k e Hraise.
  unfold resolve, _search_chroma. simpl. rewrite Hraise. simpl.
  destruct cohere; reflexivity.
Qed.

(** X7.  A similarity search that answers without a hit (no document,
    or no metadata or distance to go with it) gives the mention with
    the score 0.0, which tells it from the search that was not there
    or failed. *)
Theorem resolve_no_hit :
  forall (client : chroma_client) (collection : string)
         (cohere : option cohere_client) (mention : string) (top_k : Z)
         (results : chroma_results),
    client collection mention top_k = Ok results ->
    first_or_empty (documents results) = []
    \/ first_or_empty (metadatas results) = []
    \/ first_or_empty (distances results) = [] ->
    resolve (mkEntityResolver (Some client) collection cohere) mention top_k
    = Some (mkResolvedEntity mention 0%float []).
Proof.
  intros client collection cohere mention top_k results Hok Hempty.
  assert (Hzip : zip3 (first_or_empty (documents results))
                   (first_or_empty (metadatas results))
                   (first_or_empty (distances results)) = []).
  { destruct Hempty as [-> | [-> | ->]].
    - reflexivity.
    - destruct (first_or_empty (documents results)); reflexivity.
    - destruct (first_or_empty (documents results)); [reflexivity|].
      destruct (first_or_empty (metadatas results)); reflexivity. }
  unfold resolve, _search_chroma. simpl. rewrite Hok, Hzip. simpl.
  destruct cohere; reflexivity.
Qed.

(** X8.  Without a reranker, or with one that raises, the first hit of
    the similarity search wins: its document is the name, one minus
    its distance the score, its metadata (none counting as empty) the
    metadata. *)
Theorem resolve_first_hit :
  forall (client : chroma_client) (collection : string)
         (cohere : option cohere_client) (mention : string) (top_k : Z)
         (results : chroma_results)
         (doc : string) (docs : list string)
         (meta : option pydict) (metas : list (option pydict))
         (distance : float) (dists : list float),
    client collection mention top_k = Ok results ->
    first_or_empty (documents results) = doc :: docs ->
    first_or_empty (metadatas results) = meta :: metas ->
    first_or_empty (distances results) = distance :: dists ->
    match cohere with
    | None => True
    | Some rerank => forall documents, exists e, rerank mention documents = Raise e
    end ->
    resolve (mkEntityResolver (Some client) collection cohere) mention top_k
    = Some (mkResolvedEntity doc (PrimFloat.sub 1%float distance)
              (default [] meta)).
Proof.
  intros client collection cohere mention top_k results doc docs meta metas
    distance dists Hok Hd Hm Hx Hcohere.
  rewrite resolve_head. unfold _search_chroma. simpl.
  rewrite Hok, Hd, Hm, Hx. simpl.
  destruct cohere as [rerank|]; [|reflexivity].
  match goal with
  | |- context [if ?c then _ else _] => destruct c; [|reflexivity]
  end.
  unfold _rerank_with_cohere.
  match goal with
  | |- context [rerank mention ?documents] =>
      destruct (Hcohere documents) as [e ->]
  end.
  reflexivity.
Qed.

Lemma omap_In {A B : Type} (f : A -> option B) (l : list A) (y : B) :
  List.In y (omap f l) -> exists x, List.In x l /\ f x = Some y.
Proof.
  induction l as [|x l IH]; simpl; [tauto|].
  destruct (f x) as [z|] eqn:E.
  - intros [<- | H]; [exists x; split; [left; reflexivity | exact E]|].
    destruct (IH H) as (x' & Hx & Hf). exists x'. split; [right|]; assumption.
  - intros H. destruct (IH H) as (x' & Hx & Hf).
    exists x'. split; [right|]; assumption.
Qed.

Lemma candidate_at_In (candidates : list ResolvedEntity) (i : Z)
    (c : ResolvedEntity) :
  candidate_at candidates i = Some c -> List.In c candidates.
Proof.
  unfold candidate_at. destruct (i <? 0); [discriminate|].
  apply List.nth_error_In.
Qed.

Lemma head_In {A : Type} (l : list A) (x : A) :
  head l = Some x -> List.In x l.
Proof. destruct l; [discriminate|]. intros [= ->]. left. reflexivity. Qed.

(** X9.  The reranker reorders and rescores, it does not invent: the
    name and the metadata of the entity [resolve] returns are those of
    one of the candidates the search stage produced. *)
Theorem resolve_from_candidates :
  forall (self : EntityResolver) (mention : string) (top_k : Z)
         (r : ResolvedEntity),
    resolve self mention top_k = Some r ->
    exists c,
      List.In c (_search_chroma self mention top_k)
      /\ name r = name c /\ metadata r = metadata c.
Proof.
  intros self mention top_k r. rewrite resolve_head.
  set (candidates := _search_chroma self mention top_k).
  assert (Hplain : head candidates = Some r ->
            exists c, List.In c candidates
                      /\ name r = name c /\ metadata r = metadata c).
  { intros H. exists r. split; [apply head_In; exact H | split; reflexivity]. }
  destruct (_cohere_client self) as [client|]; [|exact Hplain].
  destruct (1 <? length candidates)%nat; [|exact Hplain].
  unfold _rerank_with_cohere.
  destruct (client mention _) as [results|e]; [|exact Hplain].
  destruct (omap _ results) as [|r0 reranked] eqn:E; [exact Hplain|].
  intros [= ->].
  assert (Hin : List.In r (omap
            (fun item =>
               match candidate_at candidates (index item) with
               | Some candidate =>
                   Some (mkResolvedEntity (name candidate)
                           (relevance_score item) (metadata candidate))
               | None => None
               end) results)).
  { rewrite E. left. reflexivity. }
  apply omap_In in Hin as (item & _ & Hitem).
  destruct (candidate_at candidates (index item)) as [c|] eqn:Ec;
    [|discriminate].
  injection Hitem as <-. exists c.
  split; [apply candidate_at_In in Ec; exact Ec | split; reflexivity].
Qed.

(** X10.  With several candidates and a reranker that answers, the
    first item of the answer decides when it points at a candidate:
    [resolve] returns that candidate under the item's relevance
    score, whatever score the search gave it. *)
Theorem resolve_reranked_top :
  forall (self : EntityResolver) (rerank : cohere_client)
         (mention : string) (top_k : Z)
         (item : rerank_item) (items : list rerank_item)
         (c : ResolvedEntity),
    let candidates := _search_chroma self mention top_k in
    _cohere_client self = Some rerank ->
    (1 < length candidates)%nat ->
    rerank mention (map (fun c => (name c, metadata c)) candidates)
    = Ok (item :: items) ->
    candidate_at candidates (index item) = Some c ->
    resolve self mention top_k
    = Some (mkResolvedEntity (name c) (relevance_score item) (metadata c)).
Proof.
  intros self rerank mention top_k item items c candidates Hco Hlen Hok Hc.
  rewrite resolve_head. fold candidates. rewrite Hco.
  apply Nat.ltb_lt in Hlen. rewrite Hlen.
  unfold _rerank_with_cohere. rewrite Hok. simpl. rewrite Hc. reflexivity.
Qed.

End ResolverFacts.

(** ** The query builder: the payload as a whole *)

Section BuilderPayload.
Import PyStr.
Variable float_repr : float -> string.

Lemma strings_of_texts (items : list pyval) :
  List.Forall (fun m => exists s, m = VStr s) items ->
  exists names, strings_of items = Ok names.
Proof.
  induction 1 as [|m items [s ->] _ [names IH]]; [eexists; reflexivity|].
  simpl. rewrite IH. eexists. reflexivity.
Qed.



(** X12.  The params of a payload hold a key for what is there and
    none for what is absent, in the order [$where], [$select],
    [$limit]: the where clause for a filter set that is not empty, the
    metrics joined with a comma and a space when there are any, the
    limit unchanged when there is one. *)
Theorem build_params_layout :
  forall (self : SoQLBuilder) (p : QueryParams)
         (resolved : option ResolvedEntity) (payload : soql_payload),
    build float_repr self p resolved = Ok payload ->
    exists names,
      strings_of (metrics p) = Ok names
      /\ params payload
         = (match filters p with
            | [] => []
            | fs => [("$where",
                      VStr (join " AND "
                              (map (fun kv =>
                                      Spec.clause float_repr (fst kv) (snd kv))
                                 fs)))]
            end
            ++ match metrics p with
               | [] => []
               | _ => [("$select", VStr (join ", " names))]
               end
            ++ match limit p with
               | Some n => [("$limit", VInt n)]
               | None => []
               end)%list.
Proof.
  intros self p resolved payload. unfold build.
  rewrite _build_where_clauses. cbn [bind].
  set (w := join " AND " _).
  assert (Hw : (if Py.truthy (VStr w) then Py.dict_set "$where" (VStr w) []
                else [])
               = match filters p with [] => [] | _ => [("$where", VStr w)] end).
  { destruct (filters p) as [|kv rest] eqn:Ef; [reflexivity|].
    assert (Hne : w <> "").
    { intros H. apply where_clause_empty in H. discriminate H. }
    cbn [Py.truthy]. apply String.eqb_neq in Hne. rewrite Hne. reflexivity. }
  rewrite Hw. clear Hw.
  destruct (metrics p) as [|m ms] eqn:Em; cbn [bind].
  - intros [= <-]. exists []. split; [reflexivity|]. cbn [params].
    destruct (filters p), (limit p); reflexivity.
  - destruct (strings_of (m :: ms)) as [names|e]; cbn [bind]; [|discriminate].
    intros [= <-]. exists names. split; [reflexivity|]. cbn [params].
    destruct (filters p), (limit p); reflexivity.
Qed.

Lemma replace_quote_inj (s1 s2 : string) :
  replace squote "''" s1 = replace squote "''" s2 -> s1 = s2.
Proof.
  revert s2. induction s1 as [|c1 s1 IH]; intros [|c2 s2]; simpl.
  - reflexivity.
  - destruct (Ascii.eqb c2 squote); discriminate.
  - destruct (Ascii.eqb c1 squote); discriminate.
  - destruct (Ascii.eqb_spec c1 squote) as [-> | H1],
             (Ascii.eqb_spec c2 squote) as [-> | H2]; simpl.
    + intros [= H]. f_equal. apply IH. exact H.
    + intros [= H _]. exfalso. apply H2. symmetry. exact H.
    + intros [= H _]. exfalso. apply H1. exact H.
    + intros [= -> H]. f_equal. apply IH. exact H.
Qed.

Lemma string_app_length (a b : string) :
  String.length (a ++ b) = (String.length a + String.length b)%nat.
Proof. induction a as [|c a IH]; simpl; [reflexivity | rewrite IH; reflexivity]. Qed.

Lemma string_app_inv_tail (a b c : string) : a ++ c = b ++ c -> a = b.
Proof.
  revert b. induction a as [|x a IH]; intros [|y b] H; simpl in H.
  - reflexivity.
  - apply (f_equal String.length) in H. simpl in H.
    rewrite !string_app_length in H. simpl in H. lia.
  - apply (f_equal String.length) in H. simpl in H.
    rewrite !string_app_length in H. simpl in H. lia.
  - injection H as -> H. f_equal. apply IH. exact H.
Qed.

(** X13.  Doubling the single quotes loses nothing: for one key, two
    different strings give two different [LIKE] clauses, so no value
    can pose as another by way of its quotes. *)
Theorem like_clause_injective :
  forall (key s1 s2 : string),
    _render_filter float_repr key (VStr s1)
    = _render_filter float_repr key (VStr s2) ->
    s1 = s2.
Proof.
  intros key s1 s2 H. unfold _render_filter in H. simpl in H.
  injection H as H. change ("" ++ ?x) with x in H.
  apply String.app_inj in H.
  apply (String.app_inj ") LIKE upper('%") in H.
  apply replace_quote_inj. apply (string_app_inv_tail _ _ _ H).
Qed.

(** X14.  A resolver without an index changes nothing in the payload:
    with its answer, the mention itself, [build] gives what it gives
    with no resolved entity at all. *)
Theorem build_with_passthrough_entity :
  forall (self : SoQLBuilder) (p : QueryParams) (collection : string)
         (cohere : option cohere_client) (top_k : Z),
    build float_repr self p
      (resolve (mkEntityResolver None collection cohere) (entity p) top_k)
    = build float_repr self p None.
Proof.
  intros self p collection cohere top_k.
  assert (H : resolve (mkEntityResolver None collection cohere) (entity p) top_k
              = Some (mkResolvedEntity (entity p) 1%float [])).
  { unfold resolve, _search_chroma; simpl. destruct cohere; reflexivity. }
  rewrite H. reflexivity.
Qed.

End BuilderPayload.

(** ** The query parser: what it returns and what it raises *)

Section ParserResults.
Import PyStr.
Variable float_repr : float -> string.
Variable float_of_string : string -> option float.
Variable json_loads : string -> option pyval.

Lemma QueryParams_new_inv (entity_value : pyval) (filters : pydict)
    (metrics : list pyval) (raw_query : string) (limit : option Z)
    (p : QueryParams) :
  QueryParams_new entity_value filters metrics raw_query limit = Ok p ->
  exists s,
    entity_value = VStr s
    /\ Spec.valid_args s limit = true
    /\ p = mkQueryParams s filters metrics raw_query limit.
Proof.
  unfold QueryParams_new, Spec.valid_args.
  destruct (Py.truthy entity_value) eqn:Et; [|discriminate].
  destruct entity_value; try discriminate. cbn [negb Py.truthy bind].
  rewrite PyStrFacts.strip_blank.
  destruct (Spec.blank s) eqn:Eb; [discriminate|]. cbn [negb bind andb].
  destruct limit as [n|].
  - destruct (Z.leb_spec n 0); [discriminate|].
    intros [= <-]. exists s. rewrite Eb.
    split; [reflexivity|]. split; [|reflexivity]. apply Z.ltb_lt. lia.
  - intros [= <-]. exists s. rewrite Eb. repeat split.
Qed.

Lemma parse_constructs (client : option llm_client) (query : string)
    (p : QueryParams) :
  parse float_repr float_of_string json_loads client query = Ok p ->
  exists entity_value filters metrics limit,
    QueryParams_new entity_value filters metrics query limit = Ok p.
Proof.
  unfold parse.
  match goal with
  | |- (let! response := ?r in _) = _ -> _ => destruct r as [response|e]
  end; [|discriminate].
  cbn [bind].
  match goal with
  | |- (let! params := ?c in _) = _ -> _ => destruct c as [params|e] eqn:Ec
  end; [|discriminate].
  cbn [bind]. destruct (to_json float_repr params); [|discriminate].
  intros [= <-]. eauto.
Qed.

(** X15.  Whatever the model answers, parameters that [parse] returns
    satisfy the invariant of [QueryParams] and keep the text: the
    entity is not blank, the limit is absent or positive, and
    [raw_query] is the query. *)
Theorem parse_result_valid :
  forall (client : option llm_client) (query : string) (p : QueryParams),
    parse float_repr float_of_string json_loads client query = Ok p ->
    Spec.valid_args (entity p) (limit p) = true
    /\ raw_query p = query.
Proof.
  intros client query p H.
  apply parse_constructs in H as (ev & fs & ms & lim & H).
  apply QueryParams_new_inv in H as (s & _ & Hvalid & ->).
  split; [exact Hvalid | reflexivity].
Qed.





(** X17.  A model answer of the right shape is taken as it is.  When
    the model returns JSON text that decodes to a mapping with a
    string that is not blank as entity, a mapping of JSON data as
    filters, a list of JSON data as metrics and a positive integer as
    limit, [parse] returns exactly these, with the query as
    [raw_query], and does not consult the heuristics. *)
Theorem parse_uses_model_answer :
  forall (generate : llm_client) (query prompt text : string)
         (payload : pydict) (e : string) (fs : pydict) (ms : list pyval)
         (n : Z),
    _build_prompt float_repr query = Ok prompt ->
    generate prompt = Ok (VStr text) ->
    json_loads text = Some (VDict payload) ->
    Py.dict_get "entity" payload = Some (VStr e) ->
    Py.dict_get "filters" payload = Some (VDict fs) ->
    Py.dict_get "metrics" payload = Some (VList ms) ->
    Py.dict_get "limit" payload = Some (VInt n) ->
    Spec.blank e = false ->
    0 < n ->
    Spec.json_data (VDict fs) = true ->
    Spec.json_data (VList ms) = true ->
    parse float_repr float_of_string json_loads (Some generate) query
    = Ok (mkQueryParams e fs ms query (Some n)).
Proof.
  intros generate query prompt text payload e fs ms n Hp Hg Hload He Hf Hm Hl
    Hblank Hn Hfs Hms.
  assert (Hcoerce : _coerce_response json_loads (VStr text)
                    = Ok (Some (mkGeminiResponse (VStr e) fs ms (Some n)))).
  { unfold _coerce_response. rewrite Hload. unfold read_payload.
    cbn [Py.get bind]. rewrite He, Hf, Hm, Hl. simpl.
    apply Z.ltb_lt in Hn. rewrite Hn. unfold Py.or_.
    destruct fs, ms; reflexivity. }
  unfold parse. rewrite Hp. cbn [bind]. rewrite Hg. cbn [bind].
  rewrite Hcoerce. cbn [bind g_entity g_filters g_metrics g_limit].
  assert (Hor : Py.or_ (VStr e) (VStr "contracts") = VStr e).
  { unfold Py.or_. cbn [Py.truthy]. destruct e; [discriminate | reflexivity]. }
  rewrite Hor.
  rewrite QueryParams_new_valid;
    [|unfold Spec.valid_args; rewrite Hblank; apply Z.ltb_lt in Hn;
      rewrite Hn; reflexivity].
  cbn [bind].
  destruct (json_data_dumps float_repr false
              (VDict (as_dict (mkQueryParams e fs ms query (Some n)))))
    as [encoded Henc].
  { simpl in Hfs, Hms |- *. rewrite Hfs, Hms. reflexivity. }
  unfold to_json. rewrite Henc. reflexivity.
Qed.

End ParserResults.

(** ** The heuristics: what the filters can hold *)

Module StripFacts.
Import PyStr.

Lemma app_assoc (a b c : string) : (a ++ b) ++ c = a ++ (b ++ c).
Proof.
  induction a as [|x a IH]; [reflexivity|].
  change (String x ((a ++ b) ++ c) = String x (a ++ (b ++ c))).
  f_equal. exact IH.
Qed.

Lemma app_empty_r (a : string) : a ++ "" = a.
Proof.
  induction a as [|x a IH]; [reflexivity|].
  change (String x (a ++ "") = String x a). f_equal. exact IH.
Qed.

Lemma rev_app_acc (s acc : string) :
  String.rev_app s acc = String.rev s ++ acc.
Proof.
  unfold String.rev. revert acc. induction s as [|c s IH]; intros acc; simpl.
  - reflexivity.
  - rewrite (IH (String c acc)), (IH (String c "")), app_assoc. reflexivity.
Qed.

Lemma rev_app_append (a b acc : string) :
  String.rev_app (a ++ b) acc = String.rev_app b (String.rev_app a acc).
Proof.
  revert acc. induction a as [|c a IH]; intros acc; simpl;
    [reflexivity | apply IH].
Qed.

Lemma rev_app_rev_app (s a b : string) :
  String.rev_app (String.rev_app s a) b = String.rev_app a (s ++ b).
Proof.
  revert a b. induction s as [|c s IH]; intros a b; simpl;
    [reflexivity | rewrite IH; reflexivity].
Qed.

Lemma rev_involutive (s : string) : String.rev (String.rev s) = s.
Proof.
  unfold String.rev. rewrite rev_app_rev_app. simpl. apply app_empty_r.
Qed.

Lemma drop_while_head (p : ascii -> bool) (s : string) (c : ascii)
    (r : string) :
  drop_while p s = String c r -> p c = false.
Proof.
  induction s as [|x s IH]; simpl; [discriminate|].
  destruct (p x) eqn:E; [exact IH|]. intros [= <- _]. exact E.
Qed.

Lemma drop_while_suffix (p : ascii -> bool) (s : string) :
  exists pre, s = pre ++ drop_while p s.
Proof.
  induction s as [|x s [pre IH]]; simpl; [exists ""; reflexivity|].
  destruct (p x).
  - exists (String x pre).
    change (String x s = String x (pre ++ drop_while p s)).
    f_equal. exact IH.
  - exists "". reflexivity.
Qed.

(** What [strip] leaves neither starts nor ends with a character it
    strips. *)
Lemma strip_with_ends (p : ascii -> bool) (s : string) (c : ascii)
    (r : string) :
  (strip_with p s = String c r -> p c = false)
  /\ (String.rev (strip_with p s) = String c r -> p c = false).
Proof.
  unfold strip_with.
  set (D := drop_while p s). set (X := drop_while p (String.rev D)).
  split.
  - intros H. destruct (drop_while_suffix p (String.rev D)) as [pre Hpre].
    fold X in Hpre.
    assert (HD : D = String.rev X ++ String.rev pre).
    { rewrite <- (rev_involutive D), Hpre. unfold String.rev at 1.
      rewrite rev_app_append, rev_app_acc. reflexivity. }
    rewrite H in HD. simpl in HD. apply (drop_while_head p s c _ HD).
  - rewrite rev_involutive. apply drop_while_head.
Qed.

End StripFacts.

Section HeuristicFacts.
Import PyStr.
Variable float_of_string : string -> option float.

Lemma dict_get_set_same (k : string) (v : pyval) (d : pydict) :
  Py.dict_get k (Py.dict_set k v d) = Some v.
Proof.
  induction d as [|[k0 v0] d IH]; simpl.
  - rewrite String.eqb_refl. reflexivity.
  - destruct (String.eqb_spec k k0) as [->|Hne]; simpl.
    + rewrite String.eqb_refl. reflexivity.
    + apply String.eqb_neq in Hne. rewrite Hne. exact IH.
Qed.

Lemma dict_set_keys (k : string) (v : pyval) (d : pydict) (allowed : list string) :
  List.In k allowed ->
  List.NoDup (Py.keys d) /\ List.incl (Py.keys d) allowed ->
  List.NoDup (Py.keys (Py.dict_set k v d))
  /\ List.incl (Py.keys (Py.dict_set k v d)) allowed.
Proof.
  intros Hk. induction d as [|[k0 v0] d IH]; simpl; intros [Hnd Hin].
  - split; [repeat constructor; simpl; tauto|].
    intros x [<- | []]. exact Hk.
  - destruct (String.eqb_spec k k0) as [->|Hne]; simpl.
    + split; assumption.
    + apply List.NoDup_cons_iff in Hnd as [Hk0 Hnd].
      destruct IH as [IH1 IH2].
      { split; [exact Hnd|]. intros x Hx. apply Hin. right. exact Hx. }
      split.
      * constructor; [|exact IH1]. intros Hc.
        assert (A : forall d', List.In k0 (Py.keys (Py.dict_set k v d')) ->
                      k0 = k \/ List.In k0 (Py.keys d')).
        { clear. induction d' as [|[k1 v1] d' IH']; simpl.
          - intros [<- | []]. left. reflexivity.
          - destruct (String.eqb_spec k k1) as [->|Hne]; simpl.
            + intros [<- | H]; [left; reflexivity | right; right; exact H].
            + intros [<- | H]; [right; left; reflexivity|].
              destruct (IH' H) as [-> | H']; [left; reflexivity | right; right; exact H']. }
        destruct (A d Hc) as [-> | H]; [congruence | contradiction].
      * intros x [<- | Hx]; [apply Hin; left; reflexivity | apply IH2; exact Hx].
Qed.

(** X18.  The filters of the heuristics are a mapping over four keys:
    every key is one of [year], [buyer], [supplier] and [min_amount],
    and none occurs twice. *)
Theorem heuristic_filter_keys :
  forall (query : string),
    let fs := g_filters (_heuristic_parse float_of_string query) in
    List.NoDup (Py.keys fs)
    /\ List.incl (Py.keys fs) ["year"; "buyer"; "supplier"; "min_amount"].
Proof.
  intros query. unfold _heuristic_parse. cbn [g_filters]. cbv zeta.
  repeat match goal with
  | |- _ /\ List.incl (Py.keys (match ?x with _ => _ end)) _ => destruct x
  | |- _ /\ List.incl (Py.keys (if ?x then _ else _)) _ => destruct x
  | |- _ /\ List.incl (Py.keys (Py.dict_set _ _ _)) _ =>
      apply dict_set_keys; [simpl; tauto|]
  end.
  all: split; [constructor | intros x []].
Qed.

Lemma year_digits (c d : ascii) (hi lo : ascii) :
  (hi = "1"%char /\ lo = "9"%char) \/ (hi = "2"%char /\ lo = "0"%char) ->
  is_digit c = true -> is_digit d = true ->
  exists y,
    int_of (String hi (String lo (String c (String d "")))) = Some y
    /\ 1900 <= y <= 2099.
Proof.
  intros Hcentury Hc Hd. unfold int_of.
  assert (Hall : forallb is_digit
                   (String hi (String lo (String c (String d "")))) = true).
  { cbn [forallb]. rewrite Hc, Hd.
    destruct Hcentury as [[-> ->] | [-> ->]]; reflexivity. }
  rewrite Hall. cbn [String.eqb negb andb]. eexists. split; [reflexivity|].
  unfold is_digit, between in Hc, Hd.
  apply andb_true_iff in Hc as [Hc1 Hc2]. apply andb_true_iff in Hd as [Hd1 Hd2].
  apply N.leb_le in Hc1, Hc2, Hd1, Hd2.
  cbn [digits_value].
  destruct Hcentury as [[-> ->] | [-> ->]].
  - replace (Z.of_N (code "1")) with 49 by reflexivity.
    replace (Z.of_N (code "9")) with 57 by reflexivity. lia.
  - replace (Z.of_N (code "2")) with 50 by reflexivity.
    replace (Z.of_N (code "0")) with 48 by reflexivity. lia.
Qed.

Lemma year_match_at (pos : nat) (prev : option ascii) (rest : string)
    (m : Re.rmatch) :
  Re.match_at false year_re pos prev rest = Some m ->
  exists y, int_of (Re.m_text m) = Some y /\ 1900 <= y <= 2099.
Proof.
  unfold Re.match_at, year_re, century, digit.
  destruct rest as [|a [|b [|c [|d tail]]]]; simpl;
    repeat match goal with
    | |- context [if ?t then _ else _] => destruct t eqn:?; simpl
    end; try discriminate;
    intros [= <-]; cbn [Re.m_text];
    replace (S (S (S (S pos))) - pos)%nat with 4%nat by lia;
    cbn [take];
    apply year_digits; try assumption;
    repeat match goal with
    | H : Ascii.eqb _ _ = true |- _ => apply Ascii.eqb_eq in H
    end; tauto.
Qed.

Lemma year_search (pos : nat) (prev : option ascii) (rest : string)
    (m : Re.rmatch) :
  Re.search_from false year_re pos prev rest = Some m ->
  exists y, int_of (Re.m_text m) = Some y /\ 1900 <= y <= 2099.
Proof.
  revert pos prev. induction rest as [|c rest IH]; intros pos prev H;
    cbn [Re.search_from] in H.
  - destruct (Re.match_at false year_re pos prev "") eqn:E; [|discriminate].
    injection H as <-. apply (year_match_at _ _ _ _ E).
  - destruct (Re.match_at false year_re pos prev (String c rest)) eqn:E.
    + injection H as <-. apply (year_match_at _ _ _ _ E).
    + apply (IH _ _ H).
Qed.

(** X19.  A year that the heuristics put into the filters is an
    integer from 1900 to 2099, not a string. *)
Theorem heuristic_year_range :
  forall (query : string) (v : pyval),
    Py.dict_get "year" (g_filters (_heuristic_parse float_of_string query))
    = Some v ->
    exists y, v = VInt y /\ 1900 <= y <= 2099.
Proof.
  intros query v. unfold _heuristic_parse. cbn [g_filters]. cbv zeta.
  set (f0 := match Re.search false year_re (lower query) with
             | Some year_match =>
                 match int_of (Re.group 0 year_match) with
                 | Some y => Py.dict_set "year" (VInt y) []
                 | None => []
                 end
             | None => []
             end).
  assert (H0 : Py.dict_get "year" f0 = Some v ->
               exists y, v = VInt y /\ 1900 <= y <= 2099).
  { subst f0. destruct (Re.search false year_re (lower query)) as [m|] eqn:Es;
      [|discriminate].
    apply year_search in Es as (y & Hy & Hrange). cbn [Re.group].
    rewrite Hy. simpl. intros [= <-]. exists y. split; [reflexivity | exact Hrange]. }
  repeat match goal with
  | |- Py.dict_get "year" (match ?x with _ => _ end) = _ -> _ => destruct x
  | |- Py.dict_get "year" (if ?x then _ else _) = _ -> _ => destruct x
  | |- Py.dict_get "year" (Py.dict_set _ _ _) = _ -> _ =>
      rewrite dict_get_set_other by discriminate
  end; exact H0.
Qed.

(** X20.  The names the heuristics capture are trimmed.  A supplier
    in the filters is a string that is not empty and neither starts
    nor ends with a blank, a comma, a dot or a hyphen; a buyer is a
    string that neither starts nor ends with white space. *)
Theorem heuristic_names_trimmed :
  forall (query : string),
    let fs := g_filters (_heuristic_parse float_of_string query) in
    (forall v, Py.dict_get "supplier" fs = Some v ->
       exists s, v = VStr s /\ s <> ""
         /\ (forall c r, s = String c r -> mem_char c " ,.-" = false)
         /\ (forall c r, String.rev s = String c r -> mem_char c " ,.-" = false))
    /\ (forall v, Py.dict_get "buyer" fs = Some v ->
          exists s, v = VStr s
            /\ (forall c r, s = String c r -> is_space c = false)
            /\ (forall c r, String.rev s = String c r -> is_space c = false)).
Proof.
  intros query. unfold _heuristic_parse. cbn [g_filters]. cbv zeta. split.
  - intros v.
    repeat match goal with
    | |- Py.dict_get "supplier" (match ?x with _ => _ end) = _ -> _ =>
        destruct x eqn:?
    | |- Py.dict_get "supplier" (if ?x then _ else _) = _ -> _ =>
        destruct x eqn:?
    | |- Py.dict_get "supplier" (Py.dict_set "supplier" _ _) = _ -> _ =>
        rewrite dict_get_set_same
    | |- Py.dict_get "supplier" (Py.dict_set _ _ _) = _ -> _ =>
        rewrite dict_get_set_other by discriminate
    end; try discriminate.
    all: intros [= <-]; eexists; split; [reflexivity|];
      match goal with
      | H : Py.truthy (VStr _) = true |- ?s <> "" /\ _ =>
          change (Py.truthy (VStr s) = true) in H;
          split; [intros E; rewrite E in H; discriminate H|];
          split; intros first others; unfold strip_chars;
            [apply (proj1 (StripFacts.strip_with_ends
                             (fun c => mem_char c " ,.-") _ first others))
            |apply (proj2 (StripFacts.strip_with_ends
                             (fun c => mem_char c " ,.-") _ first others))]
      end.
  - intros v.
    repeat match goal with
    | |- Py.dict_get "buyer" (match ?x with _ => _ end) = _ -> _ =>
        destruct x eqn:?
    | |- Py.dict_get "buyer" (if ?x then _ else _) = _ -> _ =>
        destruct x eqn:?
    | |- Py.dict_get "buyer" (Py.dict_set "buyer" _ _) = _ -> _ =>
        rewrite dict_get_set_same
    | |- Py.dict_get "buyer" (Py.dict_set _ _ _) = _ -> _ =>
        rewrite dict_get_set_other by discriminate
    end; try discriminate.
    all: intros [= <-]; eexists; split; [reflexivity|];
      split; intros first others; unfold strip;
        [apply (proj1 (StripFacts.strip_with_ends is_space _ first others))
        |apply (proj2 (StripFacts.strip_with_ends is_space _ first others))].
Qed.

End HeuristicFacts.

(** ** The formatter *)

Section FormatterFacts.
Import PyStr.
Variable float_repr : float -> string.
Variable ellipsis : string.



Lemma key_in_dict (key : string) (d : pydict) :
  existsb (String.eqb key) (Py.keys d)
  = match Py.dict_get key d with Some _ => true | None => false end.
Proof.
  induction d as [|[k v] d IH]; simpl; [reflexivity|].
  destruct (String.eqb key k); [reflexivity | exact IH].
Qed.

Lemma pieces_of_dict (d : pydict) (keys : list string) :
  pieces_of float_repr (VDict d) keys
  = Ok (List.concat (map (piece_for float_repr d) keys)).
Proof.
  induction keys as [|key keys IH]; [reflexivity|].
  cbn [pieces_of key_in bind]. rewrite key_in_dict, IH.
  cbn [map List.concat item].
  assert (Hpiece : piece_for float_repr d key
                   = match Py.dict_get key d with
                     | Some v =>
                         if Py.truthy v
                         then [capitalize key ++ ": " ++ str float_repr v]
                         else []
                     | None => []
                     end) by reflexivity.
  rewrite Hpiece. destruct (Py.dict_get key d) as [v|]; reflexivity.
Qed.

Lemma piece_for_not_empty (d : pydict) (key piece : string) :
  List.In piece (piece_for float_repr d key) -> piece <> "".
Proof.
  unfold piece_for. destruct (Py.dict_get key d) as [v|]; [|intros []].
  destruct (Py.truthy v); [|intros []]. intros [<- | []].
  destruct key; simpl; discriminate.
Qed.

(** X22.  The summary of a record that holds something under one of
    the keys [buyer], [supplier], [amount], [status] is read off these
    four lookups alone, in this order: it is not empty, needs no JSON
    encoding of the record, and is the same for two records that
    answer the four lookups alike, whatever else they hold and in
    whatever order. *)
Theorem summary_from_shown_keys :
  forall (d1 d2 : pydict) (key : string) (v : pyval),
    List.In key shown_keys ->
    Py.dict_get key d1 = Some v ->
    Py.truthy v = true ->
    (forall k, List.In k shown_keys -> Py.dict_get k d1 = Py.dict_get k d2) ->
    exists text,
      _summarise_record float_repr (VDict d1) = Ok text
      /\ _summarise_record float_repr (VDict d2) = Ok text
      /\ text <> ""
      /\ text = join " | " (List.concat (map (piece_for float_repr d1) shown_keys)).
Proof.
  intros d1 d2 key v Hkey Hget Htruthy Hsame.
  assert (Hpieces : map (piece_for float_repr d2) shown_keys = map (piece_for float_repr d1) shown_keys).
  { apply List.map_ext_in. intros k Hk. unfold piece_for.
    rewrite (Hsame k Hk). reflexivity. }
  assert (Hin : List.In (capitalize key ++ ": " ++ str float_repr v)
                  (List.concat (map (piece_for float_repr d1) shown_keys))).
  { apply List.in_concat. exists (piece_for float_repr d1 key).
    split; [apply List.in_map; exact Hkey|].
    unfold piece_for. rewrite Hget, Htruthy. left. reflexivity. }
  exists (join " | " (List.concat (map (piece_for float_repr d1) shown_keys))).
  unfold _summarise_record. rewrite !pieces_of_dict, Hpieces. cbn [bind].
  destruct (List.concat (map (piece_for float_repr d1) shown_keys)) as [|x xs] eqn:Ec;
    [destruct Hin|].
  cbn [bind]. repeat split.
  apply PyStrFacts.join_not_empty; [discriminate|].
  apply List.Forall_forall. intros piece Hp. rewrite <- Ec in Hp.
  apply List.in_concat in Hp as (l & Hl & Hp).
  apply List.in_map_iff in Hl as (k & <- & _).
  apply (piece_for_not_empty d1 k). exact Hp.
Qed.

End FormatterFacts.

(** ** The populate script *)

Section ScriptFacts.
Import PyStr.

Lemma collect_batch (records : list pyval) :
  forall (idx : Z) (acc b : batch),
    collect idx records acc = Ok b ->
    ids b = (ids acc
             ++ map (fun i => of_int (idx + Z.of_nat i))
                  (seq 0 (length records)))%list
    /\ batch_metadatas b = (batch_metadatas acc ++ records)%list
    /\ length (batch_documents b)
       = (length (batch_documents acc) + length records)%nat.
Proof.
  induction records as [|record rest IH]; intros idx acc b; simpl.
  - intros [= <-]. rewrite !List.app_nil_r. repeat split; lia.
  - destruct (document_of record) as [document|]; [|discriminate].
    cbn [bind]. intros H. apply IH in H as (Hids & Hmetas & Hdocs).
    cbn [ids batch_metadatas batch_documents] in *.
    split; [|split].
    + rewrite Hids, <- List.app_assoc. simpl. do 2 f_equal.
      * f_equal. lia.
      * rewrite <- List.seq_shift, List.map_map.
        apply List.map_ext. intros i. f_equal. lia.
    + rewrite Hmetas, <- List.app_assoc. reflexivity.
    + rewrite Hdocs, List.length_app. simpl. lia.
Qed.

Lemma ids_distinct (n : nat) :
  List.NoDup (map (fun i => of_int (0 + Z.of_nat i)) (seq 0 n)).
Proof.
  apply Finite.Injective_map_NoDup; [|apply List.seq_NoDup].
  intros i j H. unfold of_int in H. apply (inj pretty) in H. lia.
Qed.

(** X23.  When the script adds a batch to the collection, the batch
    is not empty, its three lists have one entry for each record of
    the source, the metadata are the records themselves, and the ids,
    the positions printed in decimal, are all different. *)
Theorem populate_batch :
  forall (collection target suffix : string) (loaded : result pyval)
         (b : batch),
    populate collection suffix loaded = Added target b ->
    target = collection
    /\ loaded = Ok (VList (batch_metadatas b))
    /\ batch_metadatas b <> []
    /\ length (ids b) = length (batch_metadatas b)
    /\ length (batch_documents b) = length (batch_metadatas b)
    /\ List.NoDup (ids b).
Proof.
  intros collection target suffix loaded b. unfold populate, load_records.
  destruct (String.eqb (lower suffix) ".json"); [|discriminate].
  destruct loaded as [data|e]; [|discriminate]. cbn [bind].
  assert (Hcases : (exists items, data = VList items)
                   \/ (match data with VList items => Ok items | _ => Ok [] end)
                      = Ok []).
  { destruct data; eauto. }
  destruct Hcases as [[items ->] | ->]; [|simpl; discriminate].
  cbn [bind].
  destruct (collect 0 items (mkBatch [] [] [])) as [b0|e] eqn:Ec;
    [|discriminate].
  apply collect_batch in Ec as (Hids & Hmetas & Hdocs).
  simpl in Hids, Hmetas, Hdocs.
  destruct (ids b0) as [|i is_] eqn:Ei; [discriminate|].
  intros [= <- <-]. rewrite Hmetas, Ei.
  split; [reflexivity|]. split; [reflexivity|].
  assert (Hlen : length (i :: is_) = length items).
  { rewrite Hids, List.length_map, List.length_seq. reflexivity. }
  split; [destruct items; [discriminate Hlen | discriminate]|].
  split; [exact Hlen|]. split; [exact Hdocs|].
  rewrite Hids. apply ids_distinct.
Qed.

(** X24.  The script adds nothing in three cases.  A path whose suffix
    is not [.json], in whatever case, ends in a [ValueError] before
    the file is read; a JSON file that holds no array, or an empty
    one, ends in [SystemExit]; an array with a record that is no
    mapping ends in the [AttributeError] of its [get]. *)
Theorem populate_refusals :
  forall (collection suffix : string),
    (lower suffix <> ".json" ->
     forall loaded, exists msg,
       populate collection suffix loaded = Uncaught (ValueError msg))
    /\ (lower suffix = ".json" ->
        forall data,
          (forall items, data = VList items -> items = []) ->
          populate collection suffix (Ok data)
          = SystemExit "No records found in source file")
    /\ (lower suffix = ".json" ->
        forall before record after,
          List.Forall (fun r => is_dict r = true) before ->
          is_dict record = false ->
          populate collection suffix (Ok (VList (before ++ record :: after)))
          = Uncaught AttributeError).
Proof.
  intros collection suffix. split; [|split].
  - intros Hne loaded. unfold populate, load_records.
    apply String.eqb_neq in Hne. rewrite Hne. eauto.
  - intros Heq data Hdata. unfold populate, load_records.
    apply String.eqb_eq in Heq. rewrite Heq. cbn [bind].
    destruct data; try reflexivity. rewrite (Hdata l eq_refl). reflexivity.
  - intros Heq before record after Hbefore Hrecord.
    unfold populate, load_records.
    apply String.eqb_eq in Heq. rewrite Heq. cbn [bind].
    assert (H : forall idx acc,
               collect idx (before ++ record :: after) acc
               = Raise AttributeError).
    { induction Hbefore as [|r before Hr _ IH]; intros idx acc; simpl.
      - destruct record; try discriminate Hrecord; reflexivity.
      - destruct r; try discriminate Hr. unfold document_of. cbn [Py.get bind].
        destruct (Py.truthy _); cbn [bind]; apply IH. }
    rewrite H. reflexivity.
Qed.

End ScriptFacts.

(** ** The search service *)

Section ServiceFacts.
Import PyStr.
Variable float_repr : float -> string.
Variable float_of_string : string -> option float.
Variable json_loads : string -> option pyval.
Variable ellipsis : string.

Lemma heuristic_metrics_texts (query : string) :
  List.Forall (fun m => exists s, m = VStr s)
    (g_metrics (_heuristic_parse float_of_string query)).
Proof.
  unfold _heuristic_parse. cbn [g_metrics]. cbv zeta.
  match goal with |- List.Forall _ (if ?x then _ else _) => destruct x end;
    repeat constructor; eexists; reflexivity.
Qed.

Lemma build_params_json (self : SoQLBuilder) (p : QueryParams)
    (resolved : option ResolvedEntity) (payload : soql_payload) :
  build float_repr self p resolved = Ok payload ->
  Spec.json_data (VDict (params payload)) = true.
Proof.
  unfold build. rewrite _build_where_clauses. cbn [bind].
  destruct (Py.truthy _); destruct (metrics p) as [|m ms]; cbn [bind];
    try (destruct (strings_of (m :: ms)); cbn [bind]; [|discriminate]);
    intros [= <-]; destruct (limit p); reflexivity.
Qed.

(** X25.  The channel decides the formatting and nothing else.  For
    every service, query and state, the state [search] leaves behind
    is the same for every channel, every channel other than
    [whatsapp] gives the same outcome, and two channels that both
    return give the same rows under [raw]. *)
Theorem search_channel_only_formats :
  forall (self : SearchService) (query_text ch1 ch2 : string) (w : World),
    let run := search float_repr float_of_string json_loads ellipsis self
                 query_text in
    snd (run ch1 w) = snd (run ch2 w)
    /\ (ch1 <> "whatsapp" -> ch2 <> "whatsapp" -> run ch1 w = run ch2 w)
    /\ (forall out1 out2,
          fst (run ch1 w) = Ok out1 ->
          fst (run ch2 w) = Ok out2 ->
          exists data1 data2 rows,
            out1 = VDict [("data", data1); ("raw", rows)]
            /\ out2 = VDict [("data", data2); ("raw", rows)]).
Proof.
  intros self query_text ch1 ch2 w run. subst run. unfold search.
  destruct (let! p := parse _ _ _ _ _ in _) as [[p payload]|e].
  2: { repeat split. intros out1 out2 H. discriminate H. }
  destruct (query _ _ _ _ _) as [[rows|e] w'].
  2: { repeat split. intros out1 out2 H. discriminate H. }
  split; [reflexivity|]. split.
  - intros H1 H2. apply String.eqb_neq in H1, H2. rewrite H1, H2.
    reflexivity.
  - intros out1 out2. cbn [fst].
    destruct (if String.eqb ch1 _ then _ else _) as [data1|];
      [|discriminate].
    destruct (if String.eqb ch2 _ then _ else _) as [data2|];
      [|discriminate].
    cbn [bind]. intros [= <-] [= <-]. eauto.
Qed.

(** X26.  The service that [create_default_service] builds answers no
    query.  Whatever the text and the channel, [search] reads the text
    with the heuristics, builds the request, asks the placeholder
    client four times, pausing after the first three failures, and
    raises [RemoteQueryError] with the placeholder's message; nothing
    is cached. *)
Theorem default_service_unconfigured :
  forall (query_text channel : string) (w : World),
    search float_repr float_of_string json_loads ellipsis
      create_default_service query_text channel w
    = (Raise (RemoteQueryError unconfigured_message),
       mkWorld (4 + served w)
         ((0.5%float, 3) :: (0.5%float, 2) :: (0.5%float, 1) :: slept w)
         (store w)).
Proof.
  intros query_text channel w. unfold search.
  destruct (parse_heuristic float_repr float_of_string json_loads query_text)
    as (e & _ & _ & Hparse).
  cbv zeta in Hparse. cbn [create_default_service _parser].
  rewrite Hparse. cbn [bind].
  set (p := mkQueryParams _ _ _ _ _).
  destruct (to_json_flat float_repr p
              (heuristic_filters_flat float_of_string query_text)
              (heuristic_metrics_flat float_of_string query_text))
    as [text ->].
  cbn [bind].
  destruct (strings_of_texts _ (heuristic_metrics_texts query_text))
    as [names Hnames].
  destruct (build_total float_repr (mkSoQLBuilder ∅) p
              (_resolve_entity create_default_service p) names Hnames)
    as [payload Hbuild].
  cbn [create_default_service _builder] in *. rewrite Hbuild. cbn [bind].
  apply build_params_json in Hbuild.
  destruct (json_data_dumps float_repr true _ Hbuild) as [encoded Hkey].
  unfold query. cbv zeta.
  change (default [] (Some (params payload))) with (params payload).
  unfold _cache_key. rewrite Hkey. cbn [bind].
  unfold redis_get. cbn [_secop _redis].
  do 4 (rewrite retry_loop_step;
        cbn [_client _max_retries _retry_backoff _UnconfiguredClient
             sleep served slept store Z.add Z.gtb Z.compare
             Pos.add Pos.succ Pos.compare Pos.compare_cont]).
  reflexivity.
Qed.

End ServiceFacts.

(* ================================================================== *)
(** * The properties at concrete inputs *)
(* ================================================================== *)

(** The examples below hold no float and decode two JSON texts, so the
    library functions are instantiated as far as the examples go. *)
Module Sample.

Definition float_repr (x : float) : string := "".
Definition float_of_string (s : string) : option float := None.

(** The JSON object whose one member, [entity], is the number 123. *)
Definition entity_123 : string :=
  "{" ++ String PyStr.dquote "entity" ++ String PyStr.dquote ": 123}".

(** A decoder that knows the empty array and the object above, and
    rejects everything else. *)
Definition json_loads (s : string) : option pyval :=
  if String.eqb s "[]" then Some (VList [])
  else if String.eqb s entity_123 then Some (VDict [("entity", VInt 123)])
  else None.

Definition w0 : World := mkWorld 0 [] ∅.

(** A remote that is down, behind a client with three retries and no
    cache. *)
Definition down : SecopClient :=
  mkSecopClient (fun _ _ _ => inl "down") false 3 1%float.

(** A client with a cache that holds the rows of the empty query. *)
Definition cached : SecopClient :=
  mkSecopClient (fun _ _ _ => inl "down") true 3 1%float.

Definition w_cached : World :=
  mkWorld 0 [] {[ "secop:ds:{}" := ("[]", 300) ]}.

(** A model that answers with text that is no JSON. *)
Definition chatty : llm_client := fun _ => Ok (VStr "not-json").

Definition ministry : string :=
  "Contratos de la entidad Ministerio de Salud 2022".

Definition tagged : QueryParams :=
  mkQueryParams "contracts" [("tags", VDict [("x", VInt 1)])] [] "" None.

Definition mixed : QueryParams :=
  mkQueryParams "contracts"
    [("buyer", VStr "O'Hara"); ("year", VInt 2023);
     ("status", VList [VStr "open"; VInt 2]); ("owner", VNone)]
    [VStr "total_amount"] "" (Some 10).

Definition builder : SoQLBuilder :=
  mkSoQLBuilder {[ "contracts" := "default-dataset" ]}.

Definition resolved : ResolvedEntity :=
  mkResolvedEntity "Contracts" 1%float [("dataset_id", VStr "secop-123")].

End Sample.

Lemma query_retries_exactly_witness :
  0 <= _max_retries Sample.down
  /\ fst (query Sample.float_repr Sample.json_loads Sample.down "ds" None
            Sample.w0)
     = Raise (RemoteQueryError "down")
  /\ served (snd (query Sample.float_repr Sample.json_loads Sample.down "ds"
                    None Sample.w0))
     = 4%nat.
Proof.
  assert (Hmax : 0 <= _max_retries Sample.down) by (simpl; lia).
  split; [exact Hmax|].
  destruct (query_retries_exactly Sample.float_repr Sample.json_loads
              Sample.down "ds" None Sample.w0 Hmax) as (Hraise & Hfail & _).
  destruct (Hfail "secop:ds:{}" eq_refl (or_introl eq_refl)
              (fun i => ex_intro _ "down" eq_refl)) as [cause Hcause].
  destruct (Hraise cause Hcause) as (Hserved & _ & Hlast).
  injection Hlast as <-.
  split; [exact Hcause | exact Hserved].
Defined.

Lemma query_cache_hit_witness :
  _redis Sample.cached = true
  /\ _cache_key Sample.float_repr "ds" [] = Ok "secop:ds:{}"
  /\ store Sample.w_cached !! "secop:ds:{}" = Some ("[]", 300)
  /\ query Sample.float_repr Sample.json_loads Sample.cached "ds" None
       Sample.w_cached
     = (Ok (VList []), Sample.w_cached).
Proof.
  split; [reflexivity|]. split; [reflexivity|]. split; [reflexivity|].
  apply (query_cache_hit Sample.float_repr Sample.json_loads Sample.cached
           "ds" None Sample.w_cached "secop:ds:{}" "[]" 300 (VList [])
           eq_refl eq_refl eq_refl eq_refl).
Defined.

Lemma parse_falls_back_on_chatter :
  exists p,
    parse Sample.float_repr Sample.float_of_string Sample.json_loads
      (Some Sample.chatty) Sample.ministry = Ok p
    /\ entity p = "agencies"
    /\ Py.dict_get "year" (filters p) = Some (VInt 2022)
    /\ exists buyer,
         Py.dict_get "buyer" (filters p) = Some (VStr buyer)
         /\ buyer <> "".
Proof.
  assert (Hu : forall prompt,
             Spec.no_usable_model Sample.json_loads (Some Sample.chatty) prompt).
  { intros prompt. apply Spec.unusable_not_json. reflexivity. }
  destruct (_build_prompt_total Sample.float_repr Sample.ministry)
    as [prompt Hprompt].
  destruct (parse_falls_back_without_usable_model Sample.float_repr
              Sample.float_of_string Sample.json_loads (Some Sample.chatty)
              Sample.ministry prompt Hprompt (Hu prompt))
    as (p & Hparse & _ & _ & Hexample).
  exists p. split; [exact Hparse|]. apply Hexample. reflexivity.
Qed.

Lemma parse_raises_on_malformed_entity_witness :
  123 <> 0
  /\ Sample.json_loads Sample.entity_123 = Some (VDict [("entity", VInt 123)])
  /\ parse Sample.float_repr Sample.float_of_string Sample.json_loads
       (Some (fun _ => Ok (VStr Sample.entity_123))) Sample.ministry
     = Raise AttributeError.
Proof.
  assert (Hn : 123 <> 0) by discriminate.
  split; [exact Hn|]. split; [reflexivity|].
  exact (parse_raises_on_malformed_entity Sample.float_repr
           Sample.float_of_string Sample.json_loads Sample.ministry
           Sample.entity_123 123 Hn eq_refl).
Defined.

(** C5, as stated, at a filter whose value is a mapping: the code
    renders a membership clause over the keys, where the statement has
    the JSON encoding of the mapping. *)
Lemma build_where_as_stated_counterexample :
  build Sample.float_repr (mkSoQLBuilder ∅) Sample.tagged None
  = Ok (mkPayload (VStr "contracts") [("$where", VStr "tags IN ('x')")])
  /\ Spec.where_as_stated Sample.float_repr (filters Sample.tagged)
     = Ok ("tags = {" ++ String PyStr.dquote "x" ++ String PyStr.dquote ": 1}")
  /\ Spec.where_as_stated Sample.float_repr (filters Sample.tagged)
     <> Ok "tags IN ('x')".
Proof.
  split; [reflexivity|]. split; [reflexivity|]. discriminate.
Qed.

Lemma build_where_clause_by_kind_witness :
  build Sample.float_repr Sample.builder Sample.mixed None
  = Ok (mkPayload (VStr "default-dataset")
          [("$where",
            VStr ("upper(buyer) LIKE upper('%O''Hara%') AND year = 2023"
                  ++ " AND status IN ('open', 2) AND owner = null"));
           ("$select", VStr "total_amount");
           ("$limit", VInt 10)])
  /\ Py.dict_get "$where"
       [("$where",
         VStr ("upper(buyer) LIKE upper('%O''Hara%') AND year = 2023"
               ++ " AND status IN ('open', 2) AND owner = null"));
        ("$select", VStr "total_amount");
        ("$limit", VInt 10)]
     = Some (VStr ("upper(buyer) LIKE upper('%O''Hara%') AND year = 2023"
                   ++ " AND status IN ('open', 2) AND owner = null")).
Proof.
  assert (Hbuild :
    build Sample.float_repr Sample.builder Sample.mixed None
    = Ok (mkPayload (VStr "default-dataset")
            [("$where",
              VStr ("upper(buyer) LIKE upper('%O''Hara%') AND year = 2023"
                    ++ " AND status IN ('open', 2) AND owner = null"));
             ("$select", VStr "total_amount");
             ("$limit", VInt 10)])) by reflexivity.
  split; [exact Hbuild|].
  exact (build_where_clause_by_kind Sample.float_repr Sample.builder
           Sample.mixed None _ Hbuild).
Defined.

Lemma build_dataset_precedence_witness :
  build Sample.float_repr Sample.builder Sample.mixed (Some Sample.resolved)
  = Ok (mkPayload (VStr "secop-123")
          [("$where",
            VStr ("upper(buyer) LIKE upper('%O''Hara%') AND year = 2023"
                  ++ " AND status IN ('open', 2) AND owner = null"));
           ("$select", VStr "total_amount");
           ("$limit", VInt 10)])
  /\ VStr "secop-123"
     = Spec.select_dataset (_dataset_map Sample.builder)
         (entity Sample.mixed) (Some Sample.resolved).
Proof.
  assert (Hbuild :
    build Sample.float_repr Sample.builder Sample.mixed (Some Sample.resolved)
    = Ok (mkPayload (VStr "secop-123")
            [("$where",
              VStr ("upper(buyer) LIKE upper('%O''Hara%') AND year = 2023"
                    ++ " AND status IN ('open', 2) AND owner = null"));
             ("$select", VStr "total_amount");
             ("$limit", VInt 10)])) by reflexivity.
  split; [exact Hbuild|].
  exact (build_dataset_precedence Sample.float_repr Sample.builder
           Sample.mixed (Some Sample.resolved) _ Hbuild).
Defined.

Lemma cache_key_insertion_order_witness :
  Spec.same_contents
    (VDict [("$where", VStr "year = 2023"); ("$limit", VInt 10)])
    (VDict [("$limit", VInt 10); ("$where", VStr "year = 2023")])
  /\ _cache_key Sample.float_repr "ds"
       [("$where", VStr "year = 2023"); ("$limit", VInt 10)]
     = _cache_key Sample.float_repr "ds"
         [("$limit", VInt 10); ("$where", VStr "year = 2023")].
Proof.
  assert (Hsame :
    Spec.same_contents
      (VDict [("$where", VStr "year = 2023"); ("$limit", VInt 10)])
      (VDict [("$limit", VInt 10); ("$where", VStr "year = 2023")])).
  { simpl. repeat split;
      repeat (apply List.NoDup_cons || apply List.NoDup_nil);
      simpl; intuition discriminate. }
  split; [exact Hsame|].
  exact (cache_key_insertion_order Sample.float_repr "ds" _ _ Hsame).
Defined.

Lemma render_filter_iterables_witness :
  Py.is_number (VSet [VInt 1; VStr "a"]) = false
  /\ _render_filter Sample.float_repr "tags" (VSet [VInt 1; VStr "a"])
     = Ok "tags IN (1, 'a')".
Proof.
  split; [reflexivity|].
  destruct (render_filter_iterables Sample.float_repr "tags"
              (VSet [VInt 1; VStr "a"]) eq_refl
              (fun s H => ltac:(discriminate H))) as [H _].
  exact H.
Defined.

(* ================================================================== *)
(** * The further properties at concrete inputs *)
(* ================================================================== *)

Module Cases.

(** A remote that fails twice and then answers with no rows, behind a
    client with a cache. *)
Definition flaky : SecopClient :=
  mkSecopClient
    (fun n _ _ => if (n <? 2)%nat then inl "down" else inr (VList []))
    true 3 1%float.

(** An index that cannot be reached, one that finds nothing, and one
    that finds two entities. *)
Definition unreachable : chroma_client :=
  fun _ _ _ => Raise (ValueError "connection refused").

Definition barren : chroma_client :=
  fun _ _ _ => Ok (mkChromaResults [[]] [[]] [[]]).

Definition two_hits : chroma_client :=
  fun _ _ _ =>
    Ok (mkChromaResults
          [["Ministerio de Salud"; "Ministerio de Educacion"]]
          [[Some [("dataset_id", VStr "salud-1")]; None]]
          [[0.25%float; 0.5%float]]).

(** A reranker that prefers the second document. *)
Definition second_first : cohere_client :=
  fun _ _ => Ok [mkRerankItem 1 0.75%float; mkRerankItem 0 0.5%float].

(** Two answers of a model, as JSON texts, and a decoder that knows
    them. *)
Definition blank_answer : string :=
  "{" ++ String PyStr.dquote "entity" ++ String PyStr.dquote ": "
      ++ String PyStr.dquote " " ++ String PyStr.dquote "}".

Definition full_answer : string := "full".

Definition full_payload : pydict :=
  [("entity", VStr "suppliers");
   ("filters", VDict [("year", VInt 2021)]);
   ("metrics", VList [VStr "total_amount"]);
   ("limit", VInt 7)].

Definition json_loads (s : string) : option pyval :=
  if String.eqb s blank_answer then Some (VDict [("entity", VStr " ")])
  else if String.eqb s full_answer then Some (VDict full_payload)
  else None.

(** Three dots stand for the horizontal ellipsis. *)
Definition ellipsis : string := "...".


Definition two_records : pyval :=
  VList [VDict [("name", VStr "Ministerio de Salud")];
         VDict [("title", VStr "Alcaldia")]].

End Cases.

Lemma query_then_cached_witness :
  let first := query Sample.float_repr Sample.json_loads Cases.flaky "ds"
                 None Sample.w0 in
  Sample.json_loads "[]" = Some (VList [])
  /\ fst first = Ok (VList [])
  /\ served (snd first) = 3%nat
  /\ store (snd first) = {[ "secop:ds:{}" := ("[]", 300) ]}
  /\ query Sample.float_repr Sample.json_loads Cases.flaky "ds" None
       (snd first)
     = (Ok (VList []), snd first).
Proof.
  assert (Hfails : forall i, (i < 2)%nat ->
            Spec.fails Cases.flaky "ds" (default [] None)
              (served Sample.w0 + i)%nat).
  { intros [|[|i]] Hi; [exists "down"; reflexivity ..|lia]. }
  assert (Hmax : Z.of_nat 2 <= _max_retries Cases.flaky) by (simpl; lia).
  destruct (query_then_cached Sample.float_repr Sample.json_loads
              Cases.flaky "ds" None Sample.w0 "secop:ds:{}" "[]" 2%nat
              (VList []) eq_refl eq_refl eq_refl Hfails eq_refl Hmax
              eq_refl eq_refl) as (Hfirst & Hstore & Hsecond).
  split; [reflexivity|]. split; [exact Hfirst|].
  split; [reflexivity|]. split; [exact Hstore | exact Hsecond].
Defined.

Lemma resolve_chroma_failure_witness :
  resolve (mkEntityResolver (Some Cases.unreachable) "entities" None)
    "Ministerio" 5
  = Some (mkResolvedEntity "Ministerio" 1%float []).
Proof.
  exact (resolve_chroma_failure Cases.unreachable "entities" None
           "Ministerio" 5 (ValueError "connection refused") eq_refl).
Defined.

Lemma resolve_no_hit_witness :
  resolve (mkEntityResolver (Some Cases.barren) "entities" None)
    "Ministerio" 5
  = Some (mkResolvedEntity "Ministerio" 0%float []).
Proof.
  exact (resolve_no_hit Cases.barren "entities" None "Ministerio" 5
           (mkChromaResults [[]] [[]] [[]]) eq_refl (or_introl eq_refl)).
Defined.

Lemma resolve_first_hit_witness :
  resolve (mkEntityResolver (Some Cases.two_hits) "entities" None)
    "Ministerio" 5
  = Some (mkResolvedEntity "Ministerio de Salud"
            (PrimFloat.sub 1%float 0.25%float)
            [("dataset_id", VStr "salud-1")]).
Proof.
  exact (resolve_first_hit Cases.two_hits "entities" None "Ministerio" 5
           _ _ _ _ _ _ _ eq_refl eq_refl eq_refl eq_refl I).
Defined.

Lemma resolve_from_candidates_witness :
  resolve (mkEntityResolver (Some Cases.two_hits) "entities"
             (Some Cases.second_first)) "Ministerio" 5
  = Some (mkResolvedEntity "Ministerio de Educacion" 0.75%float [])
  /\ exists c,
       List.In c
         (_search_chroma
            (mkEntityResolver (Some Cases.two_hits) "entities"
               (Some Cases.second_first)) "Ministerio" 5)
       /\ "Ministerio de Educacion" = name c /\ [] = metadata c.
Proof.
  split; [reflexivity|].
  exact (resolve_from_candidates
           (mkEntityResolver (Some Cases.two_hits) "entities"
              (Some Cases.second_first))
           "Ministerio" 5
           (mkResolvedEntity "Ministerio de Educacion" 0.75%float [])
           eq_refl).
Defined.

Lemma resolve_reranked_top_witness :
  (1 < length
         (_search_chroma
            (mkEntityResolver (Some Cases.two_hits) "entities"
               (Some Cases.second_first)) "Ministerio" 3))%nat
  /\ resolve (mkEntityResolver (Some Cases.two_hits) "entities"
                (Some Cases.second_first)) "Ministerio" 3
     = Some (mkResolvedEntity "Ministerio de Educacion" 0.75%float []).
Proof.
  assert (Hlen : (1 < length
                        (_search_chroma
                           (mkEntityResolver (Some Cases.two_hits) "entities"
                              (Some Cases.second_first)) "Ministerio" 3))%nat)
    by (simpl; lia).
  split; [exact Hlen|].
  exact (resolve_reranked_top
           (mkEntityResolver (Some Cases.two_hits) "entities"
              (Some Cases.second_first))
           Cases.second_first "Ministerio" 3
           (mkRerankItem 1 0.75%float) [mkRerankItem 0 0.5%float]
           (mkResolvedEntity "Ministerio de Educacion"
              (PrimFloat.sub 1%float 0.5%float) [])
           eq_refl Hlen eq_refl eq_refl).
Defined.

Lemma build_params_layout_witness :
  exists names,
    strings_of (metrics Sample.mixed) = Ok names
    /\ [("$where",
         VStr ("upper(buyer) LIKE upper('%O''Hara%') AND year = 2023"
               ++ " AND status IN ('open', 2) AND owner = null"));
        ("$select", VStr "total_amount");
        ("$limit", VInt 10)]
       = [("$where",
           VStr (PyStr.join " AND "
                   (map (fun kv =>
                           Spec.clause Sample.float_repr (fst kv) (snd kv))
                      (filters Sample.mixed))));
          ("$select", VStr (PyStr.join ", " names));
          ("$limit", VInt 10)].
Proof.
  exact (build_params_layout Sample.float_repr Sample.builder Sample.mixed
           None
           (mkPayload (VStr "default-dataset")
              [("$where",
                VStr ("upper(buyer) LIKE upper('%O''Hara%') AND year = 2023"
                      ++ " AND status IN ('open', 2) AND owner = null"));
               ("$select", VStr "total_amount");
               ("$limit", VInt 10)])
           eq_refl).
Defined.

Lemma like_clause_injective_witness :
  _render_filter Sample.float_repr "buyer" (VStr "O'Hara")
  = Ok "upper(buyer) LIKE upper('%O''Hara%')"
  /\ "O'Hara" = "O'Hara".
Proof.
  split; [reflexivity|].
  exact (like_clause_injective Sample.float_repr "buyer" "O'Hara" "O'Hara"
           eq_refl).
Defined.

Lemma parse_result_valid_witness :
  parse Sample.float_repr Sample.float_of_string Cases.json_loads
    (Some (fun _ => Ok (VStr Cases.full_answer))) "top 7"
  = Ok (mkQueryParams "suppliers" [("year", VInt 2021)]
          [VStr "total_amount"] "top 7" (Some 7))
  /\ Spec.valid_args "suppliers" (Some 7) = true
  /\ "top 7" = "top 7".
Proof.
  split; [reflexivity|].
  exact (parse_result_valid Sample.float_repr Sample.float_of_string
           Cases.json_loads (Some (fun _ => Ok (VStr Cases.full_answer)))
           "top 7"
           (mkQueryParams "suppliers" [("year", VInt 2021)]
              [VStr "total_amount"] "top 7" (Some 7))
           eq_refl).
Defined.


Lemma parse_uses_model_answer_witness :
  Cases.json_loads Cases.full_answer = Some (VDict Cases.full_payload)
  /\ parse Sample.float_repr Sample.float_of_string Cases.json_loads
       (Some (fun _ => Ok (VStr Cases.full_answer))) "top 7"
     = Ok (mkQueryParams "suppliers" [("year", VInt 2021)]
             [VStr "total_amount"] "top 7" (Some 7)).
Proof.
  split; [reflexivity|].
  destruct (_build_prompt_total Sample.float_repr "top 7") as [prompt Hprompt].
  assert (Hlimit : 0 < 7) by lia.
  exact (parse_uses_model_answer Sample.float_repr Sample.float_of_string
           Cases.json_loads (fun _ => Ok (VStr Cases.full_answer))
           "top 7" prompt Cases.full_answer Cases.full_payload
           "suppliers" [("year", VInt 2021)] [VStr "total_amount"] 7
           Hprompt eq_refl eq_refl eq_refl eq_refl eq_refl eq_refl eq_refl
           Hlimit eq_refl eq_refl).
Defined.

Lemma heuristic_year_range_witness :
  Py.dict_get "year"
    (g_filters (_heuristic_parse Sample.float_of_string Sample.ministry))
  = Some (VInt 2022)
  /\ exists y, VInt 2022 = VInt y /\ 1900 <= y <= 2099.
Proof.
  assert (Hyear :
    Py.dict_get "year"
      (g_filters (_heuristic_parse Sample.float_of_string Sample.ministry))
    = Some (VInt 2022)) by (vm_compute; reflexivity).
  split; [exact Hyear|].
  exact (heuristic_year_range Sample.float_of_string Sample.ministry
           (VInt 2022) Hyear).
Defined.


Lemma summary_from_shown_keys_witness :
  exists text,
    _summarise_record Sample.float_repr
      (VDict [("id", VInt 1); ("status", VStr "open"); ("buyer", VStr "A")])
    = Ok text
    /\ _summarise_record Sample.float_repr
         (VDict [("buyer", VStr "A"); ("status", VStr "open"); ("id", VInt 2);
                 ("notes", VSet [])])
       = Ok text
    /\ text = "Buyer: A | Status: open".
Proof.
  assert (Hin : List.In "status" shown_keys) by (simpl; tauto).
  assert (Hsame : forall k, List.In k shown_keys ->
            Py.dict_get k
              [("id", VInt 1); ("status", VStr "open"); ("buyer", VStr "A")]
            = Py.dict_get k
                [("buyer", VStr "A"); ("status", VStr "open"); ("id", VInt 2);
                 ("notes", VSet [])]).
  { intros k [<- | [<- | [<- | [<- | []]]]]; reflexivity. }
  destruct (summary_from_shown_keys Sample.float_repr
              [("id", VInt 1); ("status", VStr "open"); ("buyer", VStr "A")]
              [("buyer", VStr "A"); ("status", VStr "open"); ("id", VInt 2);
               ("notes", VSet [])]
              "status" (VStr "open") Hin eq_refl eq_refl Hsame)
    as (text & H1 & H2 & _ & Htext).
  exists text. split; [exact H1|]. split; [exact H2 | exact Htext].
Defined.

Lemma populate_batch_witness :
  populate "entities" ".JSON" (Ok Cases.two_records)
  = Added "entities"
      (mkBatch ["0"; "1"] [VStr "Ministerio de Salud"; VStr "Alcaldia"]
         [VDict [("name", VStr "Ministerio de Salud")];
          VDict [("title", VStr "Alcaldia")]])
  /\ List.NoDup ["0"; "1"].
Proof.
  assert (Hrun :
    populate "entities" ".JSON" (Ok Cases.two_records)
    = Added "entities"
        (mkBatch ["0"; "1"] [VStr "Ministerio de Salud"; VStr "Alcaldia"]
           [VDict [("name", VStr "Ministerio de Salud")];
            VDict [("title", VStr "Alcaldia")]]))
    by (vm_compute; reflexivity).
  split; [exact Hrun|].
  destruct (populate_batch "entities" "entities" ".JSON"
              (Ok Cases.two_records) _ Hrun) as (_ & _ & _ & _ & _ & Hids).
  exact Hids.
Defined.
